(** * The knowledge manager of backend/feddersen/util/knowledge_manager.py

    A shallow embedding of [KnowledgeManager]: the reconciliation and
    batch-upload client of a remote knowledge store.  The remote store is
    an interface (a record of request handlers over an abstract store
    state); the client is written in a small monad that threads the store
    state, records every request with its response, collects the log
    records, and propagates Python exceptions.

    Every request is answered: with status 200 and a body of the shape
    the interface promises, or with another status and a text.  The
    local file system is two parameters: whether a path exists, and
    whether an existing path can be opened and read.  The URLs of the
    requests are left out, and so are their headers except for
    [query_knowledge]; the client session has a model of its own. *)

From Stdlib Require Import ZArith Lia Ascii.
From stdpp Require Import base option list strings gmap pretty.

Local Open Scope string_scope.
Local Open Scope list_scope.

(** ** Python values *)

Inductive Exn : Type :=
| TypeError (msg : string)
| ValueError (msg : string)
| IndexError (msg : string)
| OSError (msg : string).

Inductive Outcome (A : Type) : Type :=
| Return (a : A)
| Raise (e : Exn).
Arguments Return {A} a.
Arguments Raise {A} e.

(** A response body that the client does not look into. *)
Definition Json : Type := string.

(** The values stored in the result records ([Dict]) the client builds. *)
#[warnings="-register-all"]
Inductive PyVal : Type :=
| PyNone
| PyBool (b : bool)
| PyStr (s : string)
| PyJson (j : Json)
| PyDict (d : list (string * PyVal)).

(** A dict literal, in insertion order. *)
Definition Dict : Type := list (string * PyVal).

(** [d.get(k)] *)
Fixpoint dict_get (k : string) (d : Dict) : option PyVal :=
  match d with
  | [] => None
  | (k', v) :: d' => if String.eqb k' k then Some v else dict_get k d'
  end.

(** [d.get(k, dflt)] *)
Definition dict_get_default (k : string) (dflt : PyVal) (d : Dict) : PyVal :=
  default dflt (dict_get k d).

(** [bool(s)] for a string. *)
Definition str_truthy (s : string) : bool := negb (String.eqb s "").

(** [bool(x)] for an optional string: [None] and [""] are falsy. *)
Definition opt_truthy (x : option string) : bool :=
  match x with
  | Some s => str_truthy s
  | None => false
  end.

(** [bool(v)] *)
Definition py_truthy (v : PyVal) : bool :=
  match v with
  | PyNone => false
  | PyBool b => b
  | PyStr s => str_truthy s
  | PyJson _ => true
  | PyDict d => negb (Nat.eqb (length d) 0)
  end.

Definition opt_to_py (x : option string) : PyVal :=
  match x with
  | Some s => PyStr s
  | None => PyNone
  end.

(** [range(start, stop, step)], by iteration; [fuel] bounds the number
    of elements. *)
Fixpoint range_up (fuel : nat) (i stop step : Z) : list Z :=
  match fuel with
  | O => []
  | S fuel' =>
      if (i <? stop)%Z then i :: range_up fuel' (i + step) stop step else []
  end.

Fixpoint range_down (fuel : nat) (i stop step : Z) : list Z :=
  match fuel with
  | O => []
  | S fuel' =>
      if (stop <? i)%Z then i :: range_down fuel' (i + step) stop step else []
  end.

Definition py_range (start stop step : Z) : Outcome (list Z) :=
  if (step =? 0)%Z then Raise (ValueError "range() arg 3 must not be zero")
  else if (0 <? step)%Z
       then Return (range_up (Z.to_nat (stop - start)) start stop step)
       else Return (range_down (Z.to_nat (start - stop)) start stop step).

(** A slice bound, as Python normalises it against the length [n]. *)
Definition slice_bound (n k : Z) : Z :=
  if (k <? 0)%Z then Z.max 0 (k + n) else Z.min k n.

(** [l[lo:hi]] *)
Definition py_slice {A : Type} (l : list A) (lo hi : Z) : list A :=
  let n := Z.of_nat (length l) in
  let a := slice_bound n lo in
  let b := slice_bound n hi in
  take (Z.to_nat (b - a)) (drop (Z.to_nat a) l).

(** [enumerate(l, start)] *)
Fixpoint enumerate_from {A : Type} (start : nat) (l : list A) : list (nat * A) :=
  match l with
  | [] => []
  | x :: l' => (start, x) :: enumerate_from (S start) l'
  end.

(** [enumerate(l)] *)
Definition enumerate {A : Type} (l : list A) : list (nat * A) :=
  enumerate_from 0 l.

(** [s.endswith(suffix)] *)
Definition endswith (s suffix : string) : bool :=
  String.prefix (String.rev suffix) (String.rev s).

Fixpoint lstrip (c : ascii) (s : string) : string :=
  match s with
  | String a s' => if Ascii.eqb a c then lstrip c s' else s
  | EmptyString => EmptyString
  end.

(** [s.strip(c)] for a one-character argument. *)
Definition strip (c : ascii) (s : string) : string :=
  String.rev (lstrip c (String.rev (lstrip c s))).

(** ** The data model *)

(** Modelled from the spec: the pydantic models [ItemPermissions],
    [ItemMetadata] and [ExtraMetadata] of feddersen.models, which is not
    among the sources.  [url] is the external identity; the client tests
    it for truthiness, so it may be absent or empty here. *)
Record ItemPermissions : Type := {
  users : list string;
  groups : list string
}.

Record ItemMetadata : Type := {
  title : string;
  url : option string;
  context_url : option string;
  date : string;
  source : string
}.

Record ExtraMetadata : Type := {
  auth : ItemPermissions;
  metadata : ItemMetadata
}.

(** [FileMetadataResponse]; [meta] is the remote file's dict, whose
    entries are serialized [ExtraMetadata] blobs. *)
Record FileMetadataResponse : Type := {
  id : string;
  meta : gmap string ExtraMetadata;
  created_at : Z;
  updated_at : Z
}.

(** An entry of the list that [GET /knowledge/] returns; the client reads
    it with [kb.get("name")] and [kb.get("id")]. *)
Record KnowledgeSummary : Type := {
  kb_name : option string;
  kb_id : option string
}.

(** The body of [POST /knowledge/create]. *)
Record CreateForm : Type := {
  form_name : string;
  form_description : string;
  form_data : Json;
  form_access_control : Json
}.

(** ** Requests and responses *)

Inductive Response (A : Type) : Type :=
| Status200 (json : A)
| StatusNot200 (text : string).
Arguments Status200 {A} json.
Arguments StatusNot200 {A} text.

(** One request that reached the remote store, with its response. *)
Inductive Event : Type :=
| EvKnowledgeList (r : Response (list KnowledgeSummary))
| EvKnowledgeCreate (form : CreateForm) (r : Response (option string))
| EvKnowledge (knowledge_id : string) (r : Response (list FileMetadataResponse))
| EvKnowledgeDelete (knowledge_id : string) (r : Response Json)
| EvFileUpload (file_path : string) (file_metadata : option ExtraMetadata)
    (r : Response (option string))
| EvFileAdd (knowledge_id file_id : string) (r : Response Json)
| EvFilesBatchAdd (knowledge_id : string) (file_ids : list string) (r : Response Json)
| EvFileRemove (knowledge_id file_id : string) (r : Response Json).

Record LogRecord : Type := {
  levelname : string;
  message : string
}.

(** The remote store client's contract: one handler per endpoint, each a
    transition of the store state [R]. *)
Record RemoteStore (R : Type) : Type := {
  knowledge_list : R -> Response (list KnowledgeSummary) * R;
  knowledge_create : CreateForm -> R -> Response (option string) * R;
  knowledge_get : string -> R -> Response (list FileMetadataResponse) * R;
  knowledge_delete : string -> R -> Response Json * R;
  files_upload : string -> option ExtraMetadata -> R -> Response (option string) * R;
  knowledge_file_add : string -> string -> R -> Response Json * R;
  knowledge_files_batch_add : string -> list string -> R -> Response Json * R;
  knowledge_file_remove : string -> string -> R -> Response Json * R
}.
Arguments knowledge_list {R} _ _.
Arguments knowledge_create {R} _ _ _.
Arguments knowledge_get {R} _ _ _.
Arguments knowledge_delete {R} _ _ _.
Arguments files_upload {R} _ _ _ _.
Arguments knowledge_file_add {R} _ _ _ _.
Arguments knowledge_files_batch_add {R} _ _ _ _.
Arguments knowledge_file_remove {R} _ _ _ _.

(** ** The monad of the client *)

Record Run (R A : Type) : Type := MkRun {
  outcome : Outcome A;
  store_after : R;
  calls : list Event;
  logged : list LogRecord
}.
Arguments MkRun {R A} _ _ _ _.
Arguments outcome {R A} _.
Arguments store_after {R A} _.
Arguments calls {R A} _.
Arguments logged {R A} _.

Definition M (R A : Type) : Type := R -> Run R A.

Definition ret {R A : Type} (a : A) : M R A :=
  fun s => MkRun (Return a) s [] [].

Definition raise {R A : Type} (e : Exn) : M R A :=
  fun s => MkRun (Raise e) s [] [].

Definition bind {R A B : Type} (m : M R A) (k : A -> M R B) : M R B :=
  fun s =>
    let r := m s in
    match outcome r with
    | Raise e => MkRun (Raise e) (store_after r) (calls r) (logged r)
    | Return a =>
        let r' := k a (store_after r) in
        MkRun (outcome r') (store_after r')
              (calls r ++ calls r') (logged r ++ logged r')
    end.

Declare Scope py_scope.
Delimit Scope py_scope with py.
Notation "x <- m ;; k" := (bind m (fun x => k))
  (at level 100, m at next level, right associativity) : py_scope.
Notation "m ;; k" := (bind m (fun _ => k))
  (at level 100, right associativity) : py_scope.
Local Open Scope py_scope.

(** A pure step that may raise. *)
Definition lift {R A : Type} (o : Outcome A) : M R A :=
  fun s => MkRun o s [] [].

(** [self.logger.<level>(msg)] *)
Definition log {R : Type} (level msg : string) : M R unit :=
  fun s => MkRun (Return tt) s [] [{| levelname := level; message := msg |}].

(** One request: run the handler, record the event. *)
Definition request {R A : Type} (handler : R -> Response A * R)
    (ev : Response A -> Event) : M R (Response A) :=
  fun s =>
    let '(r, s') := handler s in
    MkRun (Return r) s' [ev r] [].

(** [for x in l: acc = body x acc] *)
Fixpoint for_in {R A S : Type} (l : list A) (body : A -> S -> M R S) (acc : S)
    : M R S :=
  match l with
  | [] => ret acc
  | x :: l' => acc' <- body x acc ;; for_in l' body acc'
  end.

(** [await asyncio.gather] over the upload tasks: the results come back
    in the order of the tasks, and the first exception that a task
    raises is raised to the caller.  The tasks are run here in their
    order, each to completion, which is one of the schedules of the
    event loop; when a task raises, the tasks after it have sent
    nothing.  What the store has received when [gather] raises depends
    on the schedule; of a run that raises, the theorems state the
    exception and the kind of the requests only. *)
Fixpoint gather {R A : Type} (tasks : list (M R A)) : M R (list A) :=
  match tasks with
  | [] => ret []
  | t :: tasks' => x <- t ;; xs <- gather tasks' ;; ret (x :: xs)
  end.

(** ** KnowledgeManager *)

Record KnowledgeManager : Type := {
  base_url : string;
  api_key : string;
  batch_size : Z;
  headers : list (string * string)
}.

(** [KnowledgeManager.__init__]; [environ] is [os.environ.get]. *)
Definition __init__ (environ : string -> option string)
    (base_url' api_key' : option string) (batch_size' : Z)
    : Outcome KnowledgeManager :=
  let url0 :=
    if opt_truthy base_url' then default "" base_url'
    else default "http://localhost:8080" (environ "OPEN_WEBUI_URL") in
  let url1 :=
    if negb (endswith url0 "/api/v1") then strip "/" url0 +:+ "/api/v1"
    else url0 in
  let key :=
    if opt_truthy api_key' then api_key' else environ "OPEN_WEBUI_API_KEY" in
  if negb (opt_truthy key) then
    Raise (ValueError
      "API key is required. Provide it as parameter or set OPEN_WEBUI_API_KEY environment variable.")
  else
    Return {| base_url := url1;
              api_key := default "" key;
              batch_size := batch_size';
              headers := [("Authorization", "Bearer " +:+ default "" key)] |}.

(** The [metadata] argument of [add_files]: [None] (its default), one
    [ExtraMetadata], or a list of them. *)
Inductive MetadataArg : Type :=
| MetadataNone
| MetadataOne (m : ExtraMetadata)
| MetadataList (l : list ExtraMetadata).

Section Client.
Context {R : Type}.
(** The remote store behind [self.base_url]. *)
Variable store : RemoteStore R.
(** The constant of feddersen.config, which is not among the sources. *)
Variable EXTRA_MIDDLEWARE_METADATA_KEY : string.
(** [Path(file_path).exists()] on the local file system. *)
Variable file_exists : string -> bool.
(** [open(file_path, "rb")] followed by [f.read()]: [None] when the file
    was read, and otherwise the message of the OSError that is raised
    (an IsADirectoryError for a directory, a PermissionError, ...). *)
Variable file_open : string -> option string.

Definition create_knowledge_if_not_exists (name description : string)
    (data access_control : option Json) : M R (option string) :=
  response <- request (knowledge_list store) EvKnowledgeList ;;
  let found :=
    match response with
    | Status200 knowledge_bases =>
        List.find (fun kb => bool_decide (kb_name kb = Some name)) knowledge_bases
    | StatusNot200 _ => None
    end in
  match found with
  | Some kb => ret (kb_id kb)
  | None =>
      let form := {| form_name := name;
                     form_description := description;
                     form_data := default "{}" data;
                     form_access_control := default "{}" access_control |} in
      response <- request (knowledge_create store form) (EvKnowledgeCreate form) ;;
      match response with
      | StatusNot200 response_text =>
          log "ERROR" ("Failed to create knowledge base, response: " +:+ response_text) ;;
          ret None
      | Status200 knowledge_base_id =>
          if negb (opt_truthy knowledge_base_id) then
            (* the message ends with the response body, which is not kept *)
            log "ERROR" "Failed to get knowledge base ID from response: " ;;
            ret None
          else ret knowledge_base_id
      end
  end.

Definition _retrieve_files_in_knowledge (knowledge_id : string)
    : M R (list FileMetadataResponse) :=
  response <- request (knowledge_get store knowledge_id) (EvKnowledge knowledge_id) ;;
  match response with
  | StatusNot200 response_text =>
      log "ERROR" ("Failed to get knowledge base files, response: " +:+ response_text) ;;
      ret []
  | Status200 files => ret files
  end.

Definition _send_file (file_path : string) (metadata' : option ExtraMetadata)
    : M R (option string) :=
  if negb (file_exists file_path) then
    log "ERROR" ("File not found: " +:+ file_path) ;;
    ret None
  else
    match file_open file_path with
    | Some strerror => raise (OSError strerror)
    | None =>
        response <- request (files_upload store file_path metadata')
                            (EvFileUpload file_path metadata') ;;
        match response with
        | StatusNot200 response_text =>
            log "ERROR" ("Failed to upload file: " +:+ file_path +:+ ", response: "
                         +:+ response_text) ;;
            ret None
        | Status200 file_id =>
            if negb (opt_truthy file_id) then
              log "ERROR" ("Failed to get file ID for: " +:+ file_path) ;;
              ret None
            else ret file_id
        end
    end.

(** The body of the loop of [_upload_files_batch] that creates the
    upload tasks; [metadata[i]] is evaluated here, before any task runs. *)
Definition upload_task (metadata' : option (list ExtraMetadata))
    (entry : nat * string) (upload_tasks : list (M R (option string)))
    : M R (list (M R (option string))) :=
  let '(i, file_path) := entry in
  m <- (if negb (Nat.eqb (length (default [] metadata')) 0) then
          match default [] metadata' !! i with
          | Some m => ret (Some m)
          | None => raise (IndexError "list index out of range")
          end
        else ret None) ;;
  ret (upload_tasks ++ [_send_file file_path m]).

Definition _upload_files_batch (file_paths : list string)
    (metadata' : option (list ExtraMetadata)) : M R (list string) :=
  upload_tasks <- for_in (enumerate file_paths) (upload_task metadata') [] ;;
  file_ids <- gather upload_tasks ;;
  ret (omap (fun file_id => if opt_truthy file_id then file_id else None) file_ids).

Definition _add_files_to_kb_batch (knowledge_id : string) (file_ids : list string)
    : M R (list Dict) :=
  if Nat.eqb (length file_ids) 0 then ret []
  else
    response <- request (knowledge_files_batch_add store knowledge_id file_ids)
                        (EvFilesBatchAdd knowledge_id file_ids) ;;
    match response with
    | StatusNot200 response_text =>
        log "ERROR" ("Failed to batch add files to knowledge base, response: "
                     +:+ response_text) ;;
        ret ((fun file_id =>
                [("file_id", PyStr file_id);
                 ("success", PyBool false);
                 ("error", PyStr ("Batch operation failed: " +:+ response_text))])
             <$> file_ids)
    | Status200 batch_result =>
        ret ((fun file_id =>
                [("success", PyBool true);
                 ("result", PyDict [("id", PyStr file_id);
                                    ("batch_result", PyJson batch_result)])])
             <$> file_ids)
    end.

Definition _upload_file_and_add_to_kb (file_path : string)
    (metadata' : ExtraMetadata) (knowledge_id : string) : M R Dict :=
  file_id <- _send_file file_path (Some metadata') ;;
  match file_id with
  | None => ret [("success", PyBool false); ("error", PyStr "Failed to upload file")]
  | Some file_id =>
      response <- request (knowledge_file_add store knowledge_id file_id)
                          (EvFileAdd knowledge_id file_id) ;;
      match response with
      | StatusNot200 response_text =>
          log "ERROR" ("Failed to add file to knowledge base: " +:+ file_path
                       +:+ ", response: " +:+ response_text) ;;
          ret [("success", PyBool false); ("error", PyStr response_text)]
      | Status200 result =>
          ret [("success", PyBool true); ("result", PyJson result)]
      end
  end.

(** The body of the loop of [remove_files]. *)
Definition remove_one (knowledge_id : string) (file_id : string)
    (results : list Dict) : M R (list Dict) :=
  response <- request (knowledge_file_remove store knowledge_id file_id)
                      (EvFileRemove knowledge_id file_id) ;;
  match response with
  | StatusNot200 response_text =>
      log "ERROR" ("Failed to remove file ID " +:+ file_id +:+ ", response: "
                   +:+ response_text) ;;
      ret (results ++ [[("file_id", PyStr file_id);
                        ("success", PyBool false);
                        ("error", PyStr response_text)]])
  | Status200 result =>
      ret (results ++ [[("file_id", PyStr file_id);
                        ("success", PyBool true);
                        ("result", PyJson result)]])
  end.

Definition remove_files (knowledge_id : string) (file_ids : list string)
    : M R (list Dict) :=
  for_in file_ids (remove_one knowledge_id) [].

(** A static method; [file_response] is [None] when the caller found no
    file.  The result, when present, is a non-empty string. *)
Definition _get_item_url_of_file (file_response : option FileMetadataResponse)
    : option string :=
  match file_response with
  | Some file_response =>
      if negb (Nat.eqb (size (meta file_response)) 0) then
        match meta file_response !! EXTRA_MIDDLEWARE_METADATA_KEY with
        | Some extra_meta =>
            if opt_truthy (url (metadata extra_meta))
            then url (metadata extra_meta) else None
        | None => None
        end
      else None
  | None => None
  end.

Definition _get_file_meta_if_exists_in_knowledge
    (knowledge_files : list FileMetadataResponse) (file_metadata : ItemMetadata)
    : option FileMetadataResponse :=
  List.find
    (fun kf =>
       let kf_file_url := _get_item_url_of_file (Some kf) in
       opt_truthy kf_file_url && bool_decide (kf_file_url = url file_metadata))
    knowledge_files.

(** The body of the loop of [update_files]. *)
Definition update_one (knowledge_id : string)
    (knowledge_files : list FileMetadataResponse)
    (entry : string * ExtraMetadata) (results : list Dict) : M R (list Dict) :=
  let '(file_path, file_metadata) := entry in
  let file := _get_file_meta_if_exists_in_knowledge
                knowledge_files (metadata file_metadata) in
  let file_id := id <$> file in
  let file_item_url := _get_item_url_of_file file in
  if negb (opt_truthy file_id) then
    log "WARNING" ("File not found: " +:+ default "None" file_item_url) ;;
    ret (results ++ [[("file_name", opt_to_py file_item_url);
                      ("success", PyBool false);
                      ("error", PyStr "File not found")]])
  else
    remove_result <- remove_files knowledge_id [default "" file_id] ;;
    first <- match remove_result with
             | r :: _ => ret r
             | [] => raise (IndexError "list index out of range")
             end ;;
    if py_truthy (dict_get_default "success" (PyBool false) first) then
      add_result <- _upload_file_and_add_to_kb file_path file_metadata
                      knowledge_id ;;
      ret (results ++ [[("file_name", opt_to_py file_item_url);
                        ("success", PyBool true);
                        ("result", PyDict add_result)]])
    else
      ret (results ++ [[("file_name", opt_to_py file_item_url);
                        ("success", PyBool false);
                        ("error", PyStr "Failed to remove file")]]).

Definition update_files (knowledge_id : string) (file_paths : list string)
    (metadata' : list ExtraMetadata) : M R (list Dict) :=
  knowledge_files <- _retrieve_files_in_knowledge knowledge_id ;;
  for_in (zip file_paths metadata') (update_one knowledge_id knowledge_files) [].

(** The URLs that [add_files] collects from the files of the knowledge
    base, before it turns the list into a set. *)
Definition existing_files_list (knowledge_files : list FileMetadataResponse)
    : list (option string) :=
  foldl
    (fun existing_files file =>
       let meta_data := meta file in
       if negb (Nat.eqb (size meta_data) 0)
          && bool_decide (is_Some (meta_data !! EXTRA_MIDDLEWARE_METADATA_KEY))
       then
         match meta_data !! EXTRA_MIDDLEWARE_METADATA_KEY with
         | Some extra_meta => existing_files ++ [url (metadata extra_meta)]
         | None => existing_files
         end
       else existing_files)
    [] knowledge_files.

Definition existing_files_set (knowledge_files : list FileMetadataResponse)
    : gset (option string) :=
  list_to_set (existing_files_list knowledge_files).

(** The test of the partition loop of [add_files]: upload the document
    ([true]) or skip it.  [item_meta] is a model instance, hence truthy. *)
Definition to_upload (existing_files : gset (option string))
    (meta_data : ExtraMetadata) : bool :=
  let item_meta := metadata meta_data in
  opt_truthy (url item_meta) && negb (bool_decide (url item_meta ∈ existing_files)).

(** The body of the partition loop of [add_files]. *)
Definition select_one (existing_files : gset (option string))
    (entry : string * ExtraMetadata)
    (selected : list string * list ExtraMetadata)
    : M R (list string * list ExtraMetadata) :=
  let '(file_path, meta_data) := entry in
  let '(file_paths_to_upload, metadata_to_upload) := selected in
  if to_upload existing_files meta_data then
    ret (file_paths_to_upload ++ [file_path], metadata_to_upload ++ [meta_data])
  else
    log "WARNING" ("File already exists in knowledge base: " +:+ file_path
                   +:+ ", skipping.") ;;
    ret (file_paths_to_upload, metadata_to_upload).

(** The body of the batch loop of [add_files]. *)
Definition add_batch (self : KnowledgeManager) (knowledge_id : string)
    (file_paths_to_upload : list string) (metadata_to_upload : list ExtraMetadata)
    (i : Z) (results : list Dict) : M R (list Dict) :=
  let batch_files := py_slice file_paths_to_upload i (i + batch_size self) in
  let batch_metadata := py_slice metadata_to_upload i (i + batch_size self) in
  batch_file_ids <- _upload_files_batch batch_files (Some batch_metadata) ;;
  if negb (Nat.eqb (length batch_file_ids) 0) then
    batch_result <- _add_files_to_kb_batch knowledge_id batch_file_ids ;;
    ret (results ++ batch_result)
  else ret results.

Definition add_files (self : KnowledgeManager) (knowledge_id : string)
    (file_paths : list string) (metadata' : MetadataArg) : M R (list Dict) :=
  knowledge_files <- _retrieve_files_in_knowledge knowledge_id ;;
  let existing_files := existing_files_set knowledge_files in
  let metadata' :=
    match metadata' with
    | MetadataOne m => MetadataList (replicate (length file_paths) m)
    | _ => metadata'
    end in
  pairs <- match metadata' with
           | MetadataList l => ret (zip file_paths l)
           | _ => raise (TypeError "zip argument #2 must support iteration")
           end ;;
  selected <- for_in pairs (select_one existing_files) ([], []) ;;
  let '(file_paths_to_upload, metadata_to_upload) := selected in
  starts <- lift (py_range 0 (Z.of_nat (length file_paths_to_upload))
                           (batch_size self)) ;;
  for_in starts
    (add_batch self knowledge_id file_paths_to_upload metadata_to_upload) [].

Definition delete_knowledge (knowledge_id : string) : M R Dict :=
  response <- request (knowledge_delete store knowledge_id)
                      (EvKnowledgeDelete knowledge_id) ;;
  match response with
  | StatusNot200 response_text =>
      log "ERROR" ("Failed to delete knowledge base " +:+ knowledge_id
                   +:+ ", response: " +:+ response_text) ;;
      ret [("success", PyBool false); ("error", PyStr response_text)]
  | Status200 result =>
      ret [("success", PyBool true); ("result", PyJson result)]
  end.

End Client.

(** ** A reference remote store *)

(** Modelled from the spec: the remote knowledge store behind the HTTP
    interface (section 6), which is not among the sources.  Knowledge
    bases are looked up by id, uploaded files receive fresh ids and keep
    the declared [ExtraMetadata] under the reserved key of their [meta]
    dict, attaching needs the knowledge base and the uploaded files to
    exist, and removing needs the file to be attached. *)
Module RefStore.

Record KnowledgeBase : Type := {
  kid : string;
  name : string;
  description : string;
  files : list FileMetadataResponse
}.

Record State : Type := {
  knowledge_bases : list KnowledgeBase;
  uploaded : list FileMetadataResponse;
  next_id : nat
}.

Definition empty : State :=
  {| knowledge_bases := []; uploaded := []; next_id := 0 |}.

Definition summary (kb : KnowledgeBase) : KnowledgeSummary :=
  {| kb_name := Some (name kb); kb_id := Some (kid kb) |}.

Definition find_kb (k : string) (s : State) : option KnowledgeBase :=
  List.find (fun kb => String.eqb (kid kb) k) (knowledge_bases s).

Definition find_file (fid : string) (fs : list FileMetadataResponse)
    : option FileMetadataResponse :=
  List.find (fun f => String.eqb (id f) fid) fs.

(** Replace the files of the first knowledge base with id [k]. *)
Fixpoint set_files (k : string) (fs : list FileMetadataResponse)
    (kbs : list KnowledgeBase) : list KnowledgeBase :=
  match kbs with
  | [] => []
  | kb :: kbs' =>
      if String.eqb (kid kb) k
      then {| kid := kid kb; name := name kb; description := description kb;
              files := fs |} :: kbs'
      else kb :: set_files k fs kbs'
  end.

Definition list_handler (s : State) : Response (list KnowledgeSummary) * State :=
  (Status200 (summary <$> knowledge_bases s), s).

Definition create_handler (form : CreateForm) (s : State)
    : Response (option string) * State :=
  let new_id := "kb-" +:+ pretty (next_id s) in
  (Status200 (Some new_id),
   {| knowledge_bases :=
        knowledge_bases s ++ [{| kid := new_id; name := form_name form;
                                 description := form_description form;
                                 files := [] |}];
      uploaded := uploaded s;
      next_id := S (next_id s) |}).

Definition get_handler (k : string) (s : State)
    : Response (list FileMetadataResponse) * State :=
  match find_kb k s with
  | Some kb => (Status200 (files kb), s)
  | None => (StatusNot200 "knowledge base not found", s)
  end.

Definition delete_handler (k : string) (s : State) : Response Json * State :=
  match find_kb k s with
  | Some _ =>
      (Status200 "true",
       {| knowledge_bases :=
            List.filter (fun kb => negb (String.eqb (kid kb) k)) (knowledge_bases s);
          uploaded := uploaded s;
          next_id := next_id s |})
  | None => (StatusNot200 "knowledge base not found", s)
  end.

Definition upload_handler (key : string) (path : string)
    (m : option ExtraMetadata) (s : State) : Response (option string) * State :=
  let new_id := "file-" +:+ pretty (next_id s) in
  let file := {| id := new_id;
                 meta := match m with
                         | Some e => {[ key := e ]}
                         | None => ∅
                         end;
                 created_at := 0; updated_at := 0 |} in
  (Status200 (Some new_id),
   {| knowledge_bases := knowledge_bases s;
      uploaded := file :: uploaded s;
      next_id := S (next_id s) |}).

(** The uploaded files with the given ids, when all of them exist. *)
Fixpoint lookup_all (fids : list string) (fs : list FileMetadataResponse)
    : option (list FileMetadataResponse) :=
  match fids with
  | [] => Some []
  | fid :: fids' =>
      match find_file fid fs, lookup_all fids' fs with
      | Some f, Some rest => Some (f :: rest)
      | _, _ => None
      end
  end.

Definition batch_add_handler (k : string) (fids : list string) (s : State)
    : Response Json * State :=
  match find_kb k s, lookup_all fids (uploaded s) with
  | Some kb, Some new_files =>
      (Status200 "added",
       {| knowledge_bases := set_files k (files kb ++ new_files) (knowledge_bases s);
          uploaded := uploaded s;
          next_id := next_id s |})
  | None, _ => (StatusNot200 "knowledge base not found", s)
  | _, None => (StatusNot200 "file not found", s)
  end.

Definition add_handler (k fid : string) (s : State) : Response Json * State :=
  batch_add_handler k [fid] s.

Definition remove_handler (k fid : string) (s : State) : Response Json * State :=
  match find_kb k s with
  | Some kb =>
      match find_file fid (files kb) with
      | Some _ =>
          let keep := fun f : FileMetadataResponse => negb (String.eqb (id f) fid) in
          (Status200 "removed",
           {| knowledge_bases :=
                set_files k (List.filter keep (files kb)) (knowledge_bases s);
              uploaded := List.filter keep (uploaded s);
              next_id := next_id s |})
      | None => (StatusNot200 "file not found", s)
      end
  | None => (StatusNot200 "knowledge base not found", s)
  end.

Definition store (key : string) : RemoteStore State :=
  {| knowledge_list := list_handler;
     knowledge_create := create_handler;
     knowledge_get := get_handler;
     knowledge_delete := delete_handler;
     files_upload := upload_handler key;
     knowledge_file_add := add_handler;
     knowledge_files_batch_add := batch_add_handler;
     knowledge_file_remove := remove_handler |}.

(** The number of files of knowledge base [k] whose embedded metadata
    carries the URL [u]. *)
Definition files_with_url (key : string) (k : string) (u : string) (s : State)
    : nat :=
  match find_kb k s with
  | Some kb =>
      length (List.filter
                (fun f => bool_decide (_get_item_url_of_file key (Some f) = Some u))
                (files kb))
  | None => 0
  end.

(** The number of knowledge bases named [n]. *)
Definition bases_named (n : string) (s : State) : nat :=
  length (List.filter (fun kb => String.eqb (name kb) n) (knowledge_bases s)).

(** The first knowledge base named [n]. *)
Definition find_named (n : string) (s : State) : option KnowledgeBase :=
  List.find (fun kb => String.eqb (name kb) n) (knowledge_bases s).

(** The store after [create_handler] made a knowledge base named [n]. *)
Definition created (n description : string) (s : State) : State :=
  {| knowledge_bases :=
       knowledge_bases s ++ [{| kid := "kb-" +:+ pretty (next_id s); name := n;
                                description := description; files := [] |}];
     uploaded := uploaded s;
     next_id := S (next_id s) |}.

(** The file that the store keeps for an upload with metadata [m] in
    state [s]. *)
Definition uploaded_file (key : string) (m : ExtraMetadata) (s : State)
    : FileMetadataResponse :=
  {| id := "file-" +:+ pretty (next_id s);
     meta := {[ key := m ]};
     created_at := 0; updated_at := 0 |}.

(** The store after that file was uploaded and attached to the knowledge
    base [kb] with id [k]. *)
Definition attached (key : string) (k : string) (kb : KnowledgeBase)
    (m : ExtraMetadata) (s : State) : State :=
  {| knowledge_bases :=
       set_files k (files kb ++ [uploaded_file key m s]) (knowledge_bases s);
     uploaded := uploaded_file key m s :: uploaded s;
     next_id := S (next_id s) |}.

End RefStore.

(** ** Reading a run *)

(** The uploads that reached the store: path and metadata, and response. *)
Definition upload_events (cs : list Event)
    : list ((string * option ExtraMetadata) * Response (option string)) :=
  omap (fun e => match e with
                 | EvFileUpload p m r => Some ((p, m), r)
                 | _ => None
                 end) cs.

(** The file id lists of the batch-attach calls. *)
Definition attach_events (cs : list Event) : list (list string) :=
  omap (fun e => match e with
                 | EvFilesBatchAdd _ file_ids _ => Some file_ids
                 | _ => None
                 end) cs.

(** The file ids of the removals that the store accepted. *)
Definition removed_events (cs : list Event) : list string :=
  omap (fun e => match e with
                 | EvFileRemove _ file_id (Status200 _) => Some file_id
                 | _ => None
                 end) cs.

(** The file id that an upload response yields, if the upload succeeded. *)
Definition response_id (r : Response (option string)) : option string :=
  match r with
  | Status200 file_id => if opt_truthy file_id then file_id else None
  | StatusNot200 _ => None
  end.

Definition upload_event
    (u : (string * option ExtraMetadata) * Response (option string)) : Event :=
  EvFileUpload u.1.1 u.1.2 u.2.

(** What an upload of the document [d] carries. *)
Definition upload_key (d : string * ExtraMetadata) : string * option ExtraMetadata :=
  (d.1, Some d.2).

(** The upload task of the document [d], as [_upload_files_batch] creates
    it. *)
Definition send_task {R : Type} (store : RemoteStore R)
    (file_exists : string -> bool) (file_open : string -> option string)
    (d : string * ExtraMetadata)
    : M R (option string) :=
  _send_file store file_exists file_open d.1 (Some d.2).

(** The OSError with which the upload of the document [d] ends before
    any request: its file exists and cannot be opened. *)
Definition open_error (file_exists : string -> bool)
    (file_open : string -> option string) (d : string * ExtraMetadata)
    : option string :=
  if file_exists d.1 then file_open d.1 else None.

(** The first such error among the documents [docs], in their order. *)
Definition first_open_error (file_exists : string -> bool)
    (file_open : string -> option string) (docs : list (string * ExtraMetadata))
    : option string :=
  head (omap (open_error file_exists file_open) docs).

(** The records of a result list; none when the call raised. *)
Definition records_of {A : Type} (o : Outcome (list A)) : list A :=
  match o with
  | Return l => l
  | Raise _ => []
  end.

(** The file list that [GET /knowledge/{id}] yields in store state [s], as
    [_retrieve_files_in_knowledge] reads it. *)
Definition listed_files {R : Type} (store : RemoteStore R) (knowledge_id : string)
    (s : R) : list FileMetadataResponse :=
  match (knowledge_get store knowledge_id s).1 with
  | Status200 files => files
  | StatusNot200 _ => []
  end.

(** The documents that the partition loop of [add_files] keeps, and those
    it skips. *)
Definition selected (existing_files : gset (option string))
    (docs : list (string * ExtraMetadata)) : list (string * ExtraMetadata) :=
  List.filter (fun d => to_upload existing_files d.2) docs.

Definition skipped (existing_files : gset (option string))
    (docs : list (string * ExtraMetadata)) : list (string * ExtraMetadata) :=
  List.filter (fun d => negb (to_upload existing_files d.2)) docs.

(** The records that [_add_files_to_kb_batch] builds from the response of
    the batch-attach call. *)
Definition attach_records (file_ids : list string) (resp : Response Json)
    : list Dict :=
  match resp with
  | StatusNot200 response_text =>
      (fun file_id =>
         [("file_id", PyStr file_id);
          ("success", PyBool false);
          ("error", PyStr ("Batch operation failed: " +:+ response_text))])
      <$> file_ids
  | Status200 batch_result =>
      (fun file_id =>
         [("success", PyBool true);
          ("result", PyDict [("id", PyStr file_id);
                             ("batch_result", PyJson batch_result)])])
      <$> file_ids
  end.

(** What one turn of the batch loop of [add_files] does for the batch
    [docs]: one upload per document whose file exists locally, in order,
    then one batch-attach call with the ids of the uploads that succeeded,
    if there is any. *)
Definition batch_step (file_exists : string -> bool) (knowledge_id : string)
    (docs : list (string * ExtraMetadata)) (cs : list Event) (recs : list Dict)
    : Prop :=
  exists ups,
    fst <$> ups = upload_key <$> List.filter (fun d => file_exists d.1) docs
    /\ ((omap response_id (snd <$> ups) = []
         /\ cs = upload_event <$> ups /\ recs = [])
        \/ (omap response_id (snd <$> ups) <> []
            /\ exists resp,
                 cs = (upload_event <$> ups)
                      ++ [EvFilesBatchAdd knowledge_id
                            (omap response_id (snd <$> ups)) resp]
                 /\ recs = attach_records (omap response_id (snd <$> ups)) resp)).

(** The part of [add_files] that follows the partition loop. *)
Definition upload_selected {R : Type} (store : RemoteStore R)
    (file_exists : string -> bool) (file_open : string -> option string)
    (self : KnowledgeManager)
    (knowledge_id : string) (sel : list (string * ExtraMetadata))
    : M R (list Dict) :=
  (starts <- lift (py_range 0 (Z.of_nat (length (fst <$> sel))) (batch_size self)) ;;
   for_in starts (add_batch store file_exists file_open self knowledge_id
                    (fst <$> sel) (snd <$> sel)) [])%py.

(** The batches that the batch loop of [add_files] takes from the
    selected documents, for a positive batch size. *)
Definition batches {A : Type} (B : Z) (l : list A) : list (list A) :=
  (fun i => py_slice l i (i + B))
  <$> range_up (length l) 0 (Z.of_nat (length l)) B.

(** An upload that reached the store and came back with a file id; other
    requests pass. *)
Definition upload_succeeded (e : Event) : bool :=
  match e with
  | EvFileUpload _ _ r => bool_decide (is_Some (response_id r))
  | _ => true
  end.

(** What [_retrieve_files_in_knowledge] logs in store state [s]. *)
Definition retrieve_logs {R : Type} (store : RemoteStore R) (knowledge_id : string)
    (s : R) : list LogRecord :=
  match (knowledge_get store knowledge_id s).1 with
  | Status200 _ => []
  | StatusNot200 response_text =>
      [{| levelname := "ERROR";
          message := "Failed to get knowledge base files, response: "
                     +:+ response_text |}]
  end.

(** The warning of the partition loop of [add_files]. *)
Definition skip_warning (file_path : string) : LogRecord :=
  {| levelname := "WARNING";
     message := "File already exists in knowledge base: " +:+ file_path
                +:+ ", skipping." |}.

Definition has_key (k : string) (r : Dict) : bool :=
  bool_decide (is_Some (dict_get k r)).

(** A record carries, next to its identifier if any, the success flag and
    the result or the error. *)
Definition has_payload (r : Dict) : bool :=
  has_key "success" r && (has_key "result" r || has_key "error" r).

(** A record has an identifier field when it has a key besides the
    success flag and the payload. *)
Definition has_identifier (r : Dict) : bool :=
  existsb (fun kv => negb (bool_decide (kv.1 ∈ ["success"; "result"; "error"]))) r.

(** The success record that [_add_files_to_kb_batch] builds for a file:
    no identifier next to the flag; the file id is inside the payload. *)
Definition batch_success_record (r : Dict) : Prop :=
  has_identifier r = false
  /\ dict_get "success" r = Some (PyBool true)
  /\ exists fid j, dict_get "result" r
                   = Some (PyDict [("id", PyStr fid); ("batch_result", PyJson j)]).

(** The two kinds of record that [add_files] returns: the failure record
    of a failed batch-attach call, with the file id under "file_id", and
    the success record. *)
Definition add_record_shape (r : Dict) : Prop :=
  has_payload r = true
  /\ ((exists fid, dict_get "file_id" r = Some (PyStr fid)
                   /\ dict_get "success" r = Some (PyBool false))
      \/ batch_success_record r).

(** The failure record of [update_files] for a document without a
    matching remote file. *)
Definition not_found_record : Dict :=
  [("file_name", PyNone); ("success", PyBool false); ("error", PyStr "File not found")].

(** [ceil(n / b)] for a positive [b]. *)
Definition ceil_div (n b : Z) : Z := ((n + b - 1) / b)%Z.

(** ** query_knowledge *)

(** The request of [query_knowledge]: the headers it is sent with and
    its JSON body. *)
Record QueryRequest : Type := {
  query_headers : list (string * string);
  collection_names : list string;
  query_text : string;
  query_k : Z
}.

(** The JSON text of the empty list, the value that the failure branch
    of [query_knowledge] returns; a response body may be that value
    too. *)
Definition empty_list : Json := "[]".

(** [query_result] is what [query_knowledge] returns: the response body,
    or the empty list. *)
Record QueryRun (R : Type) : Type := MkQueryRun {
  query_result : Json;
  query_store_after : R;
  query_calls : list QueryRequest;
  query_logged : list LogRecord
}.
Arguments MkQueryRun {R} _ _ _ _.
Arguments query_result {R} _.
Arguments query_store_after {R} _.
Arguments query_calls {R} _.
Arguments query_logged {R} _.

(** [query_knowledge]; [retrieval_query] is the handler of
    [POST /retrieval/query/collection] and [environ] is [os.getenv]. *)
Definition query_knowledge {R : Type}
    (retrieval_query : QueryRequest -> R -> Response Json * R)
    (environ : string -> option string) (self : KnowledgeManager)
    (knowledge_ids : list string) (query : string) (top_k : Z) (as_user : bool)
    (s : R) : QueryRun R :=
  let headers' :=
    if as_user && opt_truthy (environ "OPEN_WEBUI_TEST_USER_API_KEY") then
      [("Authorization",
        "Bearer " +:+ default "" (environ "OPEN_WEBUI_TEST_USER_API_KEY"))]
    else headers self in
  let req := {| query_headers := headers'; collection_names := knowledge_ids;
                query_text := query; query_k := top_k |} in
  let '(response, s') := retrieval_query req s in
  match response with
  | StatusNot200 response_text =>
      MkQueryRun empty_list s' [req]
        [{| levelname := "ERROR";
            message := "Failed to query knowledge base, response: "
                       +:+ response_text |}]
  | Status200 j => MkQueryRun j s' [req] []
  end.

(** ** The client session *)

(** [self.session] and the [aiohttp.ClientSession] objects created so
    far.  A session is named by its rank of creation; [closed] lists the
    sessions on which [close] was called, last first. *)
Record SessionState : Type := {
  session : option nat;
  opened : nat;
  closed : list nat
}.

(** After [__init__]: [self.session = None]. *)
Definition no_session : SessionState :=
  {| session := None; opened := 0; closed := [] |}.

Definition __aenter__ (st : SessionState) : SessionState :=
  {| session := Some (opened st); opened := S (opened st); closed := closed st |}.

(** A session object is truthy. *)
Definition __aexit__ (st : SessionState) : SessionState :=
  match session st with
  | Some i => {| session := None; opened := opened st; closed := i :: closed st |}
  | None => st
  end.

(** The session that is created when [self.session] is [None] is
    returned and not stored. *)
Definition _get_session (st : SessionState) : nat * SessionState :=
  match session st with
  | None => (opened st,
             {| session := None; opened := S (opened st); closed := closed st |})
  | Some i => (i, st)
  end.

(** [n] calls of [_get_session] in a row, with the sessions they
    returned. *)
Fixpoint get_sessions (n : nat) (st : SessionState) : list nat * SessionState :=
  match n with
  | O => ([], st)
  | S n' =>
      let '(i, st') := _get_session st in
      let '(l, st'') := get_sessions n' st' in
      (i :: l, st'')
  end.

(** ** More readings of a run *)

(** Status 200. *)
Definition response_ok {A : Type} (r : Response A) : bool :=
  match r with
  | Status200 _ => true
  | StatusNot200 _ => false
  end.

(** The requests that [add_files] sends after it listed the files:
    uploads, and batch-attach calls to the knowledge base. *)
Definition upload_or_attach (knowledge_id : string) (e : Event) : bool :=
  match e with
  | EvFileUpload _ _ _ => true
  | EvFilesBatchAdd k _ _ => String.eqb k knowledge_id
  | _ => false
  end.

(** The requests [cs] are uploads and batch-attach calls to the knowledge
    base, and every upload is that of one of the documents [docs]. *)
Definition uploads_only (knowledge_id : string) (docs : list (string * ExtraMetadata))
    (cs : list Event) : Prop :=
  forallb (upload_or_attach knowledge_id) cs = true
  /\ fst <$> upload_events cs ⊆ upload_key <$> docs.

(** The single-file attach calls. *)
Definition add_events (cs : list Event) : list (string * string) :=
  omap (fun e => match e with
                 | EvFileAdd k file_id _ => Some (k, file_id)
                 | _ => None
                 end) cs.

(** The log records at warning level. *)
Definition warnings (ls : list LogRecord) : list LogRecord :=
  List.filter (fun l => String.eqb (levelname l) "WARNING") ls.

(** A computation that logs no warning, whatever the state it starts
    in. *)
Definition no_warnings {R A : Type} (m : M R A) : Prop :=
  forall s, warnings (logged (m s)) = [].

(** A store that answers every request with status 503. *)
Definition unreachable_store : RemoteStore unit :=
  {| knowledge_list := fun s => (StatusNot200 "503", s);
     knowledge_create := fun _ s => (StatusNot200 "503", s);
     knowledge_get := fun _ s => (StatusNot200 "503", s);
     knowledge_delete := fun _ s => (StatusNot200 "503", s);
     files_upload := fun _ _ s => (StatusNot200 "503", s);
     knowledge_file_add := fun _ _ s => (StatusNot200 "503", s);
     knowledge_files_batch_add := fun _ _ s => (StatusNot200 "503", s);
     knowledge_file_remove := fun _ _ s => (StatusNot200 "503", s) |}.

(** The warning of [update_files] for a document without a matching
    file. *)
Definition not_found_warning : LogRecord :=
  {| levelname := "WARNING"; message := "File not found: None" |}.

(** ** Example data *)

Definition example_key : string := "extra_metadata".

Definition example_metadata (u : option string) : ExtraMetadata :=
  {| auth := {| users := ["user1"; "user2"]; groups := ["group1"] |};
     metadata := {| title := "Test Document"; url := u;
                    context_url := Some "https://example.com/context";
                    date := "2023-07-01T12:00:00Z"; source := "integration_test" |} |}.

Definition example_manager (b : Z) : KnowledgeManager :=
  {| base_url := "http://localhost:8080/api/v1"; api_key := "secret";
     batch_size := b; headers := [("Authorization", "Bearer secret")] |}.

Definition every_file (_ : string) : bool := true.
Definition no_file (_ : string) : bool := false.

(** Every file that exists can be read. *)
Definition opens_every_file (_ : string) : option string := None.

(** The path "/tmp" is a directory. *)
Definition opens_no_directory (file_path : string) : option string :=
  if String.eqb file_path "/tmp" then Some "[Errno 21] Is a directory: '/tmp'"
  else None.

(** The reference store with one empty knowledge base. *)
Definition example_store : RefStore.State :=
  {| RefStore.knowledge_bases :=
       [{| RefStore.kid := "kb-0"; RefStore.name := "docs";
           RefStore.description := "test"; RefStore.files := [] |}];
     RefStore.uploaded := [];
     RefStore.next_id := 1 |}.

(** The reference store behind a listing endpoint that is out of order:
    [GET /knowledge/] is answered with status 500, every other request
    is served. *)
Definition store_without_listing : RemoteStore RefStore.State :=
  {| knowledge_list := fun s => (StatusNot200 "Internal Server Error", s);
     knowledge_create := RefStore.create_handler;
     knowledge_get := RefStore.get_handler;
     knowledge_delete := RefStore.delete_handler;
     files_upload := RefStore.upload_handler example_key;
     knowledge_file_add := RefStore.add_handler;
     knowledge_files_batch_add := RefStore.batch_add_handler;
     knowledge_file_remove := RefStore.remove_handler |}.

(** Seven documents with distinct URLs, as in the batch test. *)
Definition seven_docs : list (string * ExtraMetadata) :=
  (fun i : nat => ("/tmp/file" +:+ pretty i,
                   example_metadata (Some ("https://example.com/batch/" +:+ pretty i))))
  <$> seq 0 7.

(** The example store after the document "https://example.com/test" was
    added to its knowledge base. *)
Definition example_store_with_file : RefStore.State :=
  store_after
    (add_files (RefStore.store example_key) example_key every_file opens_every_file
        (example_manager 3)
       "kb-0" ["/tmp/test.md"]
       (MetadataList [example_metadata (Some "https://example.com/test")])
       example_store).

(** A file listed for the knowledge base that the store no longer has. *)
Definition stale_file : FileMetadataResponse :=
  {| id := "file-9";
     meta := {[ example_key := example_metadata (Some "https://example.com/test") ]};
     created_at := 0; updated_at := 0 |}.

(** ** Reasoning about runs *)

Lemma bind_return {R A B : Type} (m : M R A) (k : A -> M R B) (s : R) (a : A) :
  outcome (m s) = Return a ->
  bind m k s =
    MkRun (outcome (k a (store_after (m s))))
          (store_after (k a (store_after (m s))))
          (calls (m s) ++ calls (k a (store_after (m s))))
          (logged (m s) ++ logged (k a (store_after (m s)))).
Proof. intros H. unfold bind. rewrite H. reflexivity. Qed.

Lemma bind_raise {R A B : Type} (m : M R A) (k : A -> M R B) (s : R) (e : Exn) :
  outcome (m s) = Raise e ->
  bind m k s = MkRun (Raise e) (store_after (m s)) (calls (m s)) (logged (m s)).
Proof. intros H. unfold bind. rewrite H. reflexivity. Qed.

Lemma bind_run {R A B : Type} (m : M R A) (k : A -> M R B) (s s' : R) (a : A)
    (cs : list Event) (ls : list LogRecord) :
  m s = MkRun (Return a) s' cs ls ->
  bind m k s =
    MkRun (outcome (k a s')) (store_after (k a s'))
          (cs ++ calls (k a s')) (ls ++ logged (k a s')).
Proof. intros H. unfold bind. rewrite H. reflexivity. Qed.

Lemma bind_ret_l {R A B : Type} (a : A) (k : A -> M R B) (s : R) :
  bind (ret a) k s = k a s.
Proof. unfold bind, ret. simpl. by destruct (k a s). Qed.

Lemma for_in_cons {R A S : Type} (x : A) (l : list A) (body : A -> S -> M R S)
    (acc : S) :
  for_in (x :: l) body acc = bind (body x acc) (for_in l body).
Proof. reflexivity. Qed.

Lemma gather_cons {R A : Type} (t : M R A) (tasks : list (M R A)) :
  gather (t :: tasks) = bind t (fun x => bind (gather tasks) (fun xs => ret (x :: xs))).
Proof. reflexivity. Qed.

Lemma run_eta {R A : Type} (r : Run R A) :
  MkRun (outcome r) (store_after r) (calls r) (logged r) = r.
Proof. by destruct r. Qed.

(** Unfold one layer of the monad and split the handler's answer. *)
Ltac step_request :=
  unfold bind, request, ret, log, raise, lift; simpl;
  repeat match goal with
         | |- context [let '(_, _) := ?h in _] => destruct h as [[?|?] ?]; simpl
         end.

(** Project a run that is given by its fields. *)
Ltac run_simpl := cbn [outcome store_after calls logged].

Lemma omap_cons_eq {A B : Type} (f : A -> option B) (x : A) (l : list A) :
  omap f (x :: l) = match f x with Some y => y :: omap f l | None => omap f l end.
Proof. reflexivity. Qed.

Lemma filter_cons_eq {A : Type} (f : A -> bool) (x : A) (l : list A) :
  List.filter f (x :: l) = if f x then x :: List.filter f l else List.filter f l.
Proof. reflexivity. Qed.

Lemma upload_events_app cs1 cs2 :
  upload_events (cs1 ++ cs2) = upload_events cs1 ++ upload_events cs2.
Proof. apply omap_app. Qed.

Lemma attach_events_app cs1 cs2 :
  attach_events (cs1 ++ cs2) = attach_events cs1 ++ attach_events cs2.
Proof. apply omap_app. Qed.

Lemma upload_events_knowledge k r cs :
  upload_events (EvKnowledge k r :: cs) = upload_events cs.
Proof. reflexivity. Qed.

Lemma attach_events_knowledge k r cs :
  attach_events (EvKnowledge k r :: cs) = attach_events cs.
Proof. reflexivity. Qed.

Lemma upload_events_uploads ups : upload_events (upload_event <$> ups) = ups.
Proof.
  induction ups as [|[[p m] r] ups IH]; [done|].
  rewrite fmap_cons. cbn. unfold upload_events in IH. by rewrite IH.
Qed.

Lemma attach_events_uploads ups : attach_events (upload_event <$> ups) = [].
Proof. induction ups as [|[[p m] r] ups IH]; [done|]. rewrite fmap_cons. by cbn. Qed.

(** ** remove_files *)

Section RemoveFiles.
Context {R : Type} (store : RemoteStore R).

Lemma remove_one_run knowledge_id file_id (acc : list Dict) (s : R) :
  exists r,
    outcome (remove_one store knowledge_id file_id acc s) = Return (acc ++ [r])
    /\ dict_get "file_id" r = Some (PyStr file_id)
    /\ has_payload r = true.
Proof.
  unfold remove_one. step_request; eexists; (split; [reflexivity|]); by split.
Qed.

Lemma remove_loop knowledge_id file_ids : forall (acc : list Dict) (s : R),
  exists new,
    outcome (for_in file_ids (remove_one store knowledge_id) acc s) = Return (acc ++ new)
    /\ dict_get "file_id" <$> new = (fun fid => Some (PyStr fid)) <$> file_ids
    /\ Forall (fun r => has_payload r = true) new.
Proof.
  induction file_ids as [|fid ids IH]; intros acc s.
  - exists []. simpl. rewrite app_nil_r. auto.
  - destruct (remove_one_run knowledge_id fid acc s) as (r & Hr & Hid & Hsucc).
    rewrite for_in_cons, (bind_return _ _ _ _ Hr). simpl.
    destruct (IH (acc ++ [r]) (store_after (remove_one store knowledge_id fid acc s)))
      as (new & Ho & Hm & Hs).
    exists (r :: new). rewrite Ho, <- app_assoc.
    split; [reflexivity|]. rewrite !fmap_cons, Hid, Hm.
    split; [reflexivity | by constructor].
Qed.

End RemoveFiles.

(** C7: [remove_files] returns, for every list of file ids and whatever
    the remote store answers, one record per input id, in input order:
    the lists have the same length and the record at index [i] carries
    the file id at index [i] under the key "file_id". *)
Theorem remove_files_one_record_per_id {R : Type} (store : RemoteStore R)
    (knowledge_id : string) (file_ids : list string) (s : R) :
  exists results,
    outcome (remove_files store knowledge_id file_ids s) = Return results
    /\ length results = length file_ids
    /\ dict_get "file_id" <$> results = (fun fid => Some (PyStr fid)) <$> file_ids.
Proof.
  destruct (remove_loop store knowledge_id file_ids [] s) as (new & Ho & Hm & _).
  exists new. split; [exact Ho|]. split; [|exact Hm].
  rewrite <- (length_fmap (dict_get "file_id")), Hm. by rewrite length_fmap.
Qed.

(** ** Ranges and slices *)

Section Batches.
Context {A : Type}.
Implicit Types (l : list A) (i B : Z).

Lemma py_slice_fmap {A' : Type} (f : A -> A') l lo hi :
  py_slice (f <$> l) lo hi = f <$> py_slice l lo hi.
Proof. unfold py_slice. by rewrite length_fmap, fmap_take, fmap_drop. Qed.

Lemma py_slice_take_drop l i B :
  (0 <= i < Z.of_nat (length l))%Z -> (0 < B)%Z ->
  py_slice l i (i + B) = take (Z.to_nat B) (drop (Z.to_nat i) l).
Proof.
  intros Hi HB. unfold py_slice, slice_bound.
  destruct (Z.ltb_spec i 0); [lia|].
  destruct (Z.ltb_spec (i + B) 0); [lia|].
  rewrite (Z.min_l i) by lia.
  destruct (Z.le_ge_cases (i + B) (Z.of_nat (length l))) as [Hle|Hge].
  - rewrite Z.min_l by lia. f_equal. lia.
  - rewrite Z.min_r by lia.
    rewrite !take_ge; [done | rewrite length_drop; lia | rewrite length_drop; lia].
Qed.

Lemma range_up_bounds fuel : forall i stop step,
  (0 <= i)%Z -> (0 < step)%Z ->
  Forall (fun j => (0 <= j < stop)%Z) (range_up fuel i stop step).
Proof.
  induction fuel as [|fuel IH]; intros i stop step Hi Hs; simpl; [constructor|].
  destruct (Z.ltb_spec i stop); constructor; [lia|]. apply IH; lia.
Qed.

(** The fuel that [py_range] gives is enough: the slices at the start
    indices cover the whole list, in order. *)
Lemma range_up_concat l B fuel : forall i,
  (0 < B)%Z -> (0 <= i)%Z -> (Z.of_nat (length l) - i <= Z.of_nat fuel)%Z ->
  concat ((fun j => py_slice l j (j + B)) <$> range_up fuel i (Z.of_nat (length l)) B)
  = drop (Z.to_nat i) l.
Proof.
  induction fuel as [|fuel IH]; intros i HB Hi Hfuel; simpl.
  - rewrite drop_ge; [done | lia].
  - destruct (Z.ltb_spec i (Z.of_nat (length l))) as [Hlt|Hge].
    + rewrite fmap_cons. simpl concat. rewrite IH by lia.
      rewrite py_slice_take_drop by lia.
      replace (Z.to_nat (i + B)) with (Z.to_nat i + Z.to_nat B)%nat by lia.
      rewrite <- drop_drop. apply take_drop.
    + rewrite drop_ge; [done | lia].
Qed.

Lemma ceil_div_step n B : (0 < B)%Z -> (0 < n)%Z ->
  (ceil_div n B = 1 + Z.max 0 (ceil_div (n - B) B))%Z.
Proof.
  intros HB Hn. unfold ceil_div.
  replace (n + B - 1)%Z with ((n - 1) + 1 * B)%Z by lia.
  rewrite Z.div_add by lia.
  replace (n - B + B - 1)%Z with (n - 1)%Z by lia.
  assert (0 <= (n - 1) / B)%Z by (apply Z.div_pos; lia). lia.
Qed.

Lemma ceil_div_nonpos n B : (0 < B)%Z -> (n <= 0)%Z -> (ceil_div n B <= 0)%Z.
Proof.
  intros HB Hn. unfold ceil_div.
  destruct (Z.eq_dec n 0%Z) as [->|Hne].
  - rewrite Z.div_small; lia.
  - assert ((n + B - 1) / B < 1)%Z; [|lia].
    apply Z.div_lt_upper_bound; lia.
Qed.

Lemma range_up_length fuel : forall i stop B,
  (0 < B)%Z -> (stop - i <= Z.of_nat fuel)%Z ->
  Z.of_nat (length (range_up fuel i stop B)) = Z.max 0 (ceil_div (stop - i) B).
Proof.
  induction fuel as [|fuel IH]; intros i stop B HB Hfuel; simpl.
  - pose proof (ceil_div_nonpos (stop - i) B HB). lia.
  - destruct (Z.ltb_spec i stop) as [Hlt|Hge].
    + simpl length. rewrite Nat2Z.inj_succ, IH by lia.
      rewrite (ceil_div_step (stop - i) B) by lia.
      replace (stop - (i + B))%Z with (stop - i - B)%Z by lia. lia.
    + pose proof (ceil_div_nonpos (stop - i) B HB). simpl. lia.
Qed.

Lemma py_slice_batch_length l i B :
  (0 <= i < Z.of_nat (length l))%Z -> (0 < B)%Z ->
  (0 < length (py_slice l i (i + B)))%nat
  /\ (Z.of_nat (length (py_slice l i (i + B))) <= B)%Z.
Proof.
  intros Hi HB. rewrite py_slice_take_drop by done.
  rewrite length_take, length_drop. lia.
Qed.

End Batches.

(** [range(0, n, step)] for the three kinds of step. *)
Lemma py_range_zero n : exists msg, py_range 0 n 0 = Raise (ValueError msg).
Proof. eexists. reflexivity. Qed.

Lemma py_range_negative (n : nat) step :
  (step < 0)%Z -> py_range 0 (Z.of_nat n) step = Return [].
Proof.
  intros H. unfold py_range.
  destruct (Z.eqb_spec step 0); [lia|].
  destruct (Z.ltb_spec 0 step); [lia|].
  replace (Z.to_nat (0 - Z.of_nat n)) with 0%nat by lia. reflexivity.
Qed.

Lemma py_range_positive n step :
  (0 < step)%Z -> py_range 0 n step = Return (range_up (Z.to_nat n) 0 n step).
Proof.
  intros H. unfold py_range.
  destruct (Z.eqb_spec step 0); [lia|].
  destruct (Z.ltb_spec 0 step); [|lia].
  by rewrite Z.sub_0_r.
Qed.

(** ** Uploading one batch *)

Section Upload.
Context {R : Type} (store : RemoteStore R) (file_exists : string -> bool)
        (file_open : string -> option string).

Lemma response_id_truthy (r : Response (option string)) :
  (if opt_truthy (response_id r) then response_id r else None) = response_id r.
Proof.
  destruct r as [fid|text]; simpl; [|done].
  destruct (opt_truthy fid) eqn:E; simpl; [by rewrite E | done].
Qed.

Lemma send_file_run p m (s : R) :
  exists ls,
    _send_file store file_exists file_open p m s =
      if file_exists p then
        match file_open p with
        | Some msg => MkRun (Raise (OSError msg)) s [] []
        | None =>
            MkRun (Return (response_id (files_upload store p m s).1))
                  (files_upload store p m s).2
                  [EvFileUpload p m (files_upload store p m s).1] ls
        end
      else MkRun (Return None) s [] ls.
Proof.
  unfold _send_file. destruct (file_exists p); simpl.
  - destruct (file_open p) as [msg|]; [by exists []|].
    unfold bind, request. destruct (files_upload store p m s) as [[fid|text] s']; simpl.
    + destruct (opt_truthy fid); simpl; eexists; reflexivity.
    + eexists; reflexivity.
  - eexists. reflexivity.
Qed.

Lemma first_open_error_cons d docs :
  first_open_error file_exists file_open (d :: docs)
  = match open_error file_exists file_open d with
    | Some msg => Some msg
    | None => first_open_error file_exists file_open docs
    end.
Proof.
  unfold first_open_error. rewrite omap_cons_eq.
  by destruct (open_error file_exists file_open d).
Qed.

Lemma first_open_error_app docs1 docs2 :
  first_open_error file_exists file_open (docs1 ++ docs2)
  = match first_open_error file_exists file_open docs1 with
    | Some msg => Some msg
    | None => first_open_error file_exists file_open docs2
    end.
Proof.
  induction docs1 as [|d docs1 IH]; [done|].
  rewrite <- app_comm_cons, !first_open_error_cons.
  by destruct (open_error file_exists file_open d).
Qed.

(** No error when every file that exists can be opened. *)
Lemma first_open_error_none docs :
  Forall (fun d => file_exists d.1 = true -> file_open d.1 = None) docs ->
  first_open_error file_exists file_open docs = None.
Proof.
  induction 1 as [|d docs Hd _ IH]; [done|].
  rewrite first_open_error_cons, IH. unfold open_error.
  destruct (file_exists d.1); [by rewrite Hd | done].
Qed.

(** The error is that of one of the documents. *)
Lemma first_open_error_some docs msg :
  first_open_error file_exists file_open docs = Some msg ->
  exists d, d ∈ docs /\ file_exists d.1 = true /\ file_open d.1 = Some msg.
Proof.
  induction docs as [|d docs IH]; [done|].
  rewrite first_open_error_cons. unfold open_error.
  destruct (file_exists d.1) eqn:Hex; [destruct (file_open d.1) as [msg'|] eqn:Hop|].
  - intros [= <-]. exists d. split; [left|done].
  - intros H. destruct (IH H) as (d' & Hin & Hd'). exists d'. split; [by right|done].
  - intros H. destruct (IH H) as (d' & Hin & Hd'). exists d'. split; [by right|done].
Qed.

Lemma upload_tasks_run docs : forall pre acc (s : R),
  for_in (enumerate_from (length pre) (fst <$> docs))
         (upload_task store file_exists file_open (Some (pre ++ (snd <$> docs)))) acc s
  = MkRun (Return (acc ++ (send_task store file_exists file_open <$> docs))) s [] [].
Proof.
  induction docs as [|d docs IH]; intros pre acc s.
  - simpl. unfold ret. by rewrite app_nil_r.
  - rewrite !fmap_cons. simpl enumerate_from. rewrite for_in_cons.
    assert (Hrun : upload_task store file_exists file_open
                     (Some (pre ++ d.2 :: (snd <$> docs))) (length pre, d.1) acc s
                   = MkRun (Return (acc ++ [send_task store file_exists file_open d]))
                           s [] []).
    { unfold upload_task. simpl default.
      rewrite list_lookup_middle by done.
      rewrite length_app. simpl length.
      replace (length pre + S (length (snd <$> docs)) =? 0)%nat with false
        by (symmetry; apply Nat.eqb_neq; lia).
      reflexivity. }
    rewrite (bind_return _ _ _ (acc ++ [send_task store file_exists file_open d]))
      by (by rewrite Hrun).
    rewrite Hrun. simpl.
    replace (S (length pre)) with (length (pre ++ [d.2]))
      by (rewrite length_app; simpl; lia).
    replace (pre ++ d.2 :: (snd <$> docs)) with ((pre ++ [d.2]) ++ (snd <$> docs))
      by (by rewrite <- app_assoc).
    rewrite IH. by rewrite <- app_assoc.
Qed.

(** The tasks of a batch under [gather]: every document whose file
    exists is uploaded, unless the file of one of them cannot be opened;
    then the error of the first such document is raised. *)
Lemma gather_uploads docs : forall s : R,
  exists ups,
    calls (gather (send_task store file_exists file_open <$> docs) s)
      = upload_event <$> ups
    /\ match first_open_error file_exists file_open docs with
       | None =>
           fst <$> ups = upload_key <$> List.filter (fun d => file_exists d.1) docs
           /\ exists fids,
                outcome (gather (send_task store file_exists file_open <$> docs) s)
                  = Return fids
                /\ omap (fun x => if opt_truthy x then x else None) fids
                   = omap response_id (snd <$> ups)
       | Some msg =>
           outcome (gather (send_task store file_exists file_open <$> docs) s)
             = Raise (OSError msg)
           /\ fst <$> ups ⊆ upload_key <$> docs
       end.
Proof.
  induction docs as [|d docs IH]; intros s.
  - exists []. split; [done|]. split; [done|]. by exists [].
  - rewrite fmap_cons, gather_cons, first_open_error_cons.
    destruct (send_file_run d.1 (Some d.2) s) as [ls Hsend].
    fold (send_task store file_exists file_open d) in Hsend.
    rewrite filter_cons_eq. unfold open_error.
    destruct (file_exists d.1) eqn:Hex; [destruct (file_open d.1) as [msg|] eqn:Hop|].
    + exists []. rewrite (bind_raise _ _ _ (OSError msg)) by (by rewrite Hsend).
      rewrite Hsend. run_simpl. split; [done|]. split; [done|].
      apply list_subseteq_nil.
    + destruct (IH (files_upload store d.1 (Some d.2) s).2) as (ups & Hc & Hcase).
      exists ((upload_key d, (files_upload store d.1 (Some d.2) s).1) :: ups).
      rewrite (bind_run _ _ _ _ _ _ _ Hsend). run_simpl.
      destruct (first_open_error file_exists file_open docs) as [msg|].
      * destruct Hcase as [Ho Hsub].
        rewrite (bind_raise _ _ _ _ Ho). run_simpl. rewrite Hc.
        split; [done|]. split; [done|].
        rewrite !fmap_cons. by apply list_subseteq_skip.
      * destruct Hcase as (Hk & fids & Ho & Hf).
        rewrite (bind_return _ _ _ fids) by exact Ho. run_simpl.
        rewrite Hc, app_nil_r. split; [done|]. rewrite !fmap_cons, Hk.
        split; [done|].
        exists (response_id (files_upload store d.1 (Some d.2) s).1 :: fids).
        split; [done|]. by rewrite !omap_cons_eq, Hf, response_id_truthy.
    + destruct (IH s) as (ups & Hc & Hcase).
      exists ups. rewrite (bind_run _ _ _ _ _ _ _ Hsend). run_simpl.
      destruct (first_open_error file_exists file_open docs) as [msg|].
      * destruct Hcase as [Ho Hsub].
        rewrite (bind_raise _ _ _ _ Ho). run_simpl. rewrite Hc.
        split; [done|]. split; [done|].
        rewrite fmap_cons. by apply list_subseteq_cons.
      * destruct Hcase as (Hk & fids & Ho & Hf).
        rewrite (bind_return _ _ _ fids) by exact Ho. run_simpl.
        rewrite Hc, app_nil_r. split; [done|]. split; [done|].
        exists (None :: fids). split; [done|]. by rewrite omap_cons_eq.
Qed.

Lemma upload_files_batch_run docs (s : R) :
  exists ups,
    calls (_upload_files_batch store file_exists file_open
             (fst <$> docs) (Some (snd <$> docs)) s)
      = upload_event <$> ups
    /\ match first_open_error file_exists file_open docs with
       | None =>
           fst <$> ups = upload_key <$> List.filter (fun d => file_exists d.1) docs
           /\ outcome (_upload_files_batch store file_exists file_open
                         (fst <$> docs) (Some (snd <$> docs)) s)
              = Return (omap response_id (snd <$> ups))
       | Some msg =>
           outcome (_upload_files_batch store file_exists file_open
                      (fst <$> docs) (Some (snd <$> docs)) s)
             = Raise (OSError msg)
           /\ fst <$> ups ⊆ upload_key <$> docs
       end.
Proof.
  unfold _upload_files_batch, enumerate.
  pose proof (upload_tasks_run docs [] [] s) as Htasks.
  cbn [length app] in Htasks.
  rewrite (bind_run _ _ _ _ _ _ _ Htasks). run_simpl.
  destruct (gather_uploads docs s) as (ups & Hc & Hcase).
  exists ups.
  destruct (first_open_error file_exists file_open docs) as [msg|].
  - destruct Hcase as [Ho Hsub].
    rewrite (bind_raise _ _ _ _ Ho). run_simpl. by rewrite Hc.
  - destruct Hcase as (Hk & fids & Ho & Hf).
    rewrite (bind_return _ _ _ fids) by exact Ho. run_simpl.
    unfold ret. run_simpl. by rewrite app_nil_r, Hf, Hc.
Qed.

End Upload.

(** ** add_files *)

Section AddFiles.
Context {R : Type} (store : RemoteStore R) (key : string)
        (file_exists : string -> bool)
        (file_open : string -> option string).

Lemma retrieve_run knowledge_id (s : R) :
  _retrieve_files_in_knowledge store knowledge_id s =
    MkRun (Return (listed_files store knowledge_id s))
          (knowledge_get store knowledge_id s).2
          [EvKnowledge knowledge_id (knowledge_get store knowledge_id s).1]
          (retrieve_logs store knowledge_id s).
Proof.
  unfold _retrieve_files_in_knowledge, listed_files, retrieve_logs, bind, request.
  destruct (knowledge_get store knowledge_id s) as [[fs|text] s']; reflexivity.
Qed.

Lemma select_loop ex docs : forall fps mds (s : R),
  for_in docs (select_one ex) (fps, mds) s =
    MkRun (Return (fps ++ (fst <$> selected ex docs), mds ++ (snd <$> selected ex docs)))
          s [] ((fun d => skip_warning d.1) <$> skipped ex docs).
Proof.
  induction docs as [|[p m] docs IH]; intros fps mds s.
  - unfold selected, skipped. simpl. unfold ret. by rewrite !app_nil_r.
  - rewrite for_in_cons. unfold selected, skipped. rewrite !filter_cons_eq.
    cbn [snd fst]. unfold select_one at 1.
    destruct (to_upload ex m) eqn:Hup; cbn [negb].
    + rewrite (bind_return _ _ _ (fps ++ [p], mds ++ [m])) by reflexivity.
      unfold ret. run_simpl. rewrite IH. run_simpl.
      rewrite !fmap_cons, <- !app_assoc. reflexivity.
    + rewrite (bind_return _ _ _ (fps, mds)) by reflexivity.
      unfold bind, log, ret. run_simpl. rewrite IH. run_simpl.
      rewrite fmap_cons. reflexivity.
Qed.

Lemma attach_run knowledge_id ids (s : R) :
  ids <> [] ->
  exists ls,
    _add_files_to_kb_batch store knowledge_id ids s =
      MkRun (Return (attach_records ids
                       (knowledge_files_batch_add store knowledge_id ids s).1))
            (knowledge_files_batch_add store knowledge_id ids s).2
            [EvFilesBatchAdd knowledge_id ids
               (knowledge_files_batch_add store knowledge_id ids s).1] ls.
Proof.
  intros Hne. unfold _add_files_to_kb_batch.
  destruct ids as [|fid ids]; [done|]. cbn [length Nat.eqb].
  unfold bind, request.
  destruct (knowledge_files_batch_add store knowledge_id (fid :: ids) s)
    as [[j|text] s']; simpl; eexists; reflexivity.
Qed.

Lemma upload_events_kinds knowledge_id ups :
  forallb (upload_or_attach knowledge_id) (upload_event <$> ups) = true.
Proof. induction ups as [|[[p m] r] ups IH]; [done|]. rewrite fmap_cons. by cbn. Qed.

Lemma uploads_only_nil knowledge_id docs : uploads_only knowledge_id docs [].
Proof. split; [done|]. apply list_subseteq_nil. Qed.

Lemma uploads_only_app knowledge_id docs1 docs2 cs1 cs2 :
  uploads_only knowledge_id docs1 cs1 ->
  uploads_only knowledge_id docs2 cs2 ->
  uploads_only knowledge_id (docs1 ++ docs2) (cs1 ++ cs2).
Proof.
  intros [Hk1 Hu1] [Hk2 Hu2]. split.
  - by rewrite forallb_app, Hk1, Hk2.
  - rewrite upload_events_app, !fmap_app. intros x [Hx|Hx]%elem_of_app.
    + apply elem_of_app. left. by apply Hu1.
    + apply elem_of_app. right. by apply Hu2.
Qed.

Lemma uploads_only_uploads knowledge_id docs ups :
  fst <$> ups ⊆ upload_key <$> docs ->
  uploads_only knowledge_id docs (upload_event <$> ups).
Proof.
  intros Hsub. split; [apply upload_events_kinds|]. by rewrite upload_events_uploads.
Qed.

Lemma batch_step_uploads_only knowledge_id docs cs recs :
  batch_step file_exists knowledge_id docs cs recs ->
  uploads_only knowledge_id docs cs.
Proof.
  intros (ups & Hk & Hcase).
  assert (Hsub : fst <$> ups ⊆ upload_key <$> docs).
  { rewrite Hk. intros x (d & -> & Hd)%list_elem_of_fmap.
    apply list_elem_of_fmap_2.
    by apply list_elem_of_In, List.filter_In in Hd as [Hd%list_elem_of_In _]. }
  destruct Hcase as [(_ & -> & _)|(_ & resp & -> & _)].
  - by apply uploads_only_uploads.
  - rewrite <- (app_nil_r docs). apply uploads_only_app.
    + by apply uploads_only_uploads.
    + split; [|apply list_subseteq_nil]. cbn. by rewrite String.eqb_refl.
Qed.

(** One turn of the batch loop: the batch is uploaded and attached,
    unless a file of the batch cannot be opened; then the turn raises
    before the attach call. *)
Lemma add_batch_run self knowledge_id sel i acc (s : R) :
  match first_open_error file_exists file_open
          (py_slice sel i (i + batch_size self)) with
  | None =>
      exists recs,
        outcome (add_batch store file_exists file_open self knowledge_id
                   (fst <$> sel) (snd <$> sel) i acc s) = Return (acc ++ recs)
        /\ batch_step file_exists knowledge_id
             (py_slice sel i (i + batch_size self))
             (calls (add_batch store file_exists file_open self knowledge_id
                       (fst <$> sel) (snd <$> sel) i acc s)) recs
  | Some msg =>
      outcome (add_batch store file_exists file_open self knowledge_id
                 (fst <$> sel) (snd <$> sel) i acc s) = Raise (OSError msg)
      /\ uploads_only knowledge_id (py_slice sel i (i + batch_size self))
           (calls (add_batch store file_exists file_open self knowledge_id
                     (fst <$> sel) (snd <$> sel) i acc s))
  end.
Proof.
  unfold add_batch. rewrite !py_slice_fmap.
  set (docs := py_slice sel i (i + batch_size self)).
  destruct (upload_files_batch_run store file_exists file_open docs s)
    as (ups & Hc & Hcase).
  destruct (first_open_error file_exists file_open docs) as [msg|].
  { destruct Hcase as [Ho Hsub]. rewrite (bind_raise _ _ _ _ Ho). run_simpl.
    split; [done|]. rewrite Hc. by apply uploads_only_uploads. }
  destruct Hcase as [Hk Ho].
  rewrite (bind_return _ _ _ _ Ho). run_simpl. rewrite Hc.
  destruct (omap response_id (snd <$> ups)) as [|fid ids] eqn:Hids.
  - exists []. cbn [length Nat.eqb negb]. unfold ret. run_simpl.
    rewrite !app_nil_r. split; [done|].
    exists ups. split; [done|]. left. by rewrite Hids.
  - cbn [length Nat.eqb negb].
    edestruct (attach_run knowledge_id (fid :: ids)) as [ls Hatt]; [done|].
    rewrite (bind_return _ _ _ _ (f_equal outcome Hatt)).
    rewrite Hatt. unfold ret. run_simpl. rewrite app_nil_r.
    eexists. split; [reflexivity|].
    exists ups. split; [done|]. right. rewrite Hids. split; [done|].
    eexists. split; reflexivity.
Qed.

(** The batch loop: every batch is handled in turn, unless a file of
    some batch cannot be opened; then the loop ends there with that
    error. *)
Lemma batch_loop self knowledge_id sel starts : forall acc (s : R),
  match first_open_error file_exists file_open
          (concat ((fun i => py_slice sel i (i + batch_size self)) <$> starts)) with
  | None =>
      exists css recss,
        outcome (for_in starts (add_batch store file_exists file_open self knowledge_id
                                  (fst <$> sel) (snd <$> sel)) acc s)
          = Return (acc ++ concat recss)
        /\ calls (for_in starts (add_batch store file_exists file_open self knowledge_id
                                   (fst <$> sel) (snd <$> sel)) acc s)
           = concat css
        /\ Forall3 (batch_step file_exists knowledge_id)
             ((fun i => py_slice sel i (i + batch_size self)) <$> starts) css recss
  | Some msg =>
      outcome (for_in starts (add_batch store file_exists file_open self knowledge_id
                                (fst <$> sel) (snd <$> sel)) acc s)
        = Raise (OSError msg)
      /\ uploads_only knowledge_id
           (concat ((fun i => py_slice sel i (i + batch_size self)) <$> starts))
           (calls (for_in starts (add_batch store file_exists file_open self knowledge_id
                                    (fst <$> sel) (snd <$> sel)) acc s))
  end.
Proof.
  induction starts as [|i starts IH]; intros acc s.
  - exists [], []. simpl. rewrite app_nil_r. repeat split. constructor.
  - rewrite fmap_cons. cbn [concat]. rewrite first_open_error_app, for_in_cons.
    pose proof (add_batch_run self knowledge_id sel i acc s) as Hb.
    destruct (first_open_error file_exists file_open
                (py_slice sel i (i + batch_size self))) as [msg|].
    { destruct Hb as [Ho Hu]. rewrite (bind_raise _ _ _ _ Ho). split; [done|].
      run_simpl.
      rewrite <- (app_nil_r (calls _)). apply uploads_only_app; [done|].
      apply uploads_only_nil. }
    destruct Hb as (recs & Ho & Hstep).
    rewrite (bind_return _ _ _ _ Ho). run_simpl.
    specialize (IH (acc ++ recs)
                   (store_after (add_batch store file_exists file_open self knowledge_id
                                   (fst <$> sel) (snd <$> sel) i acc s))).
    destruct (first_open_error file_exists file_open
                (concat ((fun i => py_slice sel i (i + batch_size self)) <$> starts)))
      as [msg|].
    + destruct IH as [Ho' Hu']. split; [done|].
      apply uploads_only_app; [by eapply batch_step_uploads_only | done].
    + destruct IH as (css & recss & Ho' & Hc' & Hall). rewrite Ho', Hc'.
      eexists (_ :: css), (recs :: recss).
      split; [by rewrite <- app_assoc|]. split; [reflexivity|].
      constructor; [exact Hstep | exact Hall].
Qed.

Lemma add_files_list_run self knowledge_id paths metas (s : R) :
  let docs := zip paths metas in
  let ex := existing_files_set key (listed_files store knowledge_id s) in
  let rest := upload_selected store file_exists file_open self knowledge_id
                (selected ex docs) (knowledge_get store knowledge_id s).2 in
  add_files store key file_exists file_open self knowledge_id paths
    (MetadataList metas) s =
    MkRun (outcome rest) (store_after rest)
          (EvKnowledge knowledge_id (knowledge_get store knowledge_id s).1
           :: calls rest)
          (retrieve_logs store knowledge_id s
           ++ ((fun d => skip_warning d.1) <$> skipped ex docs) ++ logged rest).
Proof.
  intros docs ex rest. unfold add_files.
  rewrite (bind_run _ _ _ _ _ _ _ (retrieve_run knowledge_id s)), bind_ret_l.
  fold docs. fold ex.
  rewrite (bind_run _ _ _ _ _ _ _ (select_loop ex docs [] [] _)).
  reflexivity.
Qed.

Lemma upload_selected_zero self knowledge_id sel (s : R) :
  batch_size self = 0%Z ->
  exists msg,
    upload_selected store file_exists file_open self knowledge_id sel s
    = MkRun (Raise (ValueError msg)) s [] [].
Proof.
  intros HB. unfold upload_selected. rewrite HB.
  eexists. reflexivity.
Qed.

Lemma upload_selected_negative self knowledge_id sel (s : R) :
  (batch_size self < 0)%Z ->
  upload_selected store file_exists file_open self knowledge_id sel s
  = MkRun (Return []) s [] [].
Proof.
  intros HB. unfold upload_selected. rewrite py_range_negative by done.
  reflexivity.
Qed.

(** For a positive batch size the selected documents are handled batch
    by batch, unless the file of one of them cannot be opened; then the
    call raises the error of the first such document. *)
Lemma upload_selected_positive self knowledge_id sel (s : R) :
  (0 < batch_size self)%Z ->
  match first_open_error file_exists file_open sel with
  | None =>
      exists css recss,
        outcome (upload_selected store file_exists file_open self knowledge_id sel s)
          = Return (concat recss)
        /\ calls (upload_selected store file_exists file_open self knowledge_id sel s)
           = concat css
        /\ Forall3 (batch_step file_exists knowledge_id)
             (batches (batch_size self) sel) css recss
  | Some msg =>
      outcome (upload_selected store file_exists file_open self knowledge_id sel s)
        = Raise (OSError msg)
      /\ uploads_only knowledge_id sel
           (calls (upload_selected store file_exists file_open self knowledge_id sel s))
  end.
Proof.
  intros HB. unfold upload_selected.
  rewrite py_range_positive by done. rewrite length_fmap, Nat2Z.id.
  rewrite (bind_return _ _ _ (range_up (length sel) 0 (Z.of_nat (length sel))
                                (batch_size self))) by reflexivity.
  unfold lift. run_simpl.
  pose proof (batch_loop self knowledge_id sel
                (range_up (length sel) 0 (Z.of_nat (length sel)) (batch_size self))
                [] s) as Hloop.
  rewrite range_up_concat in Hloop by lia.
  change (drop (Z.to_nat 0) sel) with sel in Hloop.
  destruct (first_open_error file_exists file_open sel) as [msg|].
  - destruct Hloop as [Ho Hu]. by rewrite Ho.
  - destruct Hloop as (css & recss & Ho & Hc & Hall).
    exists css, recss. rewrite Ho, Hc. done.
Qed.

(** Whatever the batch size and the files, the requests that follow the
    partition loop are uploads of selected documents and batch-attach
    calls. *)
Lemma upload_selected_uploads_only self knowledge_id sel (s : R) :
  uploads_only knowledge_id sel
    (calls (upload_selected store file_exists file_open self knowledge_id sel s)).
Proof.
  destruct (Z.lt_trichotomy (batch_size self) 0%Z) as [Hneg|[H0|Hpos]].
  - rewrite upload_selected_negative by done. apply uploads_only_nil.
  - destruct (upload_selected_zero self knowledge_id sel s H0) as [msg ->].
    apply uploads_only_nil.
  - pose proof (upload_selected_positive self knowledge_id sel s Hpos) as Hsel.
    destruct (first_open_error file_exists file_open sel) as [msg|]; [by destruct Hsel|].
    destruct Hsel as (css & recss & _ & -> & Hall).
    assert (Hcat : concat (batches (batch_size self) sel) = sel).
    { unfold batches. by rewrite range_up_concat by lia. }
    rewrite <- Hcat at 1. clear Hcat.
    induction Hall as [|b cs recs bs css recss Hstep _ IH]; [apply uploads_only_nil|].
    cbn [concat]. apply uploads_only_app; [by eapply batch_step_uploads_only | exact IH].
Qed.

End AddFiles.

(** The batches of a positive batch size: they cover the list in order,
    none is empty, none is longer than the batch size, and there are
    [ceil_div n B] of them. *)
Lemma concat_batches {A : Type} (B : Z) (l : list A) :
  (0 < B)%Z -> concat (batches B l) = l.
Proof.
  intros HB. unfold batches. rewrite range_up_concat by lia. done.
Qed.

Lemma batches_sizes {A : Type} (B : Z) (l : list A) :
  (0 < B)%Z ->
  Forall (fun b => (0 < length b)%nat /\ (Z.of_nat (length b) <= B)%Z) (batches B l).
Proof.
  intros HB. unfold batches. apply Forall_fmap.
  eapply Forall_impl; [apply range_up_bounds; lia|].
  intros i Hi. simpl. by apply py_slice_batch_length.
Qed.

Lemma length_batches {A : Type} (B : Z) (l : list A) :
  (0 < B)%Z ->
  Z.of_nat (length (batches B l)) = ceil_div (Z.of_nat (length l)) B.
Proof.
  intros HB. unfold batches. rewrite length_fmap, range_up_length by lia.
  rewrite Z.sub_0_r. apply Z.max_r.
  unfold ceil_div. apply Z.div_pos; lia.
Qed.

(** ** The requests of the batch loop *)

Lemma filter_all {A : Type} (f : A -> bool) (l : list A) :
  Forall (fun x => f x = true) l -> List.filter f l = l.
Proof.
  induction 1 as [|x l Hx _ IH]; [done|].
  by rewrite filter_cons_eq, Hx, IH.
Qed.

Lemma filter_none {A : Type} (f : A -> bool) (l : list A) :
  Forall (fun x => f x = false) l -> List.filter f l = [].
Proof.
  induction 1 as [|x l Hx _ IH]; [done|].
  by rewrite filter_cons_eq, Hx, IH.
Qed.

Lemma uploads_succeeded ups :
  forallb upload_succeeded (upload_event <$> ups) = true ->
  length (omap response_id (snd <$> ups)) = length ups.
Proof.
  induction ups as [|[[p m] r] ups IH]; [done|].
  rewrite !fmap_cons, omap_cons_eq. cbn [forallb upload_event upload_succeeded fst snd].
  intros [Hr Hrest]%andb_true_iff.
  apply bool_decide_eq_true in Hr. destruct Hr as [fid ->].
  simpl. by rewrite IH.
Qed.

Lemma length_attach_records ids resp : length (attach_records ids resp) = length ids.
Proof. destruct resp; simpl; by rewrite length_fmap. Qed.

Lemma concat_lengths {A B : Type} (ls : list (list A)) (ks : list (list B)) :
  Forall2 (fun l k => length k = length l) ls ks ->
  length (concat ks) = length (concat ls).
Proof.
  induction 1 as [|l k ls ks Hlk _ IH]; [done|].
  simpl. rewrite !length_app. lia.
Qed.

(** When every file exists locally and every upload succeeds, each batch
    is uploaded as a whole and then attached by one call that carries
    one file id per document of the batch. *)
Lemma batches_all_succeed file_exists knowledge_id bs css recss :
  Forall3 (batch_step file_exists knowledge_id) bs css recss ->
  Forall (fun b => (0 < length b)%nat) bs ->
  Forall (Forall (fun d => file_exists d.1 = true)) bs ->
  forallb upload_succeeded (concat css) = true ->
  fst <$> upload_events (concat css) = upload_key <$> concat bs
  /\ Forall2 (fun b ids => length ids = length b) bs (attach_events (concat css))
  /\ concat (attach_events (concat css))
     = omap response_id (snd <$> upload_events (concat css))
  /\ Forall2 (fun b recs => length recs = length b) bs recss.
Proof.
  induction 1 as [|b cs recs bs css recss Hstep _ IH]; intros Hne Hex Hok.
  - simpl. repeat split; constructor.
  - apply Forall_cons in Hne as [Hb Hne]. apply Forall_cons in Hex as [Hbex Hex].
    simpl concat in *. rewrite forallb_app in Hok.
    apply andb_true_iff in Hok as [Hcs Hcss].
    destruct (IH Hne Hex Hcss) as (IHu & IHa & IHc & IHr).
    destruct Hstep as (ups & Hk & Hcase).
    rewrite filter_all in Hk by exact Hbex.
    assert (Hups : forallb upload_succeeded (upload_event <$> ups) = true).
    { destruct Hcase as [(_ & -> & _)|(_ & resp & -> & _)]; [done|].
      rewrite forallb_app in Hcs. by apply andb_true_iff in Hcs as [? _]. }
    pose proof (uploads_succeeded ups Hups) as Hlen.
    assert (Hlenb : length ups = length b).
    { rewrite <- (length_fmap fst ups), Hk. by rewrite length_fmap. }
    destruct Hcase as [(Hnil & _ & _)|(_ & resp & -> & ->)].
    { rewrite Hnil in Hlen. simpl in Hlen. lia. }
    rewrite upload_events_app, attach_events_app, !upload_events_app,
      !attach_events_app, upload_events_uploads, attach_events_uploads.
    cbn [upload_events attach_events omap list_omap app].
    rewrite app_nil_r, !fmap_app, omap_app, Hk, IHu. simpl concat. rewrite IHc.
    split; [done|]. split; [constructor; [lia | done]|].
    split; [done|]. constructor; [|done].
    rewrite length_attach_records. lia.
Qed.

Lemma Forall2_bound {A B : Type} (n : Z) (ls : list (list A)) (ks : list (list B)) :
  Forall2 (fun l k => length k = length l) ls ks ->
  Forall (fun l => (Z.of_nat (length l) <= n)%Z) ls ->
  Forall (fun k => (Z.of_nat (length k) <= n)%Z) ks.
Proof.
  induction 1 as [|l k ls ks Hlk _ IH]; intros Hls; [constructor|].
  apply Forall_cons in Hls as [Hl Hls]. constructor; [lia | by apply IH].
Qed.

(** C5: for a batch size B >= 1 and N documents with distinct URLs none
    of which is already present, when every upload succeeds (every file
    exists and can be read, and every upload comes back with a file id),
    [add_files] issues exactly ceil(N/B) batch-attach calls, each with at
    most B file ids; the uploads are those of the input documents in
    input order, and the file ids of the attach calls, concatenated, are
    the ids that these uploads returned, in that order, one per
    document. *)
Theorem add_files_batch_attach_calls {R : Type} (store : RemoteStore R)
    (key : string) (file_exists : string -> bool)
    (file_open : string -> option string) (self : KnowledgeManager)
    (knowledge_id : string) (docs : list (string * ExtraMetadata)) (s : R) :
  (1 <= batch_size self)%Z ->
  NoDup ((fun d => url (metadata d.2)) <$> docs) ->
  Forall (fun d => opt_truthy (url (metadata d.2)) = true
                   /\ url (metadata d.2)
                      ∉ existing_files_set key (listed_files store knowledge_id s))
         docs ->
  Forall (fun d => file_exists d.1 = true) docs ->
  Forall (fun d => file_open d.1 = None) docs ->
  forallb upload_succeeded
    (calls (add_files store key file_exists file_open self knowledge_id
              (fst <$> docs) (MetadataList (snd <$> docs)) s)) = true ->
  let r := add_files store key file_exists file_open self knowledge_id
             (fst <$> docs) (MetadataList (snd <$> docs)) s in
  Z.of_nat (length (attach_events (calls r)))
    = ceil_div (Z.of_nat (length docs)) (batch_size self)
  /\ Forall (fun ids => (Z.of_nat (length ids) <= batch_size self)%Z)
            (attach_events (calls r))
  /\ fst <$> upload_events (calls r) = upload_key <$> docs
  /\ concat (attach_events (calls r))
     = omap response_id (snd <$> upload_events (calls r))
  /\ length (concat (attach_events (calls r))) = length docs
  /\ exists results, outcome r = Return results /\ length results = length docs.
Proof.
  intros HB _ Hnew Hex Hopen Hok r. subst r. revert Hok.
  rewrite (add_files_list_run store key file_exists file_open self knowledge_id
             (fst <$> docs) (snd <$> docs) s).
  rewrite zip_fst_snd. unfold selected. rewrite filter_all.
  2:{ eapply Forall_impl; [exact Hnew|]. intros d [Ht Hn]. unfold to_upload.
      rewrite Ht. simpl. by rewrite bool_decide_eq_false_2. }
  pose proof (upload_selected_positive store file_exists file_open self knowledge_id
                docs (knowledge_get store knowledge_id s).2 ltac:(lia)) as Hsel.
  rewrite first_open_error_none in Hsel
    by (eapply Forall_impl; [exact Hopen|]; by intros d Hd _).
  destruct Hsel as (css & recss & Ho & Hc & Hall).
  run_simpl. rewrite Ho, Hc. cbn [forallb upload_succeeded andb].
  rewrite upload_events_knowledge, attach_events_knowledge.
  intros Hok.
  pose proof (batches_sizes (batch_size self) docs ltac:(lia)) as Hsizes.
  destruct (batches_all_succeed file_exists knowledge_id _ css recss Hall)
    as (Hu & Ha & Hcat & Hr).
  - eapply Forall_impl; [exact Hsizes|]. by intros b [? _].
  - apply Forall_concat. by rewrite concat_batches by lia.
  - exact Hok.
  - rewrite concat_batches in Hu by lia.
    split; [by rewrite <- (Forall2_length _ _ _ Ha), length_batches by lia|].
    split.
    { eapply Forall2_bound; [exact Ha|].
      eapply Forall_impl; [exact Hsizes|]. by intros b [_ ?]. }
    split; [exact Hu|]. split; [exact Hcat|].
    split.
    { rewrite (concat_lengths _ _ Ha). by rewrite concat_batches by lia. }
    exists (concat recss). split; [done|].
    rewrite (concat_lengths _ _ Hr). by rewrite concat_batches by lia.
Qed.

(** ** Skipped documents *)

Section Skip.
Context {R : Type} (store : RemoteStore R) (key : string)
        (file_exists : string -> bool)
        (file_open : string -> option string).

Lemma batch_uploads knowledge_id bs css recss :
  Forall3 (batch_step file_exists knowledge_id) bs css recss ->
  fst <$> upload_events (concat css)
  = upload_key <$> List.filter (fun d => file_exists d.1) (concat bs).
Proof.
  induction 1 as [|b cs recs bs css recss Hstep _ IH]; [done|].
  simpl concat. rewrite upload_events_app, fmap_app, List.filter_app, fmap_app, IH.
  f_equal. destruct Hstep as (ups & Hk & [(_ & -> & _)|(_ & resp & -> & _)]).
  - by rewrite upload_events_uploads.
  - rewrite upload_events_app, upload_events_uploads. cbn. by rewrite app_nil_r.
Qed.

(** For a positive batch size, [add_files] raises the error of the first
    selected document whose file exists and cannot be opened.  When
    there is none, its uploads are those of the selected documents whose
    file exists locally, in input order; none for a batch size below
    1. *)
Lemma add_files_uploads self knowledge_id docs (s : R) :
  match (if (0 <? batch_size self)%Z
         then first_open_error file_exists file_open
                (selected (existing_files_set key (listed_files store knowledge_id s))
                   docs)
         else None) with
  | Some strerror =>
      outcome (add_files store key file_exists file_open self knowledge_id
                 (fst <$> docs) (MetadataList (snd <$> docs)) s)
      = Raise (OSError strerror)
  | None =>
      fst <$> upload_events
                (calls (add_files store key file_exists file_open self knowledge_id
                          (fst <$> docs) (MetadataList (snd <$> docs)) s))
      = if (0 <? batch_size self)%Z
        then upload_key
             <$> List.filter (fun d => file_exists d.1)
                   (selected (existing_files_set key (listed_files store knowledge_id s))
                             docs)
        else []
  end.
Proof.
  rewrite add_files_list_run, zip_fst_snd. run_simpl.
  rewrite upload_events_knowledge.
  destruct (Z.ltb_spec 0 (batch_size self)) as [Hpos|Hle].
  - pose proof (upload_selected_positive store file_exists file_open self
                  knowledge_id
                  (selected (existing_files_set key (listed_files store knowledge_id s))
                     docs)
                  (knowledge_get store knowledge_id s).2 Hpos) as Hsel.
    destruct (first_open_error file_exists file_open _) as [strerror|].
    + by destruct Hsel.
    + destruct Hsel as (css & recss & _ & -> & Hall).
      rewrite (batch_uploads _ _ _ _ Hall). by rewrite concat_batches.
  - destruct (Z.eq_dec (batch_size self) 0%Z) as [H0|Hne].
    + edestruct (upload_selected_zero store file_exists file_open self knowledge_id)
        as (msg & ->); [exact H0|]. done.
    + rewrite upload_selected_negative by lia. done.
Qed.

(** Whatever happens, [add_files] uploads selected documents only. *)
Lemma add_files_uploads_selected self knowledge_id docs (s : R) :
  fst <$> upload_events
            (calls (add_files store key file_exists file_open self knowledge_id
                      (fst <$> docs) (MetadataList (snd <$> docs)) s))
  ⊆ upload_key
    <$> selected (existing_files_set key (listed_files store knowledge_id s)) docs.
Proof.
  rewrite add_files_list_run, zip_fst_snd. run_simpl.
  rewrite upload_events_knowledge.
  apply (upload_selected_uploads_only store file_exists file_open).
Qed.

(** [add_files] with a metadata list raises for a batch size of 0, a
    ValueError, and for a selected file that exists and cannot be
    opened, its OSError; otherwise it returns. *)
Lemma add_files_list_outcome self knowledge_id paths metas (s : R) :
  (batch_size self = 0%Z /\
   exists msg, outcome (add_files store key file_exists file_open self knowledge_id
                          paths (MetadataList metas) s) = Raise (ValueError msg))
  \/ (batch_size self <> 0%Z /\
      exists results, outcome (add_files store key file_exists file_open self
                                 knowledge_id paths (MetadataList metas) s)
                      = Return results)
  \/ (exists msg, outcome (add_files store key file_exists file_open self knowledge_id
                             paths (MetadataList metas) s) = Raise (OSError msg)).
Proof.
  rewrite add_files_list_run. run_simpl.
  destruct (Z.lt_trichotomy (batch_size self) 0%Z) as [Hneg|[H0|Hpos]].
  - right. left. split; [lia|]. rewrite upload_selected_negative by done. by eexists.
  - left. split; [done|].
    edestruct (upload_selected_zero store file_exists file_open self knowledge_id)
      as (msg & ->); [exact H0|]. by eexists.
  - match goal with
    | |- context [upload_selected _ _ _ _ _ ?sel ?s'] =>
        pose proof (upload_selected_positive store file_exists file_open self
                      knowledge_id sel s' Hpos) as Hsel;
        destruct (first_open_error file_exists file_open sel) as [msg|]
    end.
    + right. right. destruct Hsel as [-> _]. by eexists.
    + right. left. split; [lia|]. destruct Hsel as (css & recss & -> & _). by eexists.
Qed.

(** A document that the partition loop skips leaves one warning and
    nothing else: results, requests and final store are those of the call
    without the document. *)
Lemma add_files_skip self knowledge_id d1 doc d2 (s : R) :
  to_upload (existing_files_set key (listed_files store knowledge_id s)) doc.2 = false ->
  let r := add_files store key file_exists file_open self knowledge_id
             (fst <$> d1 ++ doc :: d2) (MetadataList (snd <$> d1 ++ doc :: d2)) s in
  let r' := add_files store key file_exists file_open self knowledge_id
              (fst <$> d1 ++ d2) (MetadataList (snd <$> d1 ++ d2)) s in
  outcome r = outcome r' /\ calls r = calls r' /\ store_after r = store_after r'
  /\ exists l1 l2,
       logged r = l1 ++ skip_warning doc.1 :: l2 /\ logged r' = l1 ++ l2.
Proof.
  intros Hskip r r'. subst r r'.
  rewrite !add_files_list_run, !zip_fst_snd. run_simpl.
  unfold selected, skipped. rewrite !List.filter_app, !filter_cons_eq, Hskip.
  cbn [negb]. split; [reflexivity|]. split; [reflexivity|]. split; [reflexivity|].
  set (ex := existing_files_set key (listed_files store knowledge_id s)).
  set (rest := upload_selected _ _ _ _ _ _ _).
  exists (retrieve_logs store knowledge_id s
          ++ ((fun d => skip_warning d.1) <$> skipped ex d1)),
         (((fun d => skip_warning d.1) <$> skipped ex d2) ++ logged rest).
  unfold skipped. rewrite !fmap_app, fmap_cons, <- !app_assoc.
  split; reflexivity.
Qed.

End Skip.

(** C10: a document whose metadata URL is missing or empty takes the skip
    branch of [add_files]: it is never uploaded (every upload carries
    metadata with a non-empty URL), the results, the requests and the
    final store are those of the call without the document, and the one
    trace it leaves is the warning that says the file already exists in
    the knowledge base. *)
Theorem add_files_skips_documents_without_url {R : Type} (store : RemoteStore R)
    (key : string) (file_exists : string -> bool)
    (file_open : string -> option string) (self : KnowledgeManager)
    (knowledge_id : string) (d1 : list (string * ExtraMetadata))
    (doc : string * ExtraMetadata) (d2 : list (string * ExtraMetadata)) (s : R) :
  opt_truthy (url (metadata doc.2)) = false ->
  let r := add_files store key file_exists file_open self knowledge_id
             (fst <$> d1 ++ doc :: d2) (MetadataList (snd <$> d1 ++ doc :: d2)) s in
  let r' := add_files store key file_exists file_open self knowledge_id
              (fst <$> d1 ++ d2) (MetadataList (snd <$> d1 ++ d2)) s in
  to_upload (existing_files_set key (listed_files store knowledge_id s)) doc.2 = false
  /\ Forall (fun u => exists m, u.1.2 = Some m /\ opt_truthy (url (metadata m)) = true)
            (upload_events (calls r))
  /\ outcome r = outcome r' /\ calls r = calls r' /\ store_after r = store_after r'
  /\ exists l1 l2,
       logged r = l1 ++ {| levelname := "WARNING";
                           message := "File already exists in knowledge base: "
                                      +:+ doc.1 +:+ ", skipping." |} :: l2
       /\ logged r' = l1 ++ l2.
Proof.
  intros Hurl r r'.
  assert (Hskip : to_upload (existing_files_set key (listed_files store knowledge_id s))
                    doc.2 = false).
  { unfold to_upload. by rewrite Hurl. }
  split; [exact Hskip|]. split.
  - pose proof (add_files_uploads_selected store key file_exists file_open self
                  knowledge_id (d1 ++ doc :: d2) s) as Hup.
    fold r in Hup. apply Forall_forall. intros u Hu.
    assert (Hin : u.1 ∈ fst <$> upload_events (calls r)) by (by apply list_elem_of_fmap_2).
    apply Hup in Hin. unfold selected in Hin.
    apply list_elem_of_fmap in Hin as (d & Hd & Hin).
    apply list_elem_of_In, List.filter_In in Hin as [_ Hsel].
    exists d.2. rewrite Hd. split; [done|].
    unfold to_upload in Hsel. by apply andb_true_iff in Hsel as [? _].
  - by apply add_files_skip.
Qed.

(** ** update_files *)

Section UpdateFiles.
Context {R : Type} (store : RemoteStore R) (key : string)
        (file_exists : string -> bool)
        (file_open : string -> option string).

Lemma remove_files_single knowledge_id fid (s : R) :
  remove_files store knowledge_id [fid] s =
    match (knowledge_file_remove store knowledge_id fid s).1 with
    | Status200 result =>
        MkRun (Return [[("file_id", PyStr fid); ("success", PyBool true);
                        ("result", PyJson result)]])
              (knowledge_file_remove store knowledge_id fid s).2
              [EvFileRemove knowledge_id fid (Status200 result)] []
    | StatusNot200 text =>
        MkRun (Return [[("file_id", PyStr fid); ("success", PyBool false);
                        ("error", PyStr text)]])
              (knowledge_file_remove store knowledge_id fid s).2
              [EvFileRemove knowledge_id fid (StatusNot200 text)]
              [{| levelname := "ERROR";
                  message := "Failed to remove file ID " +:+ fid +:+ ", response: "
                             +:+ text |}]
    end.
Proof.
  unfold remove_files, for_in, remove_one, bind, request, ret, log.
  destruct (knowledge_file_remove store knowledge_id fid s) as [[j|text] s'];
    reflexivity.
Qed.

Lemma remove_record_success (fid : PyVal) (b : bool) (kv : string * PyVal) :
  py_truthy (dict_get_default "success" (PyBool false)
               [("file_id", fid); ("success", PyBool b); kv]) = b.
Proof. reflexivity. Qed.

Lemma open_error_some d msg :
  open_error file_exists file_open d = Some msg ->
  file_exists d.1 = true /\ file_open d.1 = Some msg.
Proof. unfold open_error. by destruct (file_exists d.1). Qed.

Lemma bind_calls {A B : Type} (m : M R A) (k : A -> M R B) (s : R) :
  calls (bind m k s)
  = calls (m s) ++ match outcome (m s) with
                   | Return a => calls (k a (store_after (m s)))
                   | Raise _ => []
                   end.
Proof.
  unfold bind. cbv zeta. destruct (outcome (m s)); run_simpl; [done|].
  by rewrite app_nil_r.
Qed.

(** [_upload_file_and_add_to_kb] returns a record, unless the file
    exists and cannot be opened: then it raises before any request. *)
Lemma upload_and_add_outcome p m knowledge_id (s : R) :
  match open_error file_exists file_open (p, m) with
  | None =>
      exists d, outcome (_upload_file_and_add_to_kb store file_exists file_open
                           p m knowledge_id s) = Return d
  | Some msg =>
      _upload_file_and_add_to_kb store file_exists file_open p m knowledge_id s
      = MkRun (Raise (OSError msg)) s [] []
  end.
Proof.
  unfold _upload_file_and_add_to_kb, open_error. cbn [fst].
  destruct (send_file_run store file_exists file_open p (Some m) s) as [ls Hsend].
  destruct (file_exists p); [destruct (file_open p) as [msg|]|].
  - rewrite (bind_raise _ _ _ (OSError msg)) by (by rewrite Hsend). by rewrite Hsend.
  - rewrite (bind_run _ _ _ _ _ _ _ Hsend). run_simpl.
    destruct (response_id _) as [fid|]; [|by eexists].
    unfold bind, request.
    destruct (knowledge_file_add store knowledge_id fid _) as [[j|text] s'];
      by eexists.
  - rewrite (bind_run _ _ _ _ _ _ _ Hsend). run_simpl. by eexists.
Qed.

Lemma found_file_url kfs im f :
  _get_file_meta_if_exists_in_knowledge key kfs im = Some f ->
  _get_item_url_of_file key (Some f) = url im
  /\ opt_truthy (url im) = true.
Proof.
  unfold _get_file_meta_if_exists_in_knowledge. intros Hfind.
  apply List.find_some in Hfind as [_ Hp].
  apply andb_true_iff in Hp as [Ht He].
  apply bool_decide_eq_true in He. by rewrite <- He.
Qed.

Lemma update_one_not_found knowledge_id kfs p m acc (s : R) :
  _get_file_meta_if_exists_in_knowledge key kfs (metadata m) = None ->
  update_one store key file_exists file_open knowledge_id kfs (p, m) acc s =
    MkRun (Return (acc ++ [not_found_record])) s []
          [{| levelname := "WARNING"; message := "File not found: None" |}].
Proof. intros Hfind. unfold update_one. rewrite Hfind. reflexivity. Qed.

Lemma update_one_remove_failed knowledge_id kfs p m acc (s : R) f text s' :
  _get_file_meta_if_exists_in_knowledge key kfs (metadata m) = Some f ->
  str_truthy (id f) = true ->
  knowledge_file_remove store knowledge_id (id f) s = (StatusNot200 text, s') ->
  update_one store key file_exists file_open knowledge_id kfs (p, m) acc s =
    MkRun (Return (acc ++ [[("file_name", opt_to_py (url (metadata m)));
                            ("success", PyBool false);
                            ("error", PyStr "Failed to remove file")]]))
          s' [EvFileRemove knowledge_id (id f) (StatusNot200 text)]
          [{| levelname := "ERROR";
              message := "Failed to remove file ID " +:+ id f +:+ ", response: "
                         +:+ text |}].
Proof.
  intros Hfind Hid Hrem. unfold update_one.
  destruct (found_file_url _ _ _ Hfind) as [Hurl _].
  rewrite Hfind, Hurl. cbn [fmap option_fmap option_map opt_truthy default].
  rewrite Hid. cbn [negb].
  pose proof (remove_files_single knowledge_id (id f) s) as Hrun.
  rewrite Hrem in Hrun. cbn [fst snd] in Hrun.
  rewrite (bind_run _ _ _ _ _ _ _ Hrun), bind_ret_l, remove_record_success.
  unfold ret. run_simpl. by rewrite !app_nil_r.
Qed.

(** Every turn of the loop appends one record, with the key "file_name"
    and the payload, unless the file of a matched document exists and
    cannot be opened: then the turn raises. *)
Lemma update_one_run knowledge_id kfs d acc (s : R) :
  (exists rec,
     outcome (update_one store key file_exists file_open knowledge_id kfs d acc s)
       = Return (acc ++ [rec])
     /\ has_key "file_name" rec = true /\ has_payload rec = true
     /\ (_get_file_meta_if_exists_in_knowledge key kfs (metadata d.2) = None ->
         rec = not_found_record))
  \/ (exists msg f,
        _get_file_meta_if_exists_in_knowledge key kfs (metadata d.2) = Some f
        /\ file_exists d.1 = true /\ file_open d.1 = Some msg
        /\ outcome (update_one store key file_exists file_open knowledge_id kfs d acc s)
           = Raise (OSError msg)).
Proof.
  destruct d as [p m]. cbn [fst snd].
  destruct (_get_file_meta_if_exists_in_knowledge key kfs (metadata m))
    as [f|] eqn:Hfind.
  2:{ left. rewrite update_one_not_found by done. by eexists. }
  unfold update_one. rewrite Hfind.
  cbn [fmap option_fmap option_map opt_truthy default].
  destruct (str_truthy (id f)); cbn [negb].
  2:{ left. eexists. split; [reflexivity|]. by repeat split. }
  pose proof (remove_files_single knowledge_id (id f) s) as Hrun.
  destruct (knowledge_file_remove store knowledge_id (id f) s) as [[j|text] s'];
    cbn [fst snd] in Hrun;
    rewrite (bind_run _ _ _ _ _ _ _ Hrun), bind_ret_l.
  - rewrite remove_record_success.
    pose proof (upload_and_add_outcome p m knowledge_id s') as Hadd.
    destruct (open_error file_exists file_open (p, m)) as [msg|] eqn:Hop.
    + right. apply open_error_some in Hop as [Hex Hopen]. exists msg, f.
      rewrite (bind_raise _ _ _ (OSError msg)) by (by rewrite Hadd).
      by run_simpl.
    + left. destruct Hadd as [dres Hadd].
      rewrite (bind_return _ _ _ _ Hadd). run_simpl.
      eexists. split; [reflexivity|]. split; [done|]. split; [done|]. done.
  - left. rewrite remove_record_success.
    eexists. split; [reflexivity|]. split; [done|]. split; [done|]. done.
Qed.

Lemma update_loop knowledge_id kfs docs : forall acc (s : R),
  (exists new,
     outcome (for_in docs (update_one store key file_exists file_open knowledge_id kfs)
                acc s)
       = Return (acc ++ new)
     /\ Forall (fun rec => has_key "file_name" rec = true /\ has_payload rec = true) new
     /\ Forall2 (fun d rec =>
                   _get_file_meta_if_exists_in_knowledge key kfs (metadata d.2) = None ->
                   rec = not_found_record) docs new)
  \/ (exists msg d f,
        d ∈ docs
        /\ _get_file_meta_if_exists_in_knowledge key kfs (metadata d.2) = Some f
        /\ file_exists d.1 = true /\ file_open d.1 = Some msg
        /\ outcome (for_in docs
                      (update_one store key file_exists file_open knowledge_id kfs)
                      acc s)
           = Raise (OSError msg)).
Proof.
  induction docs as [|d docs IH]; intros acc s.
  - left. exists []. simpl. rewrite app_nil_r. repeat split; constructor.
  - rewrite for_in_cons.
    destruct (update_one_run knowledge_id kfs d acc s)
      as [(rec & Ho & Hk & Hp & Hnf)|(msg & f & Hfind & Hex & Hopen & Ho)].
    2:{ right. exists msg, d, f. rewrite (bind_raise _ _ _ _ Ho).
        split; [left|done]. }
    rewrite (bind_return _ _ _ _ Ho). run_simpl.
    edestruct IH as [(new & Ho' & Hshape & Hall)|(msg & d' & f & Hin & Hrest)].
    + left. rewrite Ho'. exists (rec :: new). rewrite <- app_assoc.
      split; [done|]. split; constructor; done.
    + right. exists msg, d', f. split; [by right|exact Hrest].
Qed.

Lemma removed_events_app cs1 cs2 :
  removed_events (cs1 ++ cs2) = removed_events cs1 ++ removed_events cs2.
Proof. apply omap_app. Qed.

Lemma upload_and_add_calls p m knowledge_id (s : R) :
  (length (upload_events
             (calls (_upload_file_and_add_to_kb store file_exists file_open
                       p m knowledge_id s)))
   <= 1)%nat.
Proof.
  unfold _upload_file_and_add_to_kb.
  destruct (send_file_run store file_exists file_open p (Some m) s) as [ls Hsend].
  destruct (file_exists p); [destruct (file_open p) as [msg|]|].
  - rewrite (bind_raise _ _ _ (OSError msg)) by (by rewrite Hsend).
    rewrite Hsend. cbn. lia.
  - rewrite (bind_run _ _ _ _ _ _ _ Hsend). run_simpl.
    destruct (response_id _) as [fid|]; [|by cbn].
    unfold bind, request.
    destruct (knowledge_file_add store knowledge_id fid _) as [[j|text] s']; by cbn.
  - rewrite (bind_run _ _ _ _ _ _ _ Hsend). run_simpl. cbn. lia.
Qed.

(** A turn uploads only after the store accepted the removal. *)
Lemma update_one_calls knowledge_id kfs d acc (s : R) :
  (length (upload_events
             (calls (update_one store key file_exists file_open
                 knowledge_id kfs d acc s)))
   <= length (removed_events
                (calls (update_one store key file_exists file_open knowledge_id kfs
                          d acc s))))%nat.
Proof.
  destruct d as [p m].
  destruct (_get_file_meta_if_exists_in_knowledge key kfs (metadata m))
    as [f|] eqn:Hfind.
  2:{ by rewrite update_one_not_found. }
  unfold update_one. rewrite Hfind.
  cbn [fmap option_fmap option_map opt_truthy default].
  destruct (str_truthy (id f)); cbn [negb]; [|by cbn].
  pose proof (remove_files_single knowledge_id (id f) s) as Hrun.
  destruct (knowledge_file_remove store knowledge_id (id f) s) as [[j|text] s'];
    cbn [fst snd] in Hrun;
    rewrite (bind_run _ _ _ _ _ _ _ Hrun), bind_ret_l, remove_record_success.
  - pose proof (upload_and_add_calls p m knowledge_id s') as Hle.
    run_simpl. rewrite bind_calls.
    destruct (outcome (_upload_file_and_add_to_kb store file_exists file_open
                         p m knowledge_id s'));
      rewrite ?app_nil_r, upload_events_app, removed_events_app, !length_app;
      cbn [upload_events removed_events omap list_omap length ret calls]; lia.
  - unfold ret. run_simpl. by cbn.
Qed.

Lemma update_loop_calls knowledge_id kfs docs : forall acc (s : R),
  (length (upload_events
             (calls (for_in docs
                       (update_one store key file_exists file_open knowledge_id kfs)
                       acc s)))
   <= length (removed_events
                (calls (for_in docs
                          (update_one store key file_exists file_open knowledge_id kfs)
                          acc s))))%nat.
Proof.
  induction docs as [|d docs IH]; intros acc s; [by cbn|].
  rewrite for_in_cons, bind_calls.
  pose proof (update_one_calls knowledge_id kfs d acc s) as Hd.
  rewrite upload_events_app, removed_events_app, !length_app.
  destruct (outcome (update_one store key file_exists file_open knowledge_id kfs
                       d acc s)) as [acc'|e].
  - specialize (IH acc' (store_after (update_one store key file_exists file_open
                                        knowledge_id kfs d acc s))).
    lia.
  - cbn. lia.
Qed.

Lemma update_files_calls knowledge_id paths metas (s : R) :
  (length (upload_events
             (calls (update_files store key file_exists file_open knowledge_id
                       paths metas s)))
   <= length (removed_events
                (calls (update_files store key file_exists file_open knowledge_id
                          paths metas s))))%nat.
Proof.
  unfold update_files.
  rewrite (bind_run _ _ _ _ _ _ _ (retrieve_run store knowledge_id s)). run_simpl.
  change (EvKnowledge ?k ?r :: ?cs) with ([EvKnowledge k r] ++ cs) at 1 2.
  rewrite !upload_events_app, !removed_events_app, !length_app.
  cbn [upload_events removed_events omap list_omap length].
  apply update_loop_calls.
Qed.

(** [update_files] returns one record per document, unless the file of
    a matched document exists and cannot be opened. *)
Lemma update_files_run knowledge_id paths metas (s : R) :
  (exists results,
     outcome (update_files store key file_exists file_open knowledge_id paths metas s)
       = Return results
     /\ Forall (fun rec => has_key "file_name" rec = true /\ has_payload rec = true)
               results
     /\ Forall2 (fun d rec =>
                   _get_file_meta_if_exists_in_knowledge key
                     (listed_files store knowledge_id s) (metadata d.2) = None ->
                   rec = not_found_record) (zip paths metas) results)
  \/ (exists msg d f,
        d ∈ zip paths metas
        /\ _get_file_meta_if_exists_in_knowledge key
             (listed_files store knowledge_id s) (metadata d.2) = Some f
        /\ file_exists d.1 = true /\ file_open d.1 = Some msg
        /\ outcome (update_files store key file_exists file_open knowledge_id
                      paths metas s)
           = Raise (OSError msg)).
Proof.
  unfold update_files.
  rewrite (bind_run _ _ _ _ _ _ _ (retrieve_run store knowledge_id s)). run_simpl.
  edestruct update_loop as [(new & Ho & Hshape & Hall)|(msg & d & f & Hin & Hrest)].
  - left. rewrite Ho. exists new. done.
  - right. exists msg, d, f. split; [exact Hin|exact Hrest].
Qed.

End UpdateFiles.

(** C6: [update_files] handles each document in turn.  When no file of
    the knowledge base matches the document's URL, the turn appends the
    failure record "File not found", sends no request and leaves the
    store as it is, and the loop goes on: the call returns one record per
    document, and the record of every unmatched document is that failure
    record.  The one thing that ends the loop early is the local file of
    a matched document that exists and cannot be opened, whose OSError
    the call raises; an unmatched document never does.  When a matching
    file is found and its removal fails, the turn appends the failure
    record "Failed to remove file" and its only request is the failed
    removal: no upload is attempted.  Over a whole call, the uploads
    never outnumber the removals that the store accepted. *)
Theorem update_files_failure_records {R : Type} (store : RemoteStore R)
    (key : string) (file_exists : string -> bool)
    (file_open : string -> option string) (knowledge_id : string) :
  (forall kfs p m acc (s : R),
     _get_file_meta_if_exists_in_knowledge key kfs (metadata m) = None ->
     update_one store key file_exists file_open knowledge_id kfs (p, m) acc s =
       MkRun (Return (acc ++ [[("file_name", PyNone); ("success", PyBool false);
                               ("error", PyStr "File not found")]]))
             s []
             [{| levelname := "WARNING"; message := "File not found: None" |}])
  /\ (forall paths metas (s : R),
        (exists results,
           outcome (update_files store key file_exists file_open knowledge_id
                      paths metas s)
             = Return results
           /\ Forall2 (fun d rec =>
                         _get_file_meta_if_exists_in_knowledge key
                           (listed_files store knowledge_id s) (metadata d.2) = None ->
                         rec = [("file_name", PyNone); ("success", PyBool false);
                                ("error", PyStr "File not found")])
                      (zip paths metas) results)
        \/ (exists msg d f,
              d ∈ zip paths metas
              /\ _get_file_meta_if_exists_in_knowledge key
                   (listed_files store knowledge_id s) (metadata d.2) = Some f
              /\ file_exists d.1 = true /\ file_open d.1 = Some msg
              /\ outcome (update_files store key file_exists file_open knowledge_id
                            paths metas s)
                 = Raise (OSError msg)))
  /\ (forall kfs p m acc (s : R) f text s',
        _get_file_meta_if_exists_in_knowledge key kfs (metadata m) = Some f ->
        str_truthy (id f) = true ->
        knowledge_file_remove store knowledge_id (id f) s = (StatusNot200 text, s') ->
        let r := update_one store key file_exists file_open
            knowledge_id kfs (p, m) acc s in
        outcome r = Return (acc ++ [[("file_name", opt_to_py (url (metadata m)));
                                     ("success", PyBool false);
                                     ("error", PyStr "Failed to remove file")]])
        /\ calls r = [EvFileRemove knowledge_id (id f) (StatusNot200 text)]
        /\ upload_events (calls r) = []
        /\ store_after r = s')
  /\ (forall paths metas (s : R),
        (length (upload_events
                   (calls (update_files store key file_exists file_open knowledge_id
                             paths metas s)))
         <= length (removed_events
                      (calls (update_files store key file_exists file_open knowledge_id
                                paths metas s))))%nat).
Proof.
  split; [|split; [|split]]; [| | |by intros; apply update_files_calls].
  - intros. by apply update_one_not_found.
  - intros paths metas s.
    destruct (update_files_run store key file_exists file_open knowledge_id
                paths metas s)
      as [(results & Ho & _ & Hall)|Hraise]; [left; by exists results | by right].
  - intros kfs p m acc s f text s' Hfind Hid Hrem r. subst r.
    rewrite (update_one_remove_failed store key file_exists file_open knowledge_id
               kfs p m acc s f text s' Hfind Hid Hrem).
    by repeat split.
Qed.

(** ** The metadata argument of add_files *)

Section Metadata.
Context {R : Type} (store : RemoteStore R) (key : string)
        (file_exists : string -> bool)
        (file_open : string -> option string).

Lemma add_files_none_run self knowledge_id paths (s : R) :
  add_files store key file_exists file_open self knowledge_id paths MetadataNone s =
    MkRun (Raise (TypeError "zip argument #2 must support iteration"))
          (knowledge_get store knowledge_id s).2
          [EvKnowledge knowledge_id (knowledge_get store knowledge_id s).1]
          (retrieve_logs store knowledge_id s).
Proof.
  unfold add_files.
  rewrite (bind_run _ _ _ _ _ _ _ (retrieve_run store knowledge_id s)).
  cbn. by rewrite !app_nil_r.
Qed.

Lemma add_files_one_run self knowledge_id paths m (s : R) :
  add_files store key file_exists file_open self knowledge_id paths (MetadataOne m) s =
  add_files store key file_exists file_open self knowledge_id paths
    (MetadataList (replicate (length paths) m)) s.
Proof. reflexivity. Qed.

Lemma attach_records_shape ids resp : Forall add_record_shape (attach_records ids resp).
Proof.
  destruct resp as [j|text]; simpl; apply Forall_fmap, Forall_forall; intros fid _.
  - split; [done|]. right. split; [done|]. split; [done|]. by eexists _, _.
  - split; [done|]. left. by eexists.
Qed.

Lemma batch_records_shape knowledge_id bs css recss :
  Forall3 (batch_step file_exists knowledge_id) bs css recss ->
  Forall add_record_shape (concat recss).
Proof.
  induction 1 as [|b cs recs bs css recss Hstep _ IH]; [constructor|].
  simpl. apply Forall_app. split; [|exact IH].
  destruct Hstep as (ups & _ & [(_ & _ & ->)|(_ & resp & _ & ->)]).
  - constructor.
  - apply attach_records_shape.
Qed.

Lemma upload_selected_records_shape self knowledge_id sel (s : R) :
  Forall add_record_shape
    (records_of (outcome (upload_selected store file_exists file_open self
                            knowledge_id sel s))).
Proof.
  destruct (Z.lt_trichotomy (batch_size self) 0%Z) as [Hneg|[H0|Hpos]].
  - rewrite upload_selected_negative by done. constructor.
  - edestruct (upload_selected_zero store file_exists file_open self knowledge_id)
      as (msg & ->); [exact H0|]. constructor.
  - pose proof (upload_selected_positive store file_exists file_open self knowledge_id
                  sel s Hpos) as Hsel.
    destruct (first_open_error file_exists file_open sel) as [msg|].
    + destruct Hsel as [-> _]. constructor.
    + destruct Hsel as (css & recss & -> & _ & Hall).
      simpl. by eapply batch_records_shape.
Qed.

Lemma add_files_records_shape self knowledge_id paths arg (s : R) :
  Forall add_record_shape
    (records_of (outcome (add_files store key file_exists file_open self knowledge_id
                            paths arg s))).
Proof.
  destruct arg as [|m|metas].
  - rewrite add_files_none_run. constructor.
  - rewrite add_files_one_run, add_files_list_run. run_simpl.
    apply upload_selected_records_shape.
  - rewrite add_files_list_run. run_simpl.
    apply upload_selected_records_shape.
Qed.

End Metadata.

(** C9: with the [metadata] argument left at [None], [add_files] raises a
    TypeError for every list of file paths, the empty one included; with
    one [ExtraMetadata] or a list of them it never does: it returns, or
    raises the ValueError of a zero batch size or the OSError of a file
    that cannot be opened. *)
Theorem add_files_without_metadata_raises {R : Type} (store : RemoteStore R)
    (key : string) (file_exists : string -> bool)
    (file_open : string -> option string) (self : KnowledgeManager)
    (knowledge_id : string) (file_paths : list string) (s : R) :
  outcome (add_files store key file_exists file_open
      self knowledge_id file_paths MetadataNone s)
    = Raise (TypeError "zip argument #2 must support iteration")
  /\ outcome (add_files store key file_exists file_open
      self knowledge_id [] MetadataNone s)
     = Raise (TypeError "zip argument #2 must support iteration")
  /\ (forall m,
        (exists results,
           outcome (add_files store key file_exists file_open self knowledge_id
                      file_paths (MetadataOne m) s) = Return results)
        \/ (exists msg,
              outcome (add_files store key file_exists file_open self knowledge_id
                         file_paths (MetadataOne m) s) = Raise (ValueError msg))
        \/ (exists msg,
              outcome (add_files store key file_exists file_open self knowledge_id
                         file_paths (MetadataOne m) s) = Raise (OSError msg)))
  /\ (forall metas,
        (exists results,
           outcome (add_files store key file_exists file_open self knowledge_id
                      file_paths (MetadataList metas) s) = Return results)
        \/ (exists msg,
              outcome (add_files store key file_exists file_open self knowledge_id
                         file_paths (MetadataList metas) s) = Raise (ValueError msg))
        \/ (exists msg,
              outcome (add_files store key file_exists file_open self knowledge_id
                         file_paths (MetadataList metas) s) = Raise (OSError msg))).
Proof.
  split; [by rewrite add_files_none_run|].
  split; [by rewrite add_files_none_run|].
  split.
  - intros m. rewrite add_files_one_run.
    destruct (add_files_list_outcome store key file_exists file_open self knowledge_id
                file_paths (replicate (length file_paths) m) s)
      as [[_ H]|[[_ H]|H]]; [by right; left | by left | by right; right].
  - intros metas.
    destruct (add_files_list_outcome store key file_exists file_open self knowledge_id
                file_paths metas s)
      as [[_ H]|[[_ H]|H]]; [by right; left | by left | by right; right].
Qed.

(** ** Configuration *)

(** C3, as the code has it: construction never fails because of the
    batch size.  For every batch size, also one below 1, [__init__]
    succeeds exactly when an API key is available (as argument or in the
    environment) and stores the batch size as given; without a key it
    raises a ValueError. *)
Theorem init_accepts_every_batch_size (environ : string -> option string)
    (base_url' api_key' : option string) (batch_size' : Z) :
  let key := if opt_truthy api_key' then api_key' else environ "OPEN_WEBUI_API_KEY" in
  (opt_truthy key = true
   /\ exists self, __init__ environ base_url' api_key' batch_size' = Return self
                   /\ batch_size self = batch_size'
                   /\ Some (api_key self) = key)
  \/ (opt_truthy key = false
      /\ exists msg, __init__ environ base_url' api_key' batch_size'
                     = Raise (ValueError msg)).
Proof.
  intros key. unfold __init__. fold key.
  destruct (opt_truthy key) eqn:Hk; simpl.
  - left. split; [done|]. eexists. split; [reflexivity|]. split; [done|].
    simpl. destruct key; [done | discriminate].
  - right. split; [done|]. by eexists.
Qed.

(** C3 as stated fails: a batch size of 0 is accepted. *)
Lemma init_accepts_batch_size_zero :
  ~ (forall environ base_url' api_key' batch_size',
       (batch_size' < 1)%Z ->
       exists e, __init__ environ base_url' api_key' batch_size' = Raise e).
Proof.
  intros H.
  destruct (H (fun _ => None) None (Some "secret") 0%Z ltac:(lia)) as [e He].
  discriminate He.
Qed.

(** The batch size is looked at only when [add_files] runs: 0 makes the
    batch loop raise, after the files were listed; a negative one makes
    it a loop of no turns. *)
Lemma add_files_batch_size_zero {R : Type} (store : RemoteStore R) key file_exists
    file_open self knowledge_id paths metas (s : R) :
  batch_size self = 0%Z ->
  exists msg,
    outcome (add_files store key file_exists file_open self knowledge_id paths
               (MetadataList metas) s) = Raise (ValueError msg)
    /\ calls (add_files store key file_exists file_open self knowledge_id paths
                (MetadataList metas) s)
       = [EvKnowledge knowledge_id (knowledge_get store knowledge_id s).1].
Proof.
  intros H0. rewrite add_files_list_run. run_simpl.
  edestruct (upload_selected_zero store file_exists file_open self knowledge_id)
    as (msg & ->); [exact H0|]. by exists msg.
Qed.

Lemma add_files_batch_size_negative {R : Type} (store : RemoteStore R) key file_exists
    file_open self knowledge_id paths metas (s : R) :
  (batch_size self < 0)%Z ->
  outcome (add_files store key file_exists file_open self knowledge_id paths
             (MetadataList metas) s) = Return []
  /\ calls (add_files store key file_exists file_open self knowledge_id paths
              (MetadataList metas) s)
     = [EvKnowledge knowledge_id (knowledge_get store knowledge_id s).1].
Proof.
  intros Hneg. rewrite add_files_list_run. run_simpl.
  by rewrite upload_selected_negative.
Qed.

(** ** Result records *)

(** C2, as the code has it: every record of [remove_files] carries the
    file id under "file_id", every record of [update_files] carries the
    key "file_name", and both carry the success flag and the result or
    the error.  A record of [add_files] carries the flag and the payload
    too, but its identifier depends on the batch-attach call: the failure
    record has the file id under "file_id"; the success record has no
    identifier field, its file id is the "id" entry of its result. *)
Theorem result_records_shape {R : Type} (store : RemoteStore R) (key : string)
    (file_exists : string -> bool)
    (file_open : string -> option string) (self : KnowledgeManager)
    (knowledge_id : string) (s : R) :
  (forall file_ids,
     Forall (fun r => has_payload r = true
                      /\ exists fid, dict_get "file_id" r = Some (PyStr fid))
            (records_of (outcome (remove_files store knowledge_id file_ids s))))
  /\ (forall paths metas,
        Forall (fun r => has_payload r = true /\ has_key "file_name" r = true)
               (records_of (outcome (update_files store key file_exists file_open
                                       knowledge_id paths metas s))))
  /\ (forall paths arg,
        Forall add_record_shape
               (records_of (outcome (add_files store key file_exists file_open
                                       self knowledge_id paths arg s)))).
Proof.
  split; [|split].
  - intros file_ids.
    destruct (remove_loop store knowledge_id file_ids [] s) as (new & Ho & Hm & Hp).
    unfold remove_files. rewrite Ho. simpl.
    clear Ho. revert file_ids Hm.
    induction Hp as [|r new Hr _ IH]; intros file_ids Hm; [constructor|].
    destruct file_ids as [|fid file_ids]; [discriminate|].
    rewrite !fmap_cons in Hm. injection Hm as Hfid Hm.
    constructor; [|by eapply IH]. split; [done|]. by exists fid.
  - intros paths metas.
    destruct (update_files_run store key file_exists file_open knowledge_id
                paths metas s)
      as [(results & -> & Hshape & _)|(msg & d & f & _ & _ & _ & _ & ->)];
      [|constructor].
    simpl. eapply Forall_impl; [exact Hshape|]. by intros r [? ?].
  - intros paths arg. apply add_files_records_shape.
Qed.

(** ** create_knowledge_if_not_exists *)

Section Create.
Context {R : Type} (store : RemoteStore R).

Lemma create_found name description data access_control (s : R) kbs kb :
  (knowledge_list store s).1 = Status200 kbs ->
  List.find (fun kb => bool_decide (kb_name kb = Some name)) kbs = Some kb ->
  create_knowledge_if_not_exists store name description data access_control s =
    MkRun (Return (kb_id kb)) (knowledge_list store s).2
          [EvKnowledgeList (Status200 kbs)] [].
Proof.
  intros Hlist Hfind. unfold create_knowledge_if_not_exists, bind, request.
  destruct (knowledge_list store s) as [resp s']. simpl in Hlist. subst resp.
  simpl. rewrite Hfind. reflexivity.
Qed.

Lemma create_only_without_match name description data access_control (s : R) form r :
  EvKnowledgeCreate form r
    ∈ calls (create_knowledge_if_not_exists store name description data
               access_control s) ->
  match (knowledge_list store s).1 with
  | Status200 kbs =>
      List.find (fun kb => bool_decide (kb_name kb = Some name)) kbs = None
  | StatusNot200 _ => True
  end.
Proof.
  unfold create_knowledge_if_not_exists, bind, request.
  destruct (knowledge_list store s) as [[kbs|text] s']; simpl; [|done].
  destruct (List.find _ kbs) as [kb|]; [|done].
  simpl. intros Hin. apply list_elem_of_singleton in Hin. discriminate Hin.
Qed.

End Create.

Section CreateRef.
Import RefStore.
Context (key : string).

Lemma find_summary n kbs :
  List.find (fun kb => bool_decide (kb_name kb = Some n)) (summary <$> kbs)
  = summary <$> List.find (fun kb => String.eqb (name kb) n) kbs.
Proof.
  induction kbs as [|kb kbs IH]; [done|].
  rewrite fmap_cons. simpl List.find.
  destruct (String.eqb_spec (name kb) n) as [->|Hne].
  - by rewrite bool_decide_eq_true_2.
  - rewrite bool_decide_eq_false_2 by congruence. exact IH.
Qed.

Lemma bases_named_found n s kb :
  find_named n s = Some kb -> (1 <= bases_named n s)%nat.
Proof.
  unfold find_named, bases_named. induction (knowledge_bases s) as [|kb' kbs IH];
    [done|].
  simpl. destruct (String.eqb (name kb') n); simpl; [lia | exact IH].
Qed.

Lemma bases_named_not_found n s :
  find_named n s = None -> bases_named n s = 0%nat.
Proof.
  unfold find_named, bases_named. induction (knowledge_bases s) as [|kb' kbs IH];
    [done|].
  simpl. destruct (String.eqb (name kb') n); [done | exact IH].
Qed.

Lemma ref_create_found n description data access_control s kb :
  find_named n s = Some kb ->
  create_knowledge_if_not_exists (store key) n description data access_control s =
    MkRun (Return (Some (kid kb))) s
          [EvKnowledgeList (Status200 (summary <$> knowledge_bases s))] [].
Proof.
  intros Hfind.
  rewrite (create_found (store key) n description data access_control s
             (summary <$> knowledge_bases s) (summary kb)); [done | done |].
  rewrite find_summary. unfold find_named in Hfind. by rewrite Hfind.
Qed.

Lemma ref_create_fresh n description data access_control s :
  find_named n s = None ->
  let form := {| form_name := n; form_description := description;
                 form_data := default "{}" data;
                 form_access_control := default "{}" access_control |} in
  create_knowledge_if_not_exists (store key) n description data access_control s =
    MkRun (Return (Some ("kb-" +:+ pretty (next_id s)))) (created n description s)
          [EvKnowledgeList (Status200 (summary <$> knowledge_bases s));
           EvKnowledgeCreate form (Status200 (Some ("kb-" +:+ pretty (next_id s))))]
          [].
Proof.
  intros Hfind form. unfold create_knowledge_if_not_exists, bind, request.
  cbn [store knowledge_list list_handler outcome store_after calls logged].
  rewrite find_summary. unfold find_named in Hfind. rewrite Hfind.
  reflexivity.
Qed.

Lemma find_named_created n description s :
  find_named n s = None ->
  find_named n (created n description s)
  = Some {| kid := "kb-" +:+ pretty (next_id s); name := n;
            description := description; files := [] |}.
Proof.
  unfold find_named, created. cbn [knowledge_bases].
  induction (knowledge_bases s) as [|kb kbs IH]; simpl.
  - by rewrite String.eqb_refl.
  - destruct (String.eqb (name kb) n); [done | exact IH].
Qed.

Lemma bases_named_created n description s :
  bases_named n (created n description s) = S (bases_named n s).
Proof.
  unfold bases_named, created. cbn [knowledge_bases].
  rewrite List.filter_app, length_app. simpl. rewrite String.eqb_refl. simpl. lia.
Qed.

(** On the reference store, a second call returns what the first
    returned, the id of the first knowledge base of that name, creates
    nothing, and leaves one knowledge base of that name unless there
    were more before. *)
Lemma ref_create_twice n description data access_control s :
  let r1 := create_knowledge_if_not_exists (store key) n description data
              access_control s in
  let r2 := create_knowledge_if_not_exists (store key) n description data
              access_control (store_after r1) in
  exists kb,
    find_named n (store_after r2) = Some kb
    /\ outcome r1 = Return (Some (kid kb))
    /\ outcome r2 = Return (Some (kid kb))
    /\ calls r2
       = [EvKnowledgeList (Status200 (summary <$> knowledge_bases (store_after r1)))]
    /\ store_after r2 = store_after r1
    /\ bases_named n (store_after r2) = Nat.max 1 (bases_named n s).
Proof.
  intros r1 r2. subst r1 r2.
  destruct (find_named n s) as [kb|] eqn:Hfind.
  - rewrite (ref_create_found _ _ _ _ _ _ Hfind). run_simpl.
    rewrite (ref_create_found _ _ _ _ _ _ Hfind). run_simpl.
    pose proof (bases_named_found _ _ _ Hfind).
    exists kb. do 5 (split; [done|]). lia.
  - rewrite (ref_create_fresh _ _ _ _ _ Hfind). run_simpl.
    rewrite (ref_create_found _ _ _ _ _ _ (find_named_created _ _ _ Hfind)). run_simpl.
    eexists. split; [by apply find_named_created|]. cbn [kid].
    do 4 (split; [done|]).
    rewrite bases_named_created, (bases_named_not_found _ _ Hfind). done.
Qed.

End CreateRef.

(** C8 fails on the code: a listing that is answered with another status
    than 200 is taken for a listing without a match.  Here the store has
    one knowledge base named "docs" and its listing endpoint answers
    500: the first call creates a second base "docs" and returns its
    id, the second call creates a third one and returns another id. *)
Theorem create_knowledge_twice_after_failed_listing :
  let form := {| form_name := "docs"; form_description := "test";
                 form_data := "{}"; form_access_control := "{}" |} in
  let r1 := create_knowledge_if_not_exists store_without_listing "docs" "test"
              None None example_store in
  let r2 := create_knowledge_if_not_exists store_without_listing "docs" "test"
              None None (store_after r1) in
  RefStore.bases_named "docs" example_store = 1%nat
  /\ calls r1 = [EvKnowledgeList (StatusNot200 "Internal Server Error");
                 EvKnowledgeCreate form (Status200 (Some "kb-1"))]
  /\ outcome r1 = Return (Some "kb-1")
  /\ calls r2 = [EvKnowledgeList (StatusNot200 "Internal Server Error");
                 EvKnowledgeCreate form (Status200 (Some "kb-2"))]
  /\ outcome r2 = Return (Some "kb-2")
  /\ logged r1 = [] /\ logged r2 = []
  /\ RefStore.bases_named "docs" (store_after r2) = 3%nat.
Proof. vm_compute. repeat split. Qed.

(** ** Adding a document twice *)

Section AddOne.
Context {R : Type} (store : RemoteStore R) (key : string)
        (file_exists : string -> bool)
        (file_open : string -> option string).

Lemma upload_selected_nil self knowledge_id (s : R) :
  (0 < batch_size self)%Z ->
  upload_selected store file_exists file_open
      self knowledge_id [] s = MkRun (Return []) s [] [].
Proof.
  intros HB. unfold upload_selected. rewrite py_range_positive by done. reflexivity.
Qed.

Lemma py_slice_single {A : Type} (x : A) (B : Z) :
  (0 < B)%Z -> py_slice [x] 0 (0 + B) = [x].
Proof.
  intros HB. rewrite py_slice_take_drop by (simpl; lia).
  simpl drop. apply take_ge. simpl. lia.
Qed.

Lemma upload_files_batch_single p m (s : R) :
  file_exists p = true -> file_open p = None ->
  exists ls,
    _upload_files_batch store file_exists file_open
      (fst <$> [(p, m)]) (Some (snd <$> [(p, m)])) s
    = MkRun (Return (omap response_id [(files_upload store p (Some m) s).1]))
            (files_upload store p (Some m) s).2
            [EvFileUpload p (Some m) (files_upload store p (Some m) s).1] ls.
Proof.
  intros Hex Hopen.
  destruct (send_file_run store file_exists file_open p (Some m) s) as [ls Hsend].
  rewrite Hex, Hopen in Hsend.
  assert (Hg : gather (send_task store file_exists file_open <$> [(p, m)]) s
               = MkRun (Return [response_id (files_upload store p (Some m) s).1])
                       (files_upload store p (Some m) s).2
                       [EvFileUpload p (Some m) (files_upload store p (Some m) s).1]
                       ls).
  { rewrite fmap_cons, fmap_nil, gather_cons.
    change (send_task store file_exists file_open (p, m))
      with (_send_file store file_exists file_open p (Some m)).
    rewrite (bind_run _ _ _ _ _ _ _ Hsend). cbn [gather].
    rewrite !bind_ret_l. unfold ret. run_simpl. by rewrite !app_nil_r. }
  unfold _upload_files_batch, enumerate.
  pose proof (upload_tasks_run store file_exists file_open [(p, m)] [] [] s) as Htasks.
  cbn [length app] in Htasks.
  rewrite (bind_run _ _ _ _ _ _ _ Htasks), (bind_run _ _ _ _ _ _ _ Hg).
  unfold ret. run_simpl. cbn [omap list_omap app].
  rewrite response_id_truthy. eexists. rewrite !app_nil_r. reflexivity.
Qed.

(** One selected document, whose file exists and can be read: one
    upload, and one batch-attach call if the upload yields a file id. *)
Lemma upload_selected_single self knowledge_id p m (s : R) :
  (0 < batch_size self)%Z -> file_exists p = true -> file_open p = None ->
  exists ls,
    upload_selected store file_exists file_open self knowledge_id [(p, m)] s =
      match response_id (files_upload store p (Some m) s).1 with
      | Some fid =>
          MkRun (Return (attach_records [fid]
                           (knowledge_files_batch_add store knowledge_id [fid]
                              (files_upload store p (Some m) s).2).1))
                (knowledge_files_batch_add store knowledge_id [fid]
                   (files_upload store p (Some m) s).2).2
                [EvFileUpload p (Some m) (files_upload store p (Some m) s).1;
                 EvFilesBatchAdd knowledge_id [fid]
                   (knowledge_files_batch_add store knowledge_id [fid]
                      (files_upload store p (Some m) s).2).1]
                ls
      | None =>
          MkRun (Return []) (files_upload store p (Some m) s).2
                [EvFileUpload p (Some m) (files_upload store p (Some m) s).1] ls
      end.
Proof.
  intros HB Hex Hopen. unfold upload_selected.
  rewrite py_range_positive by done.
  change (range_up _ _ _ _) with [0%Z].
  change (lift (Return [0%Z])) with (@ret R _ [0%Z]). rewrite bind_ret_l.
  rewrite for_in_cons. cbn [for_in].
  assert (Hb : exists ls,
    add_batch store file_exists file_open self knowledge_id (fst <$> [(p, m)])
      (snd <$> [(p, m)]) 0 [] s =
      match response_id (files_upload store p (Some m) s).1 with
      | Some fid =>
          MkRun (Return (attach_records [fid]
                           (knowledge_files_batch_add store knowledge_id [fid]
                              (files_upload store p (Some m) s).2).1))
                (knowledge_files_batch_add store knowledge_id [fid]
                   (files_upload store p (Some m) s).2).2
                [EvFileUpload p (Some m) (files_upload store p (Some m) s).1;
                 EvFilesBatchAdd knowledge_id [fid]
                   (knowledge_files_batch_add store knowledge_id [fid]
                      (files_upload store p (Some m) s).2).1]
                ls
      | None =>
          MkRun (Return []) (files_upload store p (Some m) s).2
                [EvFileUpload p (Some m) (files_upload store p (Some m) s).1] ls
      end).
  { unfold add_batch.
    rewrite !py_slice_fmap, !py_slice_single by done.
    destruct (upload_files_batch_single p m s Hex Hopen) as [ls Hup].
    rewrite (bind_run _ _ _ _ _ _ _ Hup).
    cbn [omap list_omap].
    destruct (response_id (files_upload store p (Some m) s).1) as [fid|].
    - cbn [length Nat.eqb negb].
      destruct (attach_run store knowledge_id [fid]
                  (files_upload store p (Some m) s).2 ltac:(done)) as [la Hatt].
      rewrite (bind_run _ _ _ _ _ _ _ Hatt). unfold ret. run_simpl.
      rewrite !app_nil_r. eexists. reflexivity.
    - cbn [length Nat.eqb negb]. unfold ret. run_simpl.
      rewrite !app_nil_r. eexists. reflexivity. }
  destruct Hb as [ls Hb]. exists ls.
  destruct (response_id (files_upload store p (Some m) s).1) as [fid|];
    rewrite (bind_run _ _ _ _ _ _ _ Hb); unfold ret; run_simpl;
    by rewrite !app_nil_r.
Qed.

End AddOne.

Section AddTwiceRef.
Import RefStore.
Context (key : string) (file_exists : string -> bool)
    (file_open : string -> option string) (self : KnowledgeManager).

Lemma ref_get k s kb :
  find_kb k s = Some kb -> knowledge_get (store key) k s = (Status200 (files kb), s).
Proof. intros H. cbn [store knowledge_get]. unfold get_handler. by rewrite H. Qed.

Lemma find_set_files k fs kbs kb :
  List.find (fun kb => String.eqb (kid kb) k) kbs = Some kb ->
  List.find (fun kb => String.eqb (kid kb) k) (set_files k fs kbs)
  = Some {| kid := kid kb; name := name kb; description := description kb;
            files := fs |}.
Proof.
  induction kbs as [|kb' kbs IH]; [done|]. simpl.
  destruct (String.eqb (kid kb') k) eqn:E.
  - intros [= ->]. simpl. by rewrite E.
  - intros H. simpl. rewrite E. by apply IH.
Qed.

Lemma existing_files_list_snoc fs f :
  existing_files_list key (fs ++ [f])
  = existing_files_list key fs
    ++ match meta f !! key with
       | Some extra_meta =>
           if negb (Nat.eqb (size (meta f)) 0) then [url (metadata extra_meta)] else []
       | None => []
       end.
Proof.
  unfold existing_files_list. rewrite foldl_app. cbn [foldl].
  destruct (meta f !! key) as [e|] eqn:E.
  - rewrite bool_decide_eq_true_2 by (by eexists).
    destruct (negb (size (meta f) =? 0)%nat); simpl; [done | by rewrite app_nil_r].
  - rewrite bool_decide_eq_false_2 by (by intros [? ?]).
    rewrite andb_false_r. by rewrite app_nil_r.
Qed.

Lemma uploaded_url_exists fs m s :
  url (metadata m) ∈ existing_files_set key (fs ++ [uploaded_file key m s]).
Proof.
  unfold existing_files_set. rewrite elem_of_list_to_set, existing_files_list_snoc.
  cbn [uploaded_file meta]. rewrite lookup_singleton_eq, map_size_singleton.
  cbn [Nat.eqb negb]. apply elem_of_app. right. by apply list_elem_of_singleton.
Qed.

Lemma ref_upload p m s :
  files_upload (store key) p (Some m) s
  = (Status200 (Some ("file-" +:+ pretty (next_id s))),
     {| knowledge_bases := knowledge_bases s;
        uploaded := uploaded_file key m s :: uploaded s;
        next_id := S (next_id s) |}).
Proof. reflexivity. Qed.

Lemma ref_batch_add k kb m s :
  find_kb k s = Some kb ->
  knowledge_files_batch_add (store key) k ["file-" +:+ pretty (next_id s)]
    {| knowledge_bases := knowledge_bases s;
       uploaded := uploaded_file key m s :: uploaded s;
       next_id := S (next_id s) |}
  = (Status200 "added", attached key k kb m s).
Proof.
  intros Hkb. cbn [store knowledge_files_batch_add]. unfold batch_add_handler.
  unfold find_kb in *. cbn [knowledge_bases uploaded next_id]. rewrite Hkb.
  unfold lookup_all, find_file. cbn [List.find uploaded_file id].
  rewrite String.eqb_refl. reflexivity.
Qed.

(** The first call uploads and attaches the document. *)
Lemma ref_add_first k kb p m s :
  (1 <= batch_size self)%Z -> find_kb k s = Some kb -> file_exists p = true ->
  file_open p = None ->
  to_upload (existing_files_set key (files kb)) m = true ->
  let r := add_files (store key) key file_exists file_open
      self k [p] (MetadataList [m]) s in
  outcome r = Return [[("success", PyBool true);
                       ("result", PyDict [("id", PyStr ("file-" +:+ pretty (next_id s)));
                                          ("batch_result", PyJson "added")])]]
  /\ store_after r = attached key k kb m s.
Proof.
  intros HB Hkb Hex Hopen Hup r. subst r.
  rewrite add_files_list_run. unfold listed_files. rewrite (ref_get _ _ _ Hkb).
  cbn [fst snd zip zip_with]. unfold selected. rewrite filter_cons_eq.
  cbn [snd]. rewrite Hup. cbn [List.filter].
  destruct (upload_selected_single (store key) file_exists file_open self k p m s
              ltac:(lia) Hex Hopen) as [ls ->].
  rewrite ref_upload. cbn [fst snd response_id].
  change (opt_truthy (Some ("file-" +:+ pretty (next_id s)))) with true.
  cbn iota. rewrite (ref_batch_add _ _ _ _ Hkb). done.
Qed.

(** The second call finds the URL among the existing ones and skips. *)
Lemma ref_add_second k kb p m s :
  (1 <= batch_size self)%Z -> find_kb k s = Some kb ->
  add_files (store key) key file_exists file_open self k [p] (MetadataList [m])
    (attached key k kb m s)
  = MkRun (Return []) (attached key k kb m s)
          [EvKnowledge k (Status200 (files kb ++ [uploaded_file key m s]))]
          [skip_warning p].
Proof.
  intros HB Hkb.
  assert (Hkb' : find_kb k (attached key k kb m s)
                 = Some {| kid := kid kb; name := name kb;
                           description := description kb;
                           files := files kb ++ [uploaded_file key m s] |}).
  { unfold find_kb, attached. cbn [knowledge_bases]. by apply find_set_files. }
  rewrite add_files_list_run. unfold listed_files, retrieve_logs.
  rewrite (ref_get _ _ _ Hkb'). cbn [fst snd zip zip_with files].
  assert (Hskip : to_upload (existing_files_set key (files kb ++ [uploaded_file key m s])) m
                  = false).
  { unfold to_upload.
    rewrite (bool_decide_eq_true_2 _ (uploaded_url_exists (files kb) m s)).
    by rewrite andb_false_r. }
  unfold selected, skipped. rewrite !filter_cons_eq. cbn [snd]. rewrite Hskip.
  cbn [negb List.filter].
  rewrite upload_selected_nil by lia. reflexivity.
Qed.

End AddTwiceRef.

(** C4: a document whose URL is among the existing URLs of the knowledge
    base is left out by [add_files]: no upload carries an existing URL,
    the results, the requests and the final store are those of the call
    without the document (so no record, failure or other, stands for
    it), and a warning is logged.  Hence, on a store that keeps the
    metadata of what was uploaded, adding a new document twice gives one
    successful record the first time and no record, no upload and the
    warning the second time. *)
Theorem add_files_skips_existing_urls :
  (forall (R : Type) (store : RemoteStore R) (key : string)
          (file_exists : string -> bool) (file_open : string -> option string)
          (self : KnowledgeManager)
          (knowledge_id : string) (d1 : list (string * ExtraMetadata))
          (doc : string * ExtraMetadata) (d2 : list (string * ExtraMetadata)) (s : R),
     url (metadata doc.2)
       ∈ existing_files_set key (listed_files store knowledge_id s) ->
     let r := add_files store key file_exists file_open self knowledge_id
                (fst <$> d1 ++ doc :: d2) (MetadataList (snd <$> d1 ++ doc :: d2)) s in
     let r' := add_files store key file_exists file_open self knowledge_id
                 (fst <$> d1 ++ d2) (MetadataList (snd <$> d1 ++ d2)) s in
     Forall (fun u => exists m,
                 u.1.2 = Some m
                 /\ url (metadata m)
                    ∉ existing_files_set key (listed_files store knowledge_id s))
            (upload_events (calls r))
     /\ outcome r = outcome r' /\ calls r = calls r' /\ store_after r = store_after r'
     /\ exists l1 l2,
          logged r = l1 ++ {| levelname := "WARNING";
                              message := "File already exists in knowledge base: "
                                         +:+ doc.1 +:+ ", skipping." |} :: l2
          /\ logged r' = l1 ++ l2)
  /\ (forall (key : string) (file_exists : string -> bool)
             (file_open : string -> option string) (self : KnowledgeManager)
             (knowledge_id : string) (kb : RefStore.KnowledgeBase)
             (p : string) (m : ExtraMetadata) (s : RefStore.State),
        (1 <= batch_size self)%Z ->
        RefStore.find_kb knowledge_id s = Some kb ->
        file_exists p = true ->
        file_open p = None ->
        opt_truthy (url (metadata m)) = true ->
        url (metadata m) ∉ existing_files_set key (RefStore.files kb) ->
        let r1 := add_files (RefStore.store key) key file_exists file_open
                    self knowledge_id [p] (MetadataList [m]) s in
        let r2 := add_files (RefStore.store key) key file_exists file_open
                    self knowledge_id [p] (MetadataList [m]) (store_after r1) in
        (exists rec, outcome r1 = Return [rec]
                     /\ dict_get "success" rec = Some (PyBool true))
        /\ outcome r2 = Return []
        /\ upload_events (calls r2) = []
        /\ logged r2 = [{| levelname := "WARNING";
                           message := "File already exists in knowledge base: "
                                      +:+ p +:+ ", skipping." |}]).
Proof.
  split.
  - intros R store key file_exists file_open self knowledge_id d1 doc d2 s Hin r r'.
    assert (Hskip : to_upload (existing_files_set key (listed_files store knowledge_id s))
                      doc.2 = false).
    { unfold to_upload. rewrite (bool_decide_eq_true_2 _ Hin).
      by rewrite andb_false_r. }
    split; [|by apply add_files_skip].
    pose proof (add_files_uploads_selected store key file_exists file_open self
                  knowledge_id (d1 ++ doc :: d2) s) as Hup.
    fold r in Hup. apply Forall_forall. intros u Hu.
    assert (Hu1 : u.1 ∈ fst <$> upload_events (calls r))
      by (apply list_elem_of_fmap; by exists u).
    apply Hup in Hu1. unfold selected in Hu1.
    apply list_elem_of_fmap in Hu1 as (d & Hd & Hdin).
    apply list_elem_of_In, List.filter_In in Hdin as [_ Hsel].
    exists d.2. rewrite Hd. split; [reflexivity|].
    unfold to_upload in Hsel. apply andb_true_iff in Hsel as [_ Hn].
    apply negb_true_iff, bool_decide_eq_false in Hn. exact Hn.
  - intros key file_exists file_open self knowledge_id kb p m s HB Hkb Hex Hopen Ht Hn
      r1 r2.
    assert (Hup : to_upload (existing_files_set key (RefStore.files kb)) m = true).
    { unfold to_upload. rewrite Ht. by rewrite bool_decide_eq_false_2. }
    destruct (ref_add_first key file_exists file_open self knowledge_id kb p m s
                HB Hkb Hex Hopen Hup)
      as [Ho Hs].
    fold r1 in Ho, Hs. subst r2. rewrite Hs.
    rewrite (ref_add_second key file_exists file_open self knowledge_id kb p m s HB Hkb).
    split; [|by repeat split].
    eexists. split; [exact Ho | reflexivity].
Qed.

(** ** update_files reports success without a replacement *)

(** C1 fails on the code: the record of [update_files] says success as
    soon as the old file was removed, whatever became of the upload.
    Here the local file is missing: the record says success, its result
    says "Failed to upload file", nothing was uploaded, and the knowledge
    base went from one file with the URL to none. *)
Theorem update_files_success_without_upload :
  let r := update_files (RefStore.store example_key) example_key no_file
             opens_every_file "kb-0"
             ["/tmp/test.md"] [example_metadata (Some "https://example.com/test")]
             example_store_with_file in
  outcome r = Return [[("file_name", PyStr "https://example.com/test");
                       ("success", PyBool true);
                       ("result", PyDict [("success", PyBool false);
                                          ("error", PyStr "Failed to upload file")])]]
  /\ upload_events (calls r) = []
  /\ RefStore.files_with_url example_key "kb-0" "https://example.com/test"
       example_store_with_file = 1%nat
  /\ RefStore.files_with_url example_key "kb-0" "https://example.com/test"
       (store_after r) = 0%nat.
Proof. vm_compute. repeat split. Qed.

(** C2 as stated fails: the record that [add_files] returns for a
    successfully attached file has no identifier field. *)
Lemma add_files_success_record_without_identifier :
  exists r,
    r ∈ records_of
          (outcome (add_files (RefStore.store example_key)
                      example_key every_file opens_every_file
                      (example_manager 3) "kb-0" ["/tmp/test.md"]
                      (MetadataList [example_metadata (Some "https://example.com/test")])
                      example_store))
    /\ has_identifier r = false.
Proof.
  exists [("success", PyBool true);
          ("result", PyDict [("id", PyStr "file-1"); ("batch_result", PyJson "added")])].
  split; [|reflexivity]. vm_compute. apply list_elem_of_here.
Qed.

(** ** Instances *)

(** The batch test: seven new documents, batch size 3, every upload
    succeeds: three batch-attach calls. *)
Lemma add_files_batch_attach_calls_witness :
  let r := add_files (RefStore.store example_key) example_key every_file opens_every_file
             (example_manager 3) "kb-0"
             (fst <$> seven_docs) (MetadataList (snd <$> seven_docs)) example_store in
  Z.of_nat (length (attach_events (calls r)))
    = ceil_div (Z.of_nat (length seven_docs)) (batch_size (example_manager 3))
  /\ Forall (fun ids => (Z.of_nat (length ids) <= batch_size (example_manager 3))%Z)
            (attach_events (calls r))
  /\ fst <$> upload_events (calls r) = upload_key <$> seven_docs
  /\ concat (attach_events (calls r))
     = omap response_id (snd <$> upload_events (calls r))
  /\ length (concat (attach_events (calls r))) = length seven_docs
  /\ exists results, outcome r = Return results /\ length results = length seven_docs.
Proof.
  apply (add_files_batch_attach_calls (RefStore.store example_key) example_key
           every_file opens_every_file
               (example_manager 3) "kb-0" seven_docs example_store).
  - simpl. lia.
  - apply (bool_decide_unpack _). vm_compute. exact I.
  - apply (bool_decide_unpack _). vm_compute. exact I.
  - apply (bool_decide_unpack _). vm_compute. exact I.
  - apply (bool_decide_unpack _). vm_compute. exact I.
  - vm_compute. reflexivity.
Defined.

(** A document without URL among two: skipped, with the warning. *)
Lemma add_files_skips_documents_without_url_witness :
  let d1 := [("/tmp/a.md", example_metadata (Some "https://example.com/a"))] in
  let doc := ("/tmp/b.md", example_metadata None) in
  let r := add_files (RefStore.store example_key) example_key every_file opens_every_file
             (example_manager 3) "kb-0"
             (fst <$> d1 ++ doc :: []) (MetadataList (snd <$> d1 ++ doc :: []))
             example_store in
  let r' := add_files (RefStore.store example_key) example_key every_file opens_every_file
              (example_manager 3) "kb-0"
              (fst <$> d1 ++ []) (MetadataList (snd <$> d1 ++ [])) example_store in
  to_upload (existing_files_set example_key
               (listed_files (RefStore.store example_key) "kb-0" example_store))
            doc.2 = false
  /\ Forall (fun u => exists m, u.1.2 = Some m /\ opt_truthy (url (metadata m)) = true)
            (upload_events (calls r))
  /\ outcome r = outcome r' /\ calls r = calls r' /\ store_after r = store_after r'
  /\ exists l1 l2,
       logged r = l1 ++ {| levelname := "WARNING";
                           message := "File already exists in knowledge base: "
                                      +:+ doc.1 +:+ ", skipping." |} :: l2
       /\ logged r' = l1 ++ l2.
Proof.
  intros d1 doc.
  apply (add_files_skips_documents_without_url (RefStore.store example_key)
           example_key every_file opens_every_file
               (example_manager 3) "kb-0" d1 doc [] example_store).
  reflexivity.
Defined.

(** An update without a matching file, and an update whose removal the
    store rejects. *)
Lemma update_files_failure_records_witness :
  update_one (RefStore.store example_key) example_key every_file opens_every_file
      "kb-0" []
    ("/tmp/test.md", example_metadata (Some "https://example.com/test")) []
    example_store
  = MkRun (Return ([] ++ [[("file_name", PyNone); ("success", PyBool false);
                           ("error", PyStr "File not found")]]))
          example_store []
          [{| levelname := "WARNING"; message := "File not found: None" |}]
  /\ (let r := update_one (RefStore.store example_key) example_key every_file opens_every_file
      "kb-0"
                 [stale_file]
                 ("/tmp/test.md", example_metadata (Some "https://example.com/test"))
                 [] example_store in
      outcome r = Return ([] ++ [[("file_name",
                                   opt_to_py (url (metadata (example_metadata
                                                (Some "https://example.com/test")))));
                                  ("success", PyBool false);
                                  ("error", PyStr "Failed to remove file")]])
      /\ calls r = [EvFileRemove "kb-0" (id stale_file) (StatusNot200 "file not found")]
      /\ upload_events (calls r) = []
      /\ store_after r = example_store).
Proof.
  split.
  - apply (proj1 (update_files_failure_records (RefStore.store example_key)
                    example_key every_file opens_every_file "kb-0")).
    reflexivity.
  - apply (proj1 (proj2 (proj2 (update_files_failure_records
                                  (RefStore.store example_key)
                                  example_key every_file opens_every_file "kb-0")))
             [stale_file] "/tmp/test.md"
             (example_metadata (Some "https://example.com/test")) [] example_store
             stale_file "file not found" example_store).
    + vm_compute. reflexivity.
    + reflexivity.
    + reflexivity.
Defined.

(** A document whose URL the knowledge base already has, and a new
    document added twice. *)
Lemma add_files_skips_existing_urls_witness :
  (let doc := ("/tmp/test.md", example_metadata (Some "https://example.com/test")) in
   let r := add_files (RefStore.store example_key) example_key every_file opens_every_file
              (example_manager 3) "kb-0"
              (fst <$> [] ++ doc :: []) (MetadataList (snd <$> [] ++ doc :: []))
              example_store_with_file in
   let none : list (string * ExtraMetadata) := [] in
   let r' := add_files (RefStore.store example_key) example_key every_file opens_every_file
               (example_manager 3) "kb-0"
               (fst <$> none ++ none) (MetadataList (snd <$> none ++ none))
               example_store_with_file in
   Forall (fun u => exists m,
               u.1.2 = Some m
               /\ url (metadata m)
                  ∉ existing_files_set example_key
                      (listed_files (RefStore.store example_key) "kb-0"
                         example_store_with_file))
          (upload_events (calls r))
   /\ outcome r = outcome r' /\ calls r = calls r' /\ store_after r = store_after r'
   /\ exists l1 l2,
        logged r = l1 ++ {| levelname := "WARNING";
                            message := "File already exists in knowledge base: "
                                       +:+ doc.1 +:+ ", skipping." |} :: l2
        /\ logged r' = l1 ++ l2)
  /\ (let p := "/tmp/test.md" in
      let m := example_metadata (Some "https://example.com/test") in
      let r1 := add_files (RefStore.store example_key) example_key every_file opens_every_file
                  (example_manager 3) "kb-0" [p] (MetadataList [m]) example_store in
      let r2 := add_files (RefStore.store example_key) example_key every_file opens_every_file
                  (example_manager 3) "kb-0" [p] (MetadataList [m]) (store_after r1) in
      (exists rec, outcome r1 = Return [rec]
                   /\ dict_get "success" rec = Some (PyBool true))
      /\ outcome r2 = Return []
      /\ upload_events (calls r2) = []
      /\ logged r2 = [{| levelname := "WARNING";
                         message := "File already exists in knowledge base: "
                                    +:+ p +:+ ", skipping." |}]).
Proof.
  split.
  - apply (proj1 add_files_skips_existing_urls RefStore.State
             (RefStore.store example_key) example_key every_file opens_every_file
                 (example_manager 3)
             "kb-0" [] ("/tmp/test.md", example_metadata (Some "https://example.com/test"))
             [] example_store_with_file).
    apply (bool_decide_unpack _). vm_compute. exact I.
  - apply (proj2 add_files_skips_existing_urls example_key every_file opens_every_file
             (example_manager 3) "kb-0"
             {| RefStore.kid := "kb-0"; RefStore.name := "docs";
                RefStore.description := "test"; RefStore.files := [] |}
             "/tmp/test.md" (example_metadata (Some "https://example.com/test"))
             example_store).
    + simpl. lia.
    + reflexivity.
    + reflexivity.
    + reflexivity.
    + reflexivity.
    + apply (bool_decide_unpack _). vm_compute. exact I.
Defined.

(** A directory among the paths.  [add_files] raises before it uploads
    anything; [update_files] has removed the old file by then. *)
Lemma add_files_on_a_directory :
  let r := add_files (RefStore.store example_key) example_key every_file
             opens_no_directory (example_manager 3) "kb-0" ["/tmp"]
             (MetadataList [example_metadata (Some "https://example.com/test")])
             example_store in
  outcome r = Raise (OSError "[Errno 21] Is a directory: '/tmp'")
  /\ upload_events (calls r) = [].
Proof. vm_compute. by split. Qed.

Lemma update_files_on_a_directory :
  let r := update_files (RefStore.store example_key) example_key every_file
             opens_no_directory "kb-0" ["/tmp"]
             [example_metadata (Some "https://example.com/test")]
             example_store_with_file in
  outcome r = Raise (OSError "[Errno 21] Is a directory: '/tmp'")
  /\ length (removed_events (calls r)) = 1%nat
  /\ upload_events (calls r) = []
  /\ RefStore.files_with_url example_key "kb-0" "https://example.com/test"
       (store_after r) = 0%nat.
Proof. vm_compute. by repeat split. Qed.

(** * Further properties *)

(** ** Identity resolution *)

Section Resolver.
Context (key : string).

Lemma lookup_size_nonzero (m : gmap string ExtraMetadata) e :
  m !! key = Some e -> negb (Nat.eqb (size m) 0) = true.
Proof.
  intros H. apply negb_true_iff, Nat.eqb_neq. intros Hz.
  apply map_size_empty_inv in Hz. subst m. by rewrite lookup_empty in H.
Qed.

Lemma existing_files_list_spec kfs (x : option string) :
  x ∈ existing_files_list key kfs
  <-> exists f e, f ∈ kfs /\ meta f !! key = Some e /\ url (metadata e) = x.
Proof.
  induction kfs as [|f kfs IH] using rev_ind.
  - split; [intros H; by apply elem_of_nil in H|].
    intros (f & e & Hf & _). by apply elem_of_nil in Hf.
  - rewrite existing_files_list_snoc, elem_of_app, IH. split.
    + intros [(f' & e & Hf & He & Hu)|Hx].
      * exists f', e. split; [apply elem_of_app; by left | done].
      * destruct (meta f !! key) as [e|] eqn:He; [|by apply elem_of_nil in Hx].
        rewrite (lookup_size_nonzero _ _ He) in Hx.
        apply list_elem_of_singleton in Hx. exists f, e.
        split; [apply elem_of_app; right; by apply list_elem_of_singleton | done].
    + intros (f' & e & Hf & He & Hu). apply elem_of_app in Hf as [Hf|Hf].
      * left. by exists f', e.
      * apply list_elem_of_singleton in Hf. subst f'. right.
        rewrite He, (lookup_size_nonzero _ _ He). apply list_elem_of_singleton.
        by symmetry.
Qed.

(** The URL that [_get_item_url_of_file] reads, in terms of the dict. *)
Lemma item_url_spec f (u : option string) :
  opt_truthy u = true ->
  (_get_item_url_of_file key (Some f) = u
   <-> exists e, meta f !! key = Some e /\ url (metadata e) = u).
Proof.
  intros Hu. unfold _get_item_url_of_file.
  destruct (meta f !! key) as [e|] eqn:He.
  - rewrite (lookup_size_nonzero _ _ He). split.
    + intros H. exists e. split; [done|].
      destruct (opt_truthy (url (metadata e))); [done|].
      subst u. discriminate Hu.
    + intros (e' & [= <-] & Hx). rewrite Hx, Hu. done.
  - split.
    + intros H. destruct (negb _); subst u; discriminate Hu.
    + intros (e & He' & _). discriminate He'.
Qed.

End Resolver.

Lemma find_cons_eq {A : Type} (f : A -> bool) (x : A) (l : list A) :
  List.find f (x :: l) = if f x then Some x else List.find f l.
Proof. reflexivity. Qed.

(** X1: the set of existing URLs that [add_files] builds holds exactly
    the URLs embedded, under the reserved key, in the metadata of the
    listed files; files without that entry contribute nothing. *)
Theorem existing_files_set_spec (key : string)
    (knowledge_files : list FileMetadataResponse) (x : option string) :
  x ∈ existing_files_set key knowledge_files
  <-> exists f e, f ∈ knowledge_files /\ meta f !! key = Some e
                  /\ url (metadata e) = x.
Proof.
  unfold existing_files_set. rewrite elem_of_list_to_set.
  apply existing_files_list_spec.
Qed.

Lemma found_first_match (key : string)
    (knowledge_files : list FileMetadataResponse) (file_metadata : ItemMetadata)
    (f : FileMetadataResponse) :
  _get_file_meta_if_exists_in_knowledge key knowledge_files file_metadata = Some f ->
  exists pre post,
    knowledge_files = pre ++ f :: post
    /\ _get_item_url_of_file key (Some f) = url file_metadata
    /\ opt_truthy (url file_metadata) = true
    /\ Forall (fun kf => _get_item_url_of_file key (Some kf) <> url file_metadata) pre.
Proof.
  unfold _get_file_meta_if_exists_in_knowledge.
  induction knowledge_files as [|kf kfs IH]; [discriminate|].
  rewrite find_cons_eq. cbv beta zeta.
  destruct (opt_truthy (_get_item_url_of_file key (Some kf))
            && bool_decide (_get_item_url_of_file key (Some kf) = url file_metadata))
    eqn:Hp.
  - intros [= ->]. exists [], kfs. apply andb_true_iff in Hp as [Ht He].
    apply bool_decide_eq_true in He. rewrite <- He.
    split; [done|]. split; [done|]. split; [done | constructor].
  - intros Hfind. destruct (IH Hfind) as (pre & post & -> & Hu & Ht & Hpre).
    exists (kf :: pre), post. split; [done|]. split; [done|]. split; [done|].
    constructor; [|done]. intros Heq.
    rewrite Heq, Ht in Hp. simpl in Hp.
    by rewrite bool_decide_eq_true_2 in Hp.
Qed.

(** X2: [_get_file_meta_if_exists_in_knowledge] returns the first listed
    file whose embedded URL is the document's URL: the file found is in
    the list, its URL is non-empty and equal to the document's, and no
    file before it has that URL. *)
Theorem find_file_first_match (key : string)
    (knowledge_files : list FileMetadataResponse) (file_metadata : ItemMetadata)
    (f : FileMetadataResponse) :
  _get_file_meta_if_exists_in_knowledge key knowledge_files file_metadata = Some f ->
  exists pre post,
    knowledge_files = pre ++ f :: post
    /\ _get_item_url_of_file key (Some f) = url file_metadata
    /\ opt_truthy (url file_metadata) = true
    /\ Forall (fun kf => _get_item_url_of_file key (Some kf) <> url file_metadata) pre.
Proof. apply found_first_match. Qed.

(** X3: a document without URL, or with an empty one, matches no file,
    whatever the knowledge base holds; [update_files] can only answer
    "File not found" for it. *)
Theorem find_file_needs_url (key : string)
    (knowledge_files : list FileMetadataResponse) (file_metadata : ItemMetadata) :
  opt_truthy (url file_metadata) = false ->
  _get_file_meta_if_exists_in_knowledge key knowledge_files file_metadata = None.
Proof.
  intros Hu.
  destruct (_get_file_meta_if_exists_in_knowledge key knowledge_files file_metadata)
    as [f|] eqn:Hfind; [|done].
  destruct (found_first_match _ _ _ _ Hfind) as (_ & _ & _ & _ & Ht & _).
  congruence.
Qed.

(** X4: the two resolvers agree.  For a document with a non-empty URL,
    [add_files] skips it exactly when [update_files] would find a file
    for it in the same list of files. *)
Theorem add_skips_iff_update_finds (key : string)
    (knowledge_files : list FileMetadataResponse) (m : ExtraMetadata) :
  opt_truthy (url (metadata m)) = true ->
  (to_upload (existing_files_set key knowledge_files) m = false
   <-> is_Some (_get_file_meta_if_exists_in_knowledge key knowledge_files (metadata m))).
Proof.
  intros Ht. unfold to_upload. rewrite Ht, andb_true_l, negb_false_iff.
  rewrite bool_decide_eq_true. unfold existing_files_set.
  rewrite elem_of_list_to_set, existing_files_list_spec. split.
  - intros (f & e & Hf & He & Hu).
    destruct (_get_file_meta_if_exists_in_knowledge key knowledge_files (metadata m))
      as [f'|] eqn:Hfind; [by eexists|].
    unfold _get_file_meta_if_exists_in_knowledge in Hfind.
    apply list_elem_of_In in Hf.
    pose proof (List.find_none _ _ Hfind f Hf) as Hp. cbv beta zeta in Hp.
    assert (Hurl : _get_item_url_of_file key (Some f) = url (metadata m))
      by (apply item_url_spec; [done | by exists e]).
    rewrite Hurl, Ht in Hp. simpl in Hp. by rewrite bool_decide_eq_true_2 in Hp.
  - intros [f Hfind].
    destruct (found_first_match _ _ _ _ Hfind) as (pre & post & -> & Hu & _ & _).
    apply item_url_spec in Hu as (e & He & Hue); [|done].
    exists f, e. split; [|done]. apply elem_of_app. right. apply list_elem_of_here.
Qed.

(** ** The base URL *)

Lemma rev_app_append (a b c : string) :
  String.rev_app (a +:+ b) c = String.rev_app b (String.rev_app a c).
Proof. revert c. induction a as [|x a IH]; intros c; [done|]. simpl. apply IH. Qed.

Lemma endswith_append (x : string) : endswith (x +:+ "/api/v1") "/api/v1" = true.
Proof.
  unfold endswith, String.rev. rewrite rev_app_append.
  generalize (String.rev_app x ""). intros acc. vm_compute. by destruct acc.
Qed.

Lemma endswith_nonempty (x : string) :
  endswith x "/api/v1" = true -> str_truthy x = true.
Proof. destruct x; [discriminate | done]. Qed.

Lemma init_base_url environ base_url' api_key' batch_size' self :
  __init__ environ base_url' api_key' batch_size' = Return self ->
  endswith (base_url self) "/api/v1" = true
  /\ (forall u, base_url' = Some u -> endswith u "/api/v1" = true -> base_url self = u).
Proof.
  unfold __init__.
  destruct (opt_truthy (if opt_truthy api_key' then api_key' else _)); [|discriminate].
  cbn [negb]. intros [= <-]. cbn [base_url].
  split.
  - set (url0 := if opt_truthy base_url' then _ else _).
    destruct (endswith url0 "/api/v1") eqn:E; cbn [negb];
      [exact E | apply endswith_append].
  - intros u -> Hu. cbn [opt_truthy from_option id].
    rewrite (endswith_nonempty _ Hu). cbn [from_option]. unfold Datatypes.id.
    rewrite Hu. reflexivity.
Qed.

(** X5: a manager that was constructed has a base URL that ends with
    "/api/v1", whatever URL was given or found in the environment, and
    its Authorization header is the bearer of its non-empty API key.
    Normalising is idempotent: a manager constructed from that base URL
    has the same base URL. *)
Theorem init_normalises_base_url (environ : string -> option string)
    (base_url' api_key' : option string) (batch_size' : Z) (self : KnowledgeManager) :
  __init__ environ base_url' api_key' batch_size' = Return self ->
  endswith (base_url self) "/api/v1" = true
  /\ headers self = [("Authorization", "Bearer " +:+ api_key self)]
  /\ str_truthy (api_key self) = true
  /\ (forall environ2 api_key2 batch_size2 self2,
        __init__ environ2 (Some (base_url self)) api_key2 batch_size2 = Return self2 ->
        base_url self2 = base_url self).
Proof.
  intros Hinit. destruct (init_base_url _ _ _ _ _ Hinit) as [Hend _].
  split; [exact Hend|]. split; [|split].
  - revert Hinit. unfold __init__. destruct (negb _); [discriminate|].
    by intros [= <-].
  - revert Hinit. unfold __init__.
    destruct (if opt_truthy api_key' then api_key' else _) as [k|]; [|discriminate].
    cbn [opt_truthy default]. destruct (str_truthy k) eqn:Hk; [|discriminate].
    cbn [negb]. by intros [= <-].
  - intros environ2 api_key2 batch_size2 self2 Hinit2.
    destruct (init_base_url _ _ _ _ _ Hinit2) as [_ Hsame].
    by apply Hsame.
Qed.

Lemma init_normalises_base_url_witness :
  let self := example_manager 3 in
  endswith (base_url self) "/api/v1" = true
  /\ headers self = [("Authorization", "Bearer " +:+ api_key self)]
  /\ str_truthy (api_key self) = true
  /\ (forall environ2 api_key2 batch_size2 self2,
        __init__ environ2 (Some (base_url self)) api_key2 batch_size2 = Return self2 ->
        base_url self2 = base_url self).
Proof.
  apply (init_normalises_base_url (fun _ => None) (Some "http://localhost:8080/")
           (Some "secret") 3 (example_manager 3)).
  reflexivity.
Defined.

(** ** Uploads *)

(** X6: the three ways of [_send_file].  For a file that does not exist
    it sends no request, logs one error and returns [None].  For a file
    that exists and cannot be opened it raises the OSError of
    [open], with no request and no log record.  Otherwise it sends one
    upload and returns the id of the response when the store answered
    200 with a non-empty id and [None] otherwise, so a returned id is
    never empty; it logs one error when it returns [None] and nothing
    when it returns an id. *)
Theorem send_file_result {R : Type} (store : RemoteStore R)
    (file_exists : string -> bool) (file_open : string -> option string)
    (p : string) (m : option ExtraMetadata) (s : R) :
  let r := _send_file store file_exists file_open p m s in
  if file_exists p then
    match file_open p with
    | Some strerror => r = MkRun (Raise (OSError strerror)) s [] []
    | None =>
        outcome r = Return (response_id (files_upload store p m s).1)
        /\ calls r = [EvFileUpload p m (files_upload store p m s).1]
        /\ store_after r = (files_upload store p m s).2
        /\ match response_id (files_upload store p m s).1 with
           | Some file_id => str_truthy file_id = true /\ logged r = []
           | None =>
               exists msg, logged r = [{| levelname := "ERROR"; message := msg |}]
           end
    end
  else
    outcome r = Return None /\ calls r = [] /\ store_after r = s
    /\ exists msg, logged r = [{| levelname := "ERROR"; message := msg |}].
Proof.
  unfold _send_file. destruct (file_exists p); cbn [negb].
  2:{ cbn. do 3 (split; [done|]). by eexists. }
  destruct (file_open p) as [strerror|]; [done|].
  unfold bind, request.
  destruct (files_upload store p m s) as [[[fid|]|text] s']; cbn.
  - destruct (str_truthy fid) eqn:Hf; cbn; rewrite ?Hf;
      (split; [done|]); (split; [done|]); (split; [done|]);
      [done | by eexists].
  - do 3 (split; [done|]). by eexists.
  - do 3 (split; [done|]). by eexists.
Qed.

(** X7: the uploads of a batch do not depend on each other's answers.
    With one metadata per path, [_upload_files_batch] raises the OSError
    of the first document, in input order, whose file exists and cannot
    be opened.  When there is none, its requests are one upload for
    every document whose file exists and nothing else, whatever the
    store answers to each, and it returns the ids of the uploads that
    came back with one, in the order of the documents. *)
Theorem upload_files_batch_isolation {R : Type} (store : RemoteStore R)
    (file_exists : string -> bool) (file_open : string -> option string)
    (docs : list (string * ExtraMetadata)) (s : R) :
  let r := _upload_files_batch store file_exists file_open
             (fst <$> docs) (Some (snd <$> docs)) s in
  match first_open_error file_exists file_open docs with
  | Some strerror => outcome r = Raise (OSError strerror)
  | None =>
      exists ups,
        calls r ≡ₚ upload_event <$> ups
        /\ fst <$> ups = upload_key <$> List.filter (fun d => file_exists d.1) docs
        /\ outcome r = Return (omap response_id (snd <$> ups))
  end.
Proof.
  intros r. subst r.
  destruct (upload_files_batch_run store file_exists file_open docs s)
    as (ups & Hc & Hcase).
  destruct (first_open_error file_exists file_open docs) as [strerror|].
  - by destruct Hcase.
  - destruct Hcase as [Hk Ho]. exists ups. by rewrite Hc.
Qed.

Section BatchIndex.
Context {R : Type} (store : RemoteStore R) (file_exists : string -> bool)
        (file_open : string -> option string).

Lemma upload_tasks_short metas ps : forall k acc (s : R),
  (k <= length metas)%nat -> (0 < length metas)%nat ->
  (length metas < k + length ps)%nat ->
  for_in (enumerate_from k ps) (upload_task store file_exists file_open
      (Some metas)) acc s
  = MkRun (Raise (IndexError "list index out of range")) s [] [].
Proof.
  induction ps as [|p ps IH]; intros k acc s Hk Hpos Hlen; [simpl in Hlen; lia|].
  simpl enumerate_from. rewrite for_in_cons.
  destruct (metas !! k) as [m|] eqn:Hm.
  - assert (Hrun : upload_task store file_exists file_open (Some metas) (k, p) acc s
                   = MkRun (Return (acc ++ [_send_file store file_exists file_open
                       p (Some m)]))
                           s [] []).
    { unfold upload_task. cbn [from_option]. unfold Datatypes.id. rewrite Hm.
      replace (length metas =? 0)%nat with false
        by (symmetry; apply Nat.eqb_neq; lia).
      reflexivity. }
    rewrite (bind_run _ _ _ _ _ _ _ Hrun).
    apply lookup_lt_Some in Hm. simpl in Hlen.
    rewrite IH by lia. reflexivity.
  - assert (Hrun : upload_task store file_exists file_open (Some metas) (k, p) acc s
                   = MkRun (Raise (IndexError "list index out of range")) s [] []).
    { unfold upload_task. cbn [from_option]. unfold Datatypes.id. rewrite Hm.
      replace (length metas =? 0)%nat with false
        by (symmetry; apply Nat.eqb_neq; lia).
      reflexivity. }
    rewrite (bind_raise _ _ _ _ (f_equal outcome Hrun)), Hrun. reflexivity.
Qed.

End BatchIndex.

(** X8: when the metadata list is not empty but shorter than the list of
    file paths, [_upload_files_batch] raises an IndexError while it
    creates the upload tasks: no file is uploaded and the store is left
    as it was. *)
Theorem upload_files_batch_short_metadata {R : Type} (store : RemoteStore R)
    (file_exists : string -> bool)
    (file_open : string -> option string) (file_paths : list string)
    (metas : list ExtraMetadata) (s : R) :
  (0 < length metas)%nat -> (length metas < length file_paths)%nat ->
  _upload_files_batch store file_exists file_open file_paths (Some metas) s
  = MkRun (Raise (IndexError "list index out of range")) s [] [].
Proof.
  intros Hpos Hlen. unfold _upload_files_batch, enumerate.
  rewrite (bind_raise _ _ _ (IndexError "list index out of range"));
    rewrite upload_tasks_short by lia; reflexivity.
Qed.

Lemma upload_files_batch_short_metadata_witness :
  _upload_files_batch (RefStore.store example_key) every_file opens_every_file
    ["/tmp/a.md"; "/tmp/b.md"] (Some [example_metadata (Some "https://example.com/a")])
    example_store
  = MkRun (Raise (IndexError "list index out of range")) example_store [] [].
Proof.
  apply (upload_files_batch_short_metadata (RefStore.store example_key) every_file
           opens_every_file ["/tmp/a.md"; "/tmp/b.md"]
           [example_metadata (Some "https://example.com/a")] example_store);
    simpl; lia.
Defined.

(** X9: [_add_files_to_kb_batch] is all or nothing.  For an empty id list
    it sends no request and returns no record.  Otherwise it sends one
    batch-attach call and returns one record per id, in order, all with
    the same success flag, which is that of the response; on failure
    every record names its file id and carries the same error text. *)
Theorem add_files_to_kb_batch_all_or_nothing {R : Type} (store : RemoteStore R)
    (knowledge_id : string) (file_ids : list string) (s : R) :
  let r := _add_files_to_kb_batch store knowledge_id file_ids s in
  let resp := (knowledge_files_batch_add store knowledge_id file_ids s).1 in
  calls r = (if Nat.eqb (length file_ids) 0 then []
             else [EvFilesBatchAdd knowledge_id file_ids resp])
  /\ exists results,
       outcome r = Return results
       /\ length results = length file_ids
       /\ Forall (fun rec => dict_get "success" rec = Some (PyBool (response_ok resp)))
                 results
       /\ (response_ok resp = false ->
           exists err,
             dict_get "error" <$> results
               = replicate (length file_ids) (Some (PyStr err))
             /\ dict_get "file_id" <$> results
                = (fun fid => Some (PyStr fid)) <$> file_ids).
Proof.
  intros r resp. subst r resp.
  destruct file_ids as [|fid ids].
  - cbn. split; [done|]. exists [].
    split; [done|]. split; [done|]. split; [constructor|].
    intros _. by exists "".
  - destruct (attach_run store knowledge_id (fid :: ids) s ltac:(done)) as [ls ->].
    cbn [length Nat.eqb outcome calls]. split; [done|].
    eexists. split; [reflexivity|].
    split; [apply length_attach_records|].
    destruct (knowledge_files_batch_add store knowledge_id (fid :: ids) s).1
      as [j|text]; cbn [attach_records response_ok].
    + split; [by apply Forall_fmap, Forall_forall|]. discriminate.
    + split; [by apply Forall_fmap, Forall_forall|].
      intros _. exists ("Batch operation failed: " +:+ text).
      rewrite <- !list_fmap_compose. split.
      * change (S (length ids)) with (length (fid :: ids)).
        generalize (fid :: ids). intros l. induction l as [|x l IH]; [done|].
        cbn [length replicate]. rewrite fmap_cons, IH. reflexivity.
      * reflexivity.
Qed.

(** ** The requests and the records of add_files *)

Section AddRequests.
Context {R : Type} (store : RemoteStore R) (key : string)
        (file_exists : string -> bool)
        (file_open : string -> option string).

Lemma batch_records_count knowledge_id bs css recss :
  Forall3 (batch_step file_exists knowledge_id) bs css recss ->
  length (concat recss)
  = length (omap response_id (snd <$> upload_events (concat css))).
Proof.
  induction 1 as [|b cs recs bs css recss Hstep _ IH]; [done|].
  simpl concat. rewrite upload_events_app, fmap_app, omap_app, !length_app, IH.
  f_equal. destruct Hstep as (ups & _ & [(Hnil & -> & ->)|(_ & resp & -> & ->)]).
  - by rewrite upload_events_uploads, Hnil.
  - rewrite upload_events_app, upload_events_uploads. cbn [upload_events omap list_omap].
    by rewrite app_nil_r, length_attach_records.
Qed.

Lemma batch_request_kinds knowledge_id bs css recss :
  Forall3 (batch_step file_exists knowledge_id) bs css recss ->
  forallb (upload_or_attach knowledge_id) (concat css) = true.
Proof.
  induction 1 as [|b cs recs bs css recss Hstep _ IH]; [done|].
  simpl concat. rewrite forallb_app, IH, andb_true_r.
  assert (Hups : forall ups, forallb (upload_or_attach knowledge_id)
                               (upload_event <$> ups) = true).
  { intros ups. induction ups as [|u ups IHu]; [done|]. rewrite fmap_cons. exact IHu. }
  destruct Hstep as (ups & _ & [(_ & -> & _)|(_ & resp & -> & _)]); [apply Hups|].
  rewrite forallb_app, Hups. cbn. by rewrite String.eqb_refl.
Qed.

Lemma upload_selected_request_kinds self knowledge_id sel (s : R) :
  forallb (upload_or_attach knowledge_id)
    (calls (upload_selected store file_exists file_open self knowledge_id sel s)) = true.
Proof. apply (upload_selected_uploads_only store file_exists file_open). Qed.

(** One record per upload that came back with a file id, unless a
    selected file cannot be opened: then the call raises. *)
Lemma upload_selected_records_count self knowledge_id sel (s : R) :
  match (if (0 <? batch_size self)%Z
         then first_open_error file_exists file_open sel else None) with
  | Some strerror =>
      outcome (upload_selected store file_exists file_open self knowledge_id sel s)
      = Raise (OSError strerror)
  | None =>
      length (records_of (outcome (upload_selected store file_exists file_open self
                                     knowledge_id sel s)))
      = length (omap response_id
                  (snd <$> upload_events
                             (calls (upload_selected store file_exists file_open self
                                       knowledge_id sel s))))
  end.
Proof.
  destruct (Z.ltb_spec 0 (batch_size self)) as [Hpos|Hle].
  - pose proof (upload_selected_positive store file_exists file_open self knowledge_id
                  sel s Hpos) as Hsel.
    destruct (first_open_error file_exists file_open sel) as [strerror|].
    + by destruct Hsel.
    + destruct Hsel as (css & recss & -> & -> & Hall).
      by eapply batch_records_count.
  - destruct (Z.eq_dec (batch_size self) 0%Z) as [H0|Hne].
    + edestruct (upload_selected_zero store file_exists file_open self knowledge_id)
        as (msg & ->); [exact H0|]. done.
    + by rewrite upload_selected_negative by lia.
Qed.

Lemma pairs_with_one (paths : list string) (m : ExtraMetadata) :
  zip paths (replicate (length paths) m) = (fun p => (p, m)) <$> paths.
Proof. induction paths as [|p paths IH]; [done|]. simpl. by rewrite IH. Qed.

Lemma selected_with_one ex (paths : list string) (m : ExtraMetadata) :
  selected ex ((fun p => (p, m)) <$> paths)
  = if to_upload ex m then (fun p => (p, m)) <$> paths else [].
Proof.
  unfold selected. induction paths as [|p paths IH]; [by destruct (to_upload ex m)|].
  rewrite fmap_cons, filter_cons_eq, IH. cbn [snd].
  by destruct (to_upload ex m).
Qed.

Lemma filter_fmap_pair (paths : list string) (m : ExtraMetadata) :
  List.filter (fun d : string * ExtraMetadata => file_exists d.1)
    ((fun p => (p, m)) <$> paths)
  = (fun p => (p, m)) <$> List.filter file_exists paths.
Proof.
  induction paths as [|p paths IH]; [done|].
  rewrite fmap_cons, !filter_cons_eq, IH. cbn [fst].
  by destruct (file_exists p).
Qed.

Lemma selected_without_listing (docs : list (string * ExtraMetadata)) :
  selected (existing_files_set key []) docs
  = List.filter (fun d => opt_truthy (url (metadata d.2))) docs.
Proof.
  unfold selected. apply List.filter_ext. intros d.
  unfold to_upload, existing_files_set.
  cbn [existing_files_list foldl list_to_set].
  rewrite bool_decide_eq_false_2 by apply not_elem_of_empty.
  by rewrite andb_true_r.
Qed.

End AddRequests.

(** X10: what stops [add_files] and what does not.  For a batch size of
    at least 1 it raises the OSError of the first selected document, in
    input order, whose file exists and cannot be opened.  When there is
    none, its uploads are those of all the selected documents whose file
    exists locally, whatever the store answered to earlier uploads and
    batch-attach calls; for a batch size below 1 there is no upload at
    all. *)
Theorem add_files_uploads_despite_failures {R : Type} (store : RemoteStore R)
    (key : string) (file_exists : string -> bool) (file_open : string -> option string)
    (self : KnowledgeManager) (knowledge_id : string)
    (docs : list (string * ExtraMetadata)) (s : R) :
  let sel := selected (existing_files_set key (listed_files store knowledge_id s)) docs in
  let r := add_files store key file_exists file_open self knowledge_id
             (fst <$> docs) (MetadataList (snd <$> docs)) s in
  match (if (0 <? batch_size self)%Z
         then first_open_error file_exists file_open sel else None) with
  | Some strerror => outcome r = Raise (OSError strerror)
  | None =>
      fst <$> upload_events (calls r)
      ≡ₚ (if (0 <? batch_size self)%Z
          then upload_key <$> List.filter (fun d => file_exists d.1) sel
          else [])
  end.
Proof.
  intros sel r. subst sel r.
  pose proof (add_files_uploads store key file_exists file_open self knowledge_id docs s)
    as Hup.
  destruct (if (0 <? batch_size self)%Z then _ else None); [done|]. by rewrite Hup.
Qed.

(** X11: [add_files] returns one record per file that was uploaded with
    success and none for the others: unless the call raises for a file
    that cannot be opened, the number of records is the number of
    uploads that came back with a file id, so a document whose upload
    failed, or whose file is missing, leaves no record. *)
Theorem add_files_one_record_per_uploaded_file {R : Type} (store : RemoteStore R)
    (key : string) (file_exists : string -> bool) (file_open : string -> option string)
    (self : KnowledgeManager)
    (knowledge_id : string) (file_paths : list string) (metas : list ExtraMetadata)
    (s : R) :
  let sel := selected (existing_files_set key (listed_files store knowledge_id s))
               (zip file_paths metas) in
  let r := add_files store key file_exists file_open self knowledge_id file_paths
             (MetadataList metas) s in
  match (if (0 <? batch_size self)%Z
         then first_open_error file_exists file_open sel else None) with
  | Some strerror => outcome r = Raise (OSError strerror)
  | None =>
      length (records_of (outcome r))
      = length (omap response_id (snd <$> upload_events (calls r)))
  end.
Proof.
  intros sel r. subst sel r. rewrite add_files_list_run. run_simpl.
  rewrite upload_events_knowledge. apply upload_selected_records_count.
Qed.

(** X12: [add_files] only reads and adds.  Its first request lists the
    files of the knowledge base, and every later request is an upload or
    a batch-attach call to that knowledge base: nothing is removed,
    deleted or created, whatever the metadata argument. *)
Theorem add_files_request_kinds {R : Type} (store : RemoteStore R) (key : string)
    (file_exists : string -> bool) (file_open : string -> option string)
    (self : KnowledgeManager) (knowledge_id : string)
    (file_paths : list string) (arg : MetadataArg) (s : R) :
  exists cs,
    calls (add_files store key file_exists file_open self knowledge_id file_paths arg s)
    = EvKnowledge knowledge_id (knowledge_get store knowledge_id s).1 :: cs
    /\ forallb (upload_or_attach knowledge_id) cs = true.
Proof.
  destruct arg as [|m|metas].
  - rewrite add_files_none_run. by exists [].
  - rewrite add_files_one_run, add_files_list_run. eexists. split; [reflexivity|].
    apply upload_selected_request_kinds.
  - rewrite add_files_list_run. eexists. split; [reflexivity|].
    apply upload_selected_request_kinds.
Qed.

(** X13: when the listing of the knowledge base fails, [add_files] goes on
    with an empty set of existing URLs: it logs the error and takes
    every document with a non-empty URL for new, also those that the
    knowledge base already holds.  It uploads all of them whose file
    exists, unless one of these files cannot be opened: then it raises
    that OSError. *)
Theorem add_files_after_failed_listing {R : Type} (store : RemoteStore R)
    (key : string) (file_exists : string -> bool) (file_open : string -> option string)
    (self : KnowledgeManager)
    (knowledge_id : string) (docs : list (string * ExtraMetadata)) (s : R)
    (text : string) :
  (knowledge_get store knowledge_id s).1 = StatusNot200 text ->
  (0 < batch_size self)%Z ->
  let with_url := List.filter (fun d => opt_truthy (url (metadata d.2))) docs in
  let r := add_files store key file_exists file_open self knowledge_id
             (fst <$> docs) (MetadataList (snd <$> docs)) s in
  match first_open_error file_exists file_open with_url with
  | Some strerror => outcome r = Raise (OSError strerror)
  | None =>
      fst <$> upload_events (calls r)
      ≡ₚ upload_key <$> List.filter (fun d => file_exists d.1) with_url
  end
  /\ exists ls,
       logged r = {| levelname := "ERROR";
                     message := "Failed to get knowledge base files, response: "
                                +:+ text |} :: ls.
Proof.
  intros Hget HB with_url r. subst with_url r. split.
  - pose proof (add_files_uploads store key file_exists file_open self knowledge_id
                  docs s) as Hup.
    destruct (Z.ltb_spec 0 (batch_size self)); [|lia].
    unfold listed_files in Hup. rewrite Hget, selected_without_listing in Hup.
    destruct (first_open_error file_exists file_open _); [done|]. by rewrite Hup.
  - rewrite add_files_list_run. run_simpl. unfold retrieve_logs. rewrite Hget.
    eexists. reflexivity.
Qed.

Lemma add_files_after_failed_listing_witness :
  let docs := [("/tmp/test.md", example_metadata (Some "https://example.com/test"))] in
  let with_url := List.filter (fun d => opt_truthy (url (metadata d.2))) docs in
  let r := add_files (RefStore.store example_key) example_key every_file opens_every_file
             (example_manager 3) "kb-missing"
             (fst <$> docs) (MetadataList (snd <$> docs)) example_store_with_file in
  match first_open_error every_file opens_every_file with_url with
  | Some strerror => outcome r = Raise (OSError strerror)
  | None =>
      fst <$> upload_events (calls r)
      ≡ₚ upload_key <$> List.filter (fun d => every_file d.1) with_url
  end
  /\ exists ls,
       logged r = {| levelname := "ERROR";
                     message := "Failed to get knowledge base files, response: "
                                +:+ "knowledge base not found" |} :: ls.
Proof.
  intros docs.
  apply (add_files_after_failed_listing (RefStore.store example_key) example_key
           every_file opens_every_file (example_manager 3) "kb-missing" docs
           example_store_with_file "knowledge base not found").
  - reflexivity.
  - simpl. lia.
Defined.

(** X14: one [ExtraMetadata] for several files is all or nothing.  Every
    file is paired with the same metadata, so either all of them are
    skipped and nothing is uploaded, or all of them are selected: then
    every file that exists is uploaded, each under that one URL, unless
    one of these files cannot be opened, whose OSError is raised. *)
Theorem add_files_one_metadata_for_all {R : Type} (store : RemoteStore R)
    (key : string) (file_exists : string -> bool) (file_open : string -> option string)
    (self : KnowledgeManager)
    (knowledge_id : string) (file_paths : list string) (m : ExtraMetadata) (s : R) :
  let r := add_files store key file_exists file_open self knowledge_id file_paths
             (MetadataOne m) s in
  if (0 <? batch_size self)%Z
     && to_upload (existing_files_set key (listed_files store knowledge_id s)) m
  then
    match first_open_error file_exists file_open ((fun p => (p, m)) <$> file_paths) with
    | Some strerror => outcome r = Raise (OSError strerror)
    | None =>
        fst <$> upload_events (calls r)
        ≡ₚ (fun p => (p, Some m)) <$> List.filter file_exists file_paths
    end
  else upload_events (calls r) = [].
Proof.
  intros r. subst r. rewrite add_files_one_run, add_files_list_run. run_simpl.
  rewrite upload_events_knowledge, pairs_with_one, selected_with_one.
  set (ex := existing_files_set key (listed_files store knowledge_id s)).
  destruct (Z.ltb_spec 0 (batch_size self)) as [Hpos|Hle]; cbn [andb].
  - destruct (to_upload ex m).
    + pose proof (upload_selected_positive store file_exists file_open self knowledge_id
                    ((fun p => (p, m)) <$> file_paths)
                    (knowledge_get store knowledge_id s).2 Hpos) as Hsel.
      destruct (first_open_error file_exists file_open _) as [strerror|].
      * by destruct Hsel.
      * destruct Hsel as (css & recss & _ & -> & Hall).
        rewrite (batch_uploads _ _ _ _ _ Hall), concat_batches by done.
        by rewrite filter_fmap_pair, <- !list_fmap_compose.
    + by rewrite upload_selected_nil.
  - destruct (Z.eq_dec (batch_size self) 0%Z) as [H0|Hne].
    + edestruct (upload_selected_zero store file_exists file_open self knowledge_id)
        as (msg & ->); [exact H0|]. done.
    + by rewrite upload_selected_negative by lia.
Qed.

(** ** Loops *)

Lemma for_in_app_run {R A S : Type} (body : A -> S -> M R S) (l1 l2 : list A) :
  forall (acc : S) (s : R) a1 s1 c1 g1 r2,
    for_in l1 body acc s = MkRun (Return a1) s1 c1 g1 ->
    for_in l2 body a1 s1 = r2 ->
    for_in (l1 ++ l2) body acc s
    = MkRun (outcome r2) (store_after r2) (c1 ++ calls r2) (g1 ++ logged r2).
Proof.
  induction l1 as [|x l1 IH]; intros acc s a1 s1 c1 g1 r2 H1 H2.
  - simpl in H1. injection H1 as <- <- <- <-. simpl app. rewrite H2.
    by destruct r2.
  - rewrite <- app_comm_cons, for_in_cons. rewrite for_in_cons in H1.
    unfold bind in H1 |- *.
    destruct (body x acc s) as [[a|e] sx cx gx]; cbn [outcome store_after calls logged]
      in H1 |- *; [|discriminate].
    destruct (for_in l1 body a sx) as [o1 t1 d1 h1] eqn:E1.
    cbn [outcome store_after calls logged] in H1.
    injection H1 as -> -> <- <-.
    rewrite (IH a sx a1 s1 d1 h1 r2 E1 H2).
    cbn [outcome store_after calls logged]. by rewrite !app_assoc.
Qed.

(** ** The requests of remove_files *)

Section RemoveRequests.
Context {R : Type} (store : RemoteStore R).

Lemma remove_loop_run knowledge_id file_ids : forall s : R,
  exists new st cs ls,
    (forall acc, for_in file_ids (remove_one store knowledge_id) acc s
                 = MkRun (Return (acc ++ new)) st cs ls)
    /\ Forall2 (fun fid e => exists resp, e = EvFileRemove knowledge_id fid resp)
               file_ids cs
    /\ Forall2 (fun e rec => exists fid resp,
                    e = EvFileRemove knowledge_id fid resp
                    /\ dict_get "file_id" rec = Some (PyStr fid)
                    /\ dict_get "success" rec = Some (PyBool (response_ok resp)))
               cs new
    /\ (length ls + length (removed_events cs) = length cs)%nat.
Proof.
  induction file_ids as [|fid ids IH]; intros s.
  - exists [], s, [], []. split; [|by repeat constructor].
    intros acc. simpl. unfold ret. by rewrite app_nil_r.
  - destruct (knowledge_file_remove store knowledge_id fid s) as [resp s'] eqn:E.
    destruct (IH s') as (new & st & cs & ls & Hrun & Hreq & Hrec & Hlog).
    destruct resp as [j|text].
    + exists ([("file_id", PyStr fid); ("success", PyBool true); ("result", PyJson j)]
              :: new), st,
             (EvFileRemove knowledge_id fid (Status200 j) :: cs), ls.
      split; [|split; [|split]].
      * intros acc. rewrite for_in_cons.
        assert (Hone : remove_one store knowledge_id fid acc s
                       = MkRun (Return (acc ++ [[("file_id", PyStr fid);
                                                 ("success", PyBool true);
                                                 ("result", PyJson j)]]))
                               s' [EvFileRemove knowledge_id fid (Status200 j)] []).
        { unfold remove_one, bind, request. rewrite E. reflexivity. }
        rewrite (bind_run _ _ _ _ _ _ _ Hone), Hrun. run_simpl.
        by rewrite <- app_assoc.
      * constructor; [by eexists | done].
      * constructor; [by eexists _, _ | done].
      * cbn [removed_events omap list_omap length]. fold (removed_events cs). lia.
    + exists ([("file_id", PyStr fid); ("success", PyBool false); ("error", PyStr text)]
              :: new), st,
             (EvFileRemove knowledge_id fid (StatusNot200 text) :: cs),
             ({| levelname := "ERROR";
                 message := "Failed to remove file ID " +:+ fid +:+ ", response: "
                            +:+ text |} :: ls).
      split; [|split; [|split]].
      * intros acc. rewrite for_in_cons.
        assert (Hone : remove_one store knowledge_id fid acc s
                       = MkRun (Return (acc ++ [[("file_id", PyStr fid);
                                                 ("success", PyBool false);
                                                 ("error", PyStr text)]]))
                               s' [EvFileRemove knowledge_id fid (StatusNot200 text)]
                               [{| levelname := "ERROR";
                                   message := "Failed to remove file ID " +:+ fid
                                              +:+ ", response: " +:+ text |}]).
        { unfold remove_one, bind, request. rewrite E. reflexivity. }
        rewrite (bind_run _ _ _ _ _ _ _ Hone), Hrun. run_simpl.
        by rewrite <- app_assoc.
      * constructor; [by eexists | done].
      * constructor; [by eexists _, _ | done].
      * cbn [removed_events omap list_omap length]. fold (removed_events cs). lia.
Qed.

End RemoveRequests.

(** X15: [remove_files] sends one remove request per input id, in input
    order, and no other request; the record at each position reports the
    response to the request at that position (its file id, and success
    exactly for status 200), and one error is logged per rejected
    removal. *)
Theorem remove_files_requests {R : Type} (store : RemoteStore R)
    (knowledge_id : string) (file_ids : list string) (s : R) :
  let r := remove_files store knowledge_id file_ids s in
  Forall2 (fun fid e => exists resp, e = EvFileRemove knowledge_id fid resp)
          file_ids (calls r)
  /\ Forall2 (fun e rec => exists fid resp,
                 e = EvFileRemove knowledge_id fid resp
                 /\ dict_get "file_id" rec = Some (PyStr fid)
                 /\ dict_get "success" rec = Some (PyBool (response_ok resp)))
             (calls r) (records_of (outcome r))
  /\ (length (logged r) + length (removed_events (calls r)) = length (calls r))%nat.
Proof.
  intros r. subst r. unfold remove_files.
  destruct (remove_loop_run store knowledge_id file_ids s)
    as (new & st & cs & ls & Hrun & Hreq & Hrec & Hlog).
  rewrite (Hrun []). done.
Qed.

(** X16: removing in one call or in two calls is the same.  For the ids
    [l1 ++ l2], the records, the requests, the log records and the final
    store of one call are those of a call for [l1] followed by a call
    for [l2]. *)
Theorem remove_files_app {R : Type} (store : RemoteStore R)
    (knowledge_id : string) (l1 l2 : list string) (s : R) :
  let r1 := remove_files store knowledge_id l1 s in
  let r2 := remove_files store knowledge_id l2 (store_after r1) in
  let r := remove_files store knowledge_id (l1 ++ l2) s in
  outcome r = Return (records_of (outcome r1) ++ records_of (outcome r2))
  /\ calls r = calls r1 ++ calls r2
  /\ logged r = logged r1 ++ logged r2
  /\ store_after r = store_after r2.
Proof.
  intros r1 r2 r. subst r1 r2 r. unfold remove_files.
  destruct (remove_loop_run store knowledge_id l1 s)
    as (new1 & st1 & cs1 & ls1 & Hrun1 & _).
  destruct (remove_loop_run store knowledge_id l2 st1)
    as (new2 & st2 & cs2 & ls2 & Hrun2 & _).
  rewrite (for_in_app_run _ l1 l2 [] s _ _ _ _ _ (Hrun1 []) (Hrun2 ([] ++ new1))).
  rewrite (Hrun1 []). run_simpl. rewrite (Hrun2 []). done.
Qed.

(** ** update_files without a match, and with one *)

Section UpdateMore.
Context {R : Type} (store : RemoteStore R) (key : string)
        (file_exists : string -> bool)
        (file_open : string -> option string).

Lemma update_loop_nothing_found knowledge_id kfs docs : forall acc (s : R),
  Forall (fun d => _get_file_meta_if_exists_in_knowledge key kfs (metadata d.2) = None)
         docs ->
  for_in docs (update_one store key file_exists file_open knowledge_id kfs) acc s
  = MkRun (Return (acc ++ replicate (length docs) not_found_record)) s []
          (replicate (length docs) not_found_warning).
Proof.
  induction docs as [|[p m] docs IH]; intros acc s Hall.
  - simpl. unfold ret. by rewrite app_nil_r.
  - apply Forall_cons in Hall as [Hd Hall]. cbn [snd] in Hd.
    rewrite for_in_cons.
    rewrite (bind_run _ _ _ _ _ _ _
               (update_one_not_found store key file_exists file_open knowledge_id
                  kfs p m acc s Hd)).
    rewrite IH by done. run_simpl. cbn [length replicate].
    by rewrite <- app_assoc.
Qed.

Lemma update_files_nothing_found knowledge_id paths metas (s : R) :
  Forall (fun d => _get_file_meta_if_exists_in_knowledge key
                     (listed_files store knowledge_id s) (metadata d.2) = None)
         (zip paths metas) ->
  update_files store key file_exists file_open knowledge_id paths metas s
  = MkRun (Return (replicate (length (zip paths metas)) not_found_record))
          (knowledge_get store knowledge_id s).2
          [EvKnowledge knowledge_id (knowledge_get store knowledge_id s).1]
          (retrieve_logs store knowledge_id s
           ++ replicate (length (zip paths metas)) not_found_warning).
Proof.
  intros Hall. unfold update_files.
  rewrite (bind_run _ _ _ _ _ _ _ (retrieve_run store knowledge_id s)).
  by rewrite update_loop_nothing_found.
Qed.

Lemma upload_and_add_run p m knowledge_id (s : R) :
  exists ls,
    _upload_file_and_add_to_kb store file_exists file_open p m knowledge_id s =
      match (if file_exists p then file_open p else None) with
      | Some strerror => MkRun (Raise (OSError strerror)) s [] []
      | None =>
          match (if file_exists p then response_id (files_upload store p (Some m) s).1
                 else None) with
          | None =>
              MkRun (Return [("success", PyBool false);
                             ("error", PyStr "Failed to upload file")])
                    (if file_exists p then (files_upload store p (Some m) s).2 else s)
                    (if file_exists p
                     then [EvFileUpload p (Some m) (files_upload store p (Some m) s).1]
                     else [])
                    ls
          | Some fid =>
              MkRun (Return
                       match (knowledge_file_add store knowledge_id fid
                                (files_upload store p (Some m) s).2).1 with
                       | Status200 result =>
                           [("success", PyBool true); ("result", PyJson result)]
                       | StatusNot200 text =>
                           [("success", PyBool false); ("error", PyStr text)]
                       end)
                    (knowledge_file_add store knowledge_id fid
                       (files_upload store p (Some m) s).2).2
                    [EvFileUpload p (Some m) (files_upload store p (Some m) s).1;
                     EvFileAdd knowledge_id fid
                       (knowledge_file_add store knowledge_id fid
                          (files_upload store p (Some m) s).2).1]
                    ls
          end
      end.
Proof.
  unfold _upload_file_and_add_to_kb.
  destruct (send_file_run store file_exists file_open p (Some m) s) as [ls Hsend].
  destruct (file_exists p); [destruct (file_open p) as [strerror|]|].
  - exists []. rewrite (bind_raise _ _ _ (OSError strerror)) by (by rewrite Hsend).
    by rewrite Hsend.
  - destruct (response_id (files_upload store p (Some m) s).1) as [fid|] eqn:Hid;
      rewrite (bind_run _ _ _ _ _ _ _ Hsend).
    + unfold bind, request.
      destruct (knowledge_file_add store knowledge_id fid _) as [[j|text] s'];
        unfold ret, log; run_simpl; cbn [fst snd app]; eexists; reflexivity.
    + unfold ret. run_simpl. rewrite !app_nil_r. eexists. reflexivity.
  - rewrite (bind_run _ _ _ _ _ _ _ Hsend).
    unfold ret. run_simpl. rewrite !app_nil_r. eexists. reflexivity.
Qed.

End UpdateMore.

(** X17: [update_files] never adds what it cannot replace.  When no listed
    file matches any of the documents, it sends no request besides the
    listing, so the store is as the listing left it, and it returns the
    record "File not found" for every document, with one warning each. *)
Theorem update_files_without_match {R : Type} (store : RemoteStore R) (key : string)
    (file_exists : string -> bool)
    (file_open : string -> option string) (knowledge_id : string)
    (file_paths : list string) (metas : list ExtraMetadata) (s : R) :
  Forall (fun d => _get_file_meta_if_exists_in_knowledge key
                     (listed_files store knowledge_id s) (metadata d.2) = None)
         (zip file_paths metas) ->
  let r := update_files store key file_exists file_open knowledge_id file_paths metas s in
  outcome r = Return (replicate (length (zip file_paths metas))
                        [("file_name", PyNone); ("success", PyBool false);
                         ("error", PyStr "File not found")])
  /\ calls r = [EvKnowledge knowledge_id (knowledge_get store knowledge_id s).1]
  /\ store_after r = (knowledge_get store knowledge_id s).2
  /\ warnings (logged r)
     = replicate (length (zip file_paths metas))
         {| levelname := "WARNING"; message := "File not found: None" |}.
Proof.
  intros Hall r. subst r. rewrite update_files_nothing_found by done.
  run_simpl. do 3 (split; [done|]).
  unfold warnings. rewrite List.filter_app.
  assert (Hret : List.filter (fun l => String.eqb (levelname l) "WARNING")
                   (retrieve_logs store knowledge_id s) = []).
  { unfold retrieve_logs. by destruct (knowledge_get store knowledge_id s).1. }
  rewrite Hret. cbn [app].
  induction (length (zip file_paths metas)) as [|n IH]; [done|].
  cbn [replicate]. rewrite filter_cons_eq. cbn. by rewrite IH.
Qed.

Lemma update_files_without_match_witness :
  let r := update_files (RefStore.store example_key) example_key every_file opens_every_file
      "kb-0"
             ["/tmp/test.md"] [example_metadata (Some "https://example.com/test")]
             example_store in
  outcome r = Return (replicate
                        (length (zip ["/tmp/test.md"]
                                   [example_metadata (Some "https://example.com/test")]))
                        [("file_name", PyNone); ("success", PyBool false);
                         ("error", PyStr "File not found")])
  /\ calls r = [EvKnowledge "kb-0"
                  (knowledge_get (RefStore.store example_key) "kb-0" example_store).1]
  /\ store_after r = (knowledge_get (RefStore.store example_key) "kb-0" example_store).2
  /\ warnings (logged r)
     = replicate (length (zip ["/tmp/test.md"]
                            [example_metadata (Some "https://example.com/test")]))
         {| levelname := "WARNING"; message := "File not found: None" |}.
Proof.
  apply (update_files_without_match (RefStore.store example_key)
      example_key every_file opens_every_file
           "kb-0" ["/tmp/test.md"] [example_metadata (Some "https://example.com/test")]
           example_store).
  repeat constructor.
Defined.

(** X18: when the listing of the knowledge base fails, [update_files]
    changes nothing: the failed listing is its only request, and every
    document gets the record "File not found". *)
Theorem update_files_after_failed_listing {R : Type} (store : RemoteStore R)
    (key : string) (file_exists : string -> bool)
    (file_open : string -> option string) (knowledge_id : string)
    (file_paths : list string) (metas : list ExtraMetadata) (s : R) (text : string) :
  (knowledge_get store knowledge_id s).1 = StatusNot200 text ->
  let r := update_files store key file_exists file_open knowledge_id file_paths metas s in
  outcome r = Return (replicate (length (zip file_paths metas))
                        [("file_name", PyNone); ("success", PyBool false);
                         ("error", PyStr "File not found")])
  /\ calls r = [EvKnowledge knowledge_id (StatusNot200 text)].
Proof.
  intros Hget r. subst r. rewrite update_files_nothing_found.
  - run_simpl. by rewrite Hget.
  - unfold listed_files. rewrite Hget. by apply Forall_forall.
Qed.

Lemma update_files_after_failed_listing_witness :
  let r := update_files unreachable_store example_key every_file opens_every_file "kb-0"
             ["/tmp/test.md"] [example_metadata (Some "https://example.com/test")] tt in
  outcome r = Return (replicate
                        (length (zip ["/tmp/test.md"]
                                   [example_metadata (Some "https://example.com/test")]))
                        [("file_name", PyNone); ("success", PyBool false);
                         ("error", PyStr "File not found")])
  /\ calls r = [EvKnowledge "kb-0" (StatusNot200 "503")].
Proof.
  apply (update_files_after_failed_listing unreachable_store
      example_key every_file opens_every_file
           "kb-0" ["/tmp/test.md"] [example_metadata (Some "https://example.com/test")]
           tt "503").
  reflexivity.
Defined.

(** X19: a turn of [update_files] that meets no failure replaces the file:
    when the removal is accepted, the local file exists and can be read,
    and the upload and the attach call are accepted, it removes the
    matched file, uploads the document with its new metadata, and
    attaches the uploaded file to the same knowledge base, in that order
    and with no other request; the record says success and so does the
    result inside it, and nothing is logged. *)
Theorem update_one_replaces {R : Type} (store : RemoteStore R) (key : string)
    (file_exists : string -> bool)
    (file_open : string -> option string) (knowledge_id : string)
    (kfs : list FileMetadataResponse) (p : string) (m : ExtraMetadata)
    (acc : list Dict) (s s1 s2 s3 : R) (f : FileMetadataResponse) (fid : string)
    (j j2 : Json) :
  _get_file_meta_if_exists_in_knowledge key kfs (metadata m) = Some f ->
  str_truthy (id f) = true ->
  knowledge_file_remove store knowledge_id (id f) s = (Status200 j, s1) ->
  file_exists p = true ->
  file_open p = None ->
  files_upload store p (Some m) s1 = (Status200 (Some fid), s2) ->
  str_truthy fid = true ->
  knowledge_file_add store knowledge_id fid s2 = (Status200 j2, s3) ->
  update_one store key file_exists file_open knowledge_id kfs (p, m) acc s
  = MkRun (Return (acc ++ [[("file_name", opt_to_py (url (metadata m)));
                            ("success", PyBool true);
                            ("result", PyDict [("success", PyBool true);
                                               ("result", PyJson j2)])]]))
          s3
          [EvFileRemove knowledge_id (id f) (Status200 j);
           EvFileUpload p (Some m) (Status200 (Some fid));
           EvFileAdd knowledge_id fid (Status200 j2)]
          [].
Proof.
  intros Hfind Hid Hrem Hex Hopen Hup Hfid Hadd. unfold update_one.
  destruct (found_file_url _ _ _ _ Hfind) as [Hurl _].
  rewrite Hfind, Hurl. cbn [fmap option_fmap option_map opt_truthy from_option].
  unfold Datatypes.id. rewrite Hid. cbn [negb].
  pose proof (remove_files_single store knowledge_id (id f) s) as Hrun.
  rewrite Hrem in Hrun. cbn [fst snd] in Hrun.
  rewrite (bind_run _ _ _ _ _ _ _ Hrun), bind_ret_l, remove_record_success.
  assert (Hua : _upload_file_and_add_to_kb store file_exists file_open p m knowledge_id s1
                = MkRun (Return [("success", PyBool true); ("result", PyJson j2)]) s3
                        [EvFileUpload p (Some m) (Status200 (Some fid));
                         EvFileAdd knowledge_id fid (Status200 j2)] []).
  { unfold _upload_file_and_add_to_kb.
    assert (Hsend : _send_file store file_exists file_open p (Some m) s1
                    = MkRun (Return (Some fid)) s2
                            [EvFileUpload p (Some m) (Status200 (Some fid))] []).
    { unfold _send_file. rewrite Hex, Hopen. cbn [negb]. unfold bind, request.
      rewrite Hup. cbn [outcome store_after calls logged opt_truthy].
      rewrite Hfid. reflexivity. }
    rewrite (bind_run _ _ _ _ _ _ _ Hsend). unfold bind, request. rewrite Hadd.
    reflexivity. }
  rewrite (bind_run _ _ _ _ _ _ _ Hua). reflexivity.
Qed.

Lemma update_one_replaces_witness :
  update_one (RefStore.store example_key) example_key every_file opens_every_file "kb-0"
    [RefStore.uploaded_file example_key (example_metadata (Some "https://example.com/test"))
       example_store]
    ("/tmp/test.md", example_metadata (Some "https://example.com/test")) []
    example_store_with_file
  = MkRun (Return ([] ++ [[("file_name",
                            opt_to_py (url (metadata (example_metadata
                                         (Some "https://example.com/test")))));
                           ("success", PyBool true);
                           ("result", PyDict [("success", PyBool true);
                                              ("result", PyJson "added")])]]))
          (RefStore.add_handler "kb-0" "file-2"
             (RefStore.upload_handler example_key "/tmp/test.md"
                (Some (example_metadata (Some "https://example.com/test")))
                (RefStore.remove_handler "kb-0" "file-1" example_store_with_file).2).2).2
          [EvFileRemove "kb-0"
             (id (RefStore.uploaded_file example_key
                    (example_metadata (Some "https://example.com/test")) example_store))
             (Status200 "removed");
           EvFileUpload "/tmp/test.md"
             (Some (example_metadata (Some "https://example.com/test")))
             (Status200 (Some "file-2"));
           EvFileAdd "kb-0" "file-2" (Status200 "added")]
          [].
Proof.
  apply (update_one_replaces (RefStore.store example_key)
      example_key every_file opens_every_file
      "kb-0"
           [RefStore.uploaded_file example_key
              (example_metadata (Some "https://example.com/test")) example_store]
           "/tmp/test.md" (example_metadata (Some "https://example.com/test")) []
           example_store_with_file
           (RefStore.remove_handler "kb-0" "file-1" example_store_with_file).2
           (RefStore.upload_handler example_key "/tmp/test.md"
              (Some (example_metadata (Some "https://example.com/test")))
              (RefStore.remove_handler "kb-0" "file-1" example_store_with_file).2).2
           _ _ "file-2" "removed" "added").
  - vm_compute. reflexivity.
  - reflexivity.
  - vm_compute. reflexivity.
  - reflexivity.
  - reflexivity.
  - vm_compute. reflexivity.
  - reflexivity.
  - vm_compute. reflexivity.
Defined.

(** X20: [_upload_file_and_add_to_kb] attaches only what it uploaded.
    When the file exists and cannot be opened it raises that OSError and
    sends nothing.  When the upload gives no file id (missing file,
    rejected upload, response without id) it sends no attach call and
    returns the failure "Failed to upload file"; otherwise it sends one
    attach call, for the uploaded id and the given knowledge base, and
    its success flag is that of the attach response. *)
Theorem upload_and_add_attaches_uploaded_file {R : Type} (store : RemoteStore R)
    (file_exists : string -> bool) (file_open : string -> option string)
    (p : string) (m : ExtraMetadata) (knowledge_id : string) (s : R) :
  let r := _upload_file_and_add_to_kb store file_exists file_open p m knowledge_id s in
  match (if file_exists p then file_open p else None) with
  | Some strerror => r = MkRun (Raise (OSError strerror)) s [] []
  | None =>
      match (if file_exists p then response_id (files_upload store p (Some m) s).1
             else None) with
      | None =>
          add_events (calls r) = []
          /\ outcome r = Return [("success", PyBool false);
                                 ("error", PyStr "Failed to upload file")]
      | Some fid =>
          add_events (calls r) = [(knowledge_id, fid)]
          /\ exists d,
               outcome r = Return d
               /\ dict_get "success" d
                  = Some (PyBool (response_ok
                                    (knowledge_file_add store knowledge_id fid
                                       (files_upload store p (Some m) s).2).1))
      end
  end.
Proof.
  intros r. subst r.
  destruct (upload_and_add_run store file_exists file_open p m knowledge_id s)
    as [ls ->].
  destruct (if file_exists p then file_open p else None) as [strerror|]; [done|].
  destruct (if file_exists p then response_id _ else None) as [fid|].
  - run_simpl. split; [done|].
    destruct (knowledge_file_add store knowledge_id fid _).1; by eexists.
  - run_simpl. split; [|done]. by destruct (file_exists p).
Qed.

(** ** Truncation by zip *)

Lemma zip_take_both {A B : Type} (l1 : list A) : forall l2 : list B,
  zip (take (length l2) l1) (take (length l1) l2) = zip l1 l2.
Proof.
  induction l1 as [|a l1 IH]; intros [|b l2]; cbn; [done..|].
  f_equal. apply IH.
Qed.

(** X21: paths and metadata are paired by position, and what one list
    has beyond the length of the other is ignored without notice:
    [update_files], and [add_files] with a metadata list, run as they do
    on the two lists cut to the shorter length. *)
Theorem zip_truncates_documents {R : Type} (store : RemoteStore R) (key : string)
    (file_exists : string -> bool)
    (file_open : string -> option string) (self : KnowledgeManager) (knowledge_id : string)
    (file_paths : list string) (metas : list ExtraMetadata) (s : R) :
  update_files store key file_exists file_open knowledge_id file_paths metas s
  = update_files store key file_exists file_open knowledge_id
      (take (length metas) file_paths) (take (length file_paths) metas) s
  /\ add_files store key file_exists file_open
      self knowledge_id file_paths (MetadataList metas) s
     = add_files store key file_exists file_open self knowledge_id
         (take (length metas) file_paths)
         (MetadataList (take (length file_paths) metas)) s.
Proof.
  split.
  - unfold update_files. by rewrite zip_take_both.
  - unfold add_files. by rewrite zip_take_both.
Qed.

(** ** The warnings of add_files *)

Section Quiet.
Context {R : Type}.

Lemma warnings_app ls1 ls2 : warnings (ls1 ++ ls2) = warnings ls1 ++ warnings ls2.
Proof. apply List.filter_app. Qed.

Lemma no_warnings_ret {A : Type} (a : A) : no_warnings (ret (R := R) a).
Proof. by intros s. Qed.

Lemma no_warnings_raise {A : Type} (e : Exn) : no_warnings (raise (R := R) (A := A) e).
Proof. by intros s. Qed.

Lemma no_warnings_lift {A : Type} (o : Outcome A) : no_warnings (lift (R := R) o).
Proof. by intros s. Qed.

Lemma no_warnings_error (msg : string) : no_warnings (log (R := R) "ERROR" msg).
Proof. by intros s. Qed.

Lemma no_warnings_request {A : Type} (handler : R -> Response A * R)
    (ev : Response A -> Event) :
  no_warnings (request handler ev).
Proof. intros s. unfold request. by destruct (handler s). Qed.

Lemma no_warnings_bind_post {A B : Type} (P : A -> Prop) (m : M R A) (k : A -> M R B) :
  no_warnings m ->
  (forall s a, outcome (m s) = Return a -> P a) ->
  (forall a, P a -> no_warnings (k a)) ->
  no_warnings (bind m k).
Proof.
  intros Hm Hpost Hk s. unfold bind. cbv zeta.
  destruct (outcome (m s)) as [a|e] eqn:Ho; run_simpl.
  - rewrite warnings_app, Hm, (Hk a (Hpost _ _ Ho)). done.
  - apply Hm.
Qed.

Lemma no_warnings_bind {A B : Type} (m : M R A) (k : A -> M R B) :
  no_warnings m -> (forall a, no_warnings (k a)) -> no_warnings (bind m k).
Proof.
  intros Hm Hk. apply (no_warnings_bind_post (fun _ => True)); auto.
Qed.

Lemma no_warnings_for_in {A S : Type} (l : list A) (body : A -> S -> M R S) :
  (forall x acc, no_warnings (body x acc)) ->
  forall acc, no_warnings (for_in l body acc).
Proof.
  intros Hbody. induction l as [|x l IH]; intros acc.
  - apply no_warnings_ret.
  - rewrite for_in_cons. apply no_warnings_bind; [apply Hbody | apply IH].
Qed.

Lemma no_warnings_gather {A : Type} (tasks : list (M R A)) :
  Forall no_warnings tasks -> no_warnings (gather tasks).
Proof.
  induction 1 as [|t tasks Ht _ IH]; [apply no_warnings_ret|].
  rewrite gather_cons. apply no_warnings_bind; [exact Ht|]. intros x.
  apply no_warnings_bind; [exact IH|]. intros xs. apply no_warnings_ret.
Qed.

End Quiet.

Ltac quiet :=
  repeat first
    [ apply no_warnings_ret | apply no_warnings_raise | apply no_warnings_lift
    | apply no_warnings_request | apply no_warnings_error
    | apply no_warnings_bind; [|intros ?] ].

Section QuietClient.
Context {R : Type} (store : RemoteStore R) (key : string)
        (file_exists : string -> bool)
        (file_open : string -> option string).

Lemma send_file_no_warnings p m : no_warnings (_send_file store file_exists file_open
    p m).
Proof.
  unfold _send_file. destruct (file_exists p); cbn [negb]; [|quiet].
  destruct (file_open p) as [strerror|]; [quiet|].
  apply no_warnings_bind; [quiet|]. intros [fid|text]; [|quiet].
  destruct (opt_truthy fid); cbn [negb]; quiet.
Qed.

Lemma upload_task_no_warnings md entry acc :
  no_warnings (upload_task store file_exists file_open md entry acc).
Proof.
  unfold upload_task. destruct entry as [i p].
  destruct (negb _); [destruct (_ !! i)|]; quiet.
Qed.

Lemma upload_task_tasks md entry acc (s : R) tasks :
  Forall no_warnings acc ->
  outcome (upload_task store file_exists file_open md entry acc s) = Return tasks ->
  Forall no_warnings tasks.
Proof.
  intros Hacc. unfold upload_task. destruct entry as [i p].
  assert (Hnew : forall m, Forall no_warnings (acc ++ [_send_file store file_exists file_open
      p m])).
  { intros m. apply Forall_app. split; [done|]. constructor; [|done].
    apply send_file_no_warnings. }
  destruct (negb _); [destruct (_ !! i)|]; unfold bind, ret, raise; cbn;
    intros Ho; try discriminate Ho; injection Ho as <-; apply Hnew.
Qed.

Lemma upload_tasks_loop md l : forall acc (s : R) tasks,
  Forall no_warnings acc ->
  outcome (for_in l (upload_task store file_exists file_open md) acc s) = Return tasks ->
  Forall no_warnings tasks.
Proof.
  induction l as [|entry l IH]; intros acc s tasks Hacc.
  - cbn. by intros [= <-].
  - rewrite for_in_cons. unfold bind. cbv zeta.
    destruct (outcome (upload_task store file_exists file_open
        md entry acc s)) as [acc'|e] eqn:Ho;
      run_simpl; [|done].
    apply IH. by eapply upload_task_tasks.
Qed.

Lemma upload_files_batch_no_warnings paths md :
  no_warnings (_upload_files_batch store file_exists file_open paths md).
Proof.
  unfold _upload_files_batch.
  apply (no_warnings_bind_post (Forall no_warnings)).
  - apply no_warnings_for_in. intros. apply upload_task_no_warnings.
  - intros s tasks. by apply upload_tasks_loop.
  - intros tasks Htasks. apply no_warnings_bind; [by apply no_warnings_gather|].
    intros. quiet.
Qed.

Lemma add_files_to_kb_batch_no_warnings knowledge_id ids :
  no_warnings (_add_files_to_kb_batch store knowledge_id ids).
Proof.
  unfold _add_files_to_kb_batch. destruct (Nat.eqb _ 0); [quiet|].
  apply no_warnings_bind; [quiet|]. intros [j|text]; quiet.
Qed.

Lemma upload_selected_no_warnings self knowledge_id sel :
  no_warnings (upload_selected store file_exists file_open self knowledge_id sel).
Proof.
  unfold upload_selected. apply no_warnings_bind; [quiet|]. intros starts.
  apply no_warnings_for_in. intros i acc. unfold add_batch.
  apply no_warnings_bind; [apply upload_files_batch_no_warnings|]. intros ids.
  destruct (negb _); [|quiet].
  apply no_warnings_bind; [apply add_files_to_kb_batch_no_warnings|]. intros. quiet.
Qed.

Lemma warnings_skip (docs : list (string * ExtraMetadata)) :
  warnings ((fun d => skip_warning d.1) <$> docs) = (fun d => skip_warning d.1) <$> docs.
Proof.
  induction docs as [|d docs IH]; [done|].
  rewrite fmap_cons. unfold warnings in *. rewrite filter_cons_eq. cbn [levelname skip_warning].
  cbn [String.eqb Ascii.eqb Bool.eqb]. by rewrite IH.
Qed.

End QuietClient.

(** X22: [add_files] warns once for every document that it skips, in
    input order, with the path of the document in the message, and it
    warns about nothing else, whatever happens to the uploads. *)
Theorem add_files_warns_per_skipped_document {R : Type} (store : RemoteStore R)
    (key : string) (file_exists : string -> bool)
    (file_open : string -> option string) (self : KnowledgeManager)
    (knowledge_id : string) (file_paths : list string) (metas : list ExtraMetadata)
    (s : R) :
  warnings (logged (add_files store key file_exists file_open self knowledge_id file_paths
                      (MetadataList metas) s))
  = (fun d => {| levelname := "WARNING";
                 message := "File already exists in knowledge base: " +:+ d.1
                            +:+ ", skipping." |})
    <$> List.filter
          (fun d => negb (to_upload
                            (existing_files_set key (listed_files store knowledge_id s))
                            d.2))
          (zip file_paths metas).
Proof.
  rewrite add_files_list_run. run_simpl. rewrite !warnings_app.
  rewrite upload_selected_no_warnings, app_nil_r.
  assert (Hret : warnings (retrieve_logs store knowledge_id s) = []).
  { unfold retrieve_logs. by destruct (knowledge_get store knowledge_id s).1. }
  rewrite Hret. cbn [app]. apply warnings_skip.
Qed.

(** ** create_knowledge_if_not_exists without a match *)

(** X23: when the listing fails or lists no knowledge base of the
    requested name, [create_knowledge_if_not_exists] sends one create
    call after the listing, with the name and the description as given
    and empty objects for missing data and access control.  It returns
    the id of the create response when the status is 200 and the id is
    not empty, and otherwise returns [None] and logs one error; so a
    failed listing does not stop the creation, and an empty id is never
    returned from a creation. *)
Theorem create_knowledge_without_match {R : Type} (store : RemoteStore R)
    (name description : string) (data access_control : option Json) (s : R) :
  match (knowledge_list store s).1 with
  | Status200 kbs => Forall (fun kb => kb_name kb <> Some name) kbs
  | StatusNot200 _ => True
  end ->
  let form := {| form_name := name; form_description := description;
                 form_data := default "{}" data;
                 form_access_control := default "{}" access_control |} in
  let created := knowledge_create store form (knowledge_list store s).2 in
  let r := create_knowledge_if_not_exists store name description data access_control s in
  calls r = [EvKnowledgeList (knowledge_list store s).1; EvKnowledgeCreate form created.1]
  /\ store_after r = created.2
  /\ outcome r = Return (match created.1 with
                         | Status200 (Some kb_id) =>
                             if String.eqb kb_id "" then None else Some kb_id
                         | _ => None
                         end)
  /\ (outcome r = Return None ->
      exists msg, logged r = [{| levelname := "ERROR"; message := msg |}])
  /\ (forall kb_id, outcome r = Return (Some kb_id) -> kb_id <> "" /\ logged r = []).
Proof.
  intros Hlist form created r. subst r created.
  assert (Hfind : match (knowledge_list store s).1 with
                  | Status200 kbs =>
                      List.find (fun kb => bool_decide (kb_name kb = Some name)) kbs
                  | StatusNot200 _ => None
                  end = None).
  { destruct (knowledge_list store s).1 as [kbs|text]; [|done].
    induction Hlist as [|kb kbs Hkb _ IH]; [done|].
    cbn [List.find]. by rewrite bool_decide_eq_false_2. }
  unfold create_knowledge_if_not_exists, bind, request. fold form.
  destruct (knowledge_list store s) as [resp s1].
  cbn [fst snd outcome store_after calls logged] in *. rewrite Hfind.
  destruct (knowledge_create store form s1) as [[kb_id|text] s2];
    cbn [fst snd outcome store_after calls logged app].
  - destruct kb_id as [kb_id|]; cbn [opt_truthy negb].
    + unfold str_truthy.
      destruct (String.eqb_spec kb_id "") as [->|Hne]; cbn [negb].
      * cbn. do 3 (split; [done|]). split; [by eexists|]. by intros ? [=].
      * cbn. do 3 (split; [done|]). split; [by intros [=]|].
        intros ? [= <-]. done.
    + cbn. do 3 (split; [done|]). split; [by eexists|]. by intros ? [=].
  - cbn. do 3 (split; [done|]). split; [by eexists|]. by intros ? [=].
Qed.

Lemma create_knowledge_without_match_witness :
  let form := {| form_name := "docs"; form_description := "test";
                 form_data := default "{}" None;
                 form_access_control := default "{}" None |} in
  let created := knowledge_create unreachable_store form
                   (knowledge_list unreachable_store tt).2 in
  let r := create_knowledge_if_not_exists unreachable_store "docs" "test" None None tt in
  calls r = [EvKnowledgeList (knowledge_list unreachable_store tt).1;
             EvKnowledgeCreate form created.1]
  /\ store_after r = created.2
  /\ outcome r = Return (match created.1 with
                         | Status200 (Some kb_id) =>
                             if String.eqb kb_id "" then None else Some kb_id
                         | _ => None
                         end)
  /\ (outcome r = Return None ->
      exists msg, logged r = [{| levelname := "ERROR"; message := msg |}])
  /\ (forall kb_id, outcome r = Return (Some kb_id) -> kb_id <> "" /\ logged r = []).
Proof.
  apply (create_knowledge_without_match unreachable_store "docs" "test" None None tt).
  simpl. exact I.
Defined.

(** ** delete_knowledge and query_knowledge *)

(** X24: [delete_knowledge] sends one delete request for the given
    knowledge base and reports its status: the success flag of the
    record is true exactly for status 200, the record carries the
    response body as result or the response text as error, and an error
    is logged exactly when the request failed. *)
Theorem delete_knowledge_result {R : Type} (store : RemoteStore R)
    (knowledge_id : string) (s : R) :
  let resp := knowledge_delete store knowledge_id s in
  let r := delete_knowledge store knowledge_id s in
  calls r = [EvKnowledgeDelete knowledge_id resp.1]
  /\ store_after r = resp.2
  /\ exists rec,
       outcome r = Return rec
       /\ dict_get "success" rec = Some (PyBool (response_ok resp.1))
       /\ match resp.1 with
          | Status200 j =>
              dict_get "result" rec = Some (PyJson j) /\ logged r = []
          | StatusNot200 text =>
              dict_get "error" rec = Some (PyStr text)
              /\ exists msg, logged r = [{| levelname := "ERROR"; message := msg |}]
          end.
Proof.
  intros resp r. subst resp r. unfold delete_knowledge, bind, request.
  destruct (knowledge_delete store knowledge_id s) as [[j|text] s'];
    cbn [fst snd outcome store_after calls logged app response_ok].
  - do 2 (split; [done|]). eexists. split; [reflexivity|]. by cbn.
  - do 2 (split; [done|]). eexists. split; [reflexivity|]. cbn.
    do 2 (split; [done|]). by eexists.
Qed.

(** X25: [query_knowledge] with [as_user] set falls back to the headers
    of the manager when the environment has no test-user key, or an
    empty one: the run is the one of a query that was not made as user. *)
Theorem query_knowledge_as_user_fallback {R : Type}
    (retrieval_query : QueryRequest -> R -> Response Json * R)
    (environ : string -> option string) (self : KnowledgeManager)
    (knowledge_ids : list string) (query : string) (top_k : Z) (s : R) :
  opt_truthy (environ "OPEN_WEBUI_TEST_USER_API_KEY") = false ->
  query_knowledge retrieval_query environ self knowledge_ids query top_k true s
  = query_knowledge retrieval_query environ self knowledge_ids query top_k false s.
Proof.
  intros Henv. unfold query_knowledge. by rewrite Henv.
Qed.

Lemma query_knowledge_as_user_fallback_witness :
  query_knowledge (fun _ (s : unit) => (StatusNot200 "503", s))
    (fun _ => Some "") (example_manager 3) ["kb-0"] "test" 5 true tt
  = query_knowledge (fun _ (s : unit) => (StatusNot200 "503", s))
      (fun _ => Some "") (example_manager 3) ["kb-0"] "test" 5 false tt.
Proof.
  apply (query_knowledge_as_user_fallback (fun _ (s : unit) => (StatusNot200 "503", s))
           (fun _ => Some "") (example_manager 3) ["kb-0"] "test" 5 tt).
  reflexivity.
Defined.

(** X26: a query made as user with a test-user key in the environment
    carries that key as its only header and none of the manager's: the
    run does not depend on the manager's API key.  The query is one
    request with the given collection names, query and [k]; the result
    is the response body for status 200 and the empty list for every
    other status, so a failed query returns what a query answered with
    an empty list returns. *)
Theorem query_knowledge_as_user_headers {R : Type}
    (retrieval_query : QueryRequest -> R -> Response Json * R)
    (environ : string -> option string) (self : KnowledgeManager)
    (knowledge_ids : list string) (query : string) (top_k : Z) (s : R)
    (user_key : string) :
  environ "OPEN_WEBUI_TEST_USER_API_KEY" = Some user_key ->
  user_key <> "" ->
  let req := {| query_headers := [("Authorization", "Bearer " +:+ user_key)];
                collection_names := knowledge_ids;
                query_text := query; query_k := top_k |} in
  let r := query_knowledge retrieval_query environ self knowledge_ids query top_k true s in
  query_calls r = [req]
  /\ query_store_after r = (retrieval_query req s).2
  /\ query_result r = match (retrieval_query req s).1 with
                      | Status200 body => body
                      | StatusNot200 _ => "[]"
                      end
  /\ (forall self2,
        query_knowledge retrieval_query environ self2 knowledge_ids query top_k true s
        = r).
Proof.
  intros Henv Hne req r. subst r. unfold query_knowledge.
  rewrite Henv. cbn [opt_truthy from_option andb]. unfold str_truthy.
  rewrite (proj2 (String.eqb_neq _ _) Hne). cbn [negb]. unfold Datatypes.id. fold req.
  destruct (retrieval_query req s) as [[j|text] s']; cbn; by repeat split.
Qed.

Lemma query_knowledge_as_user_headers_witness :
  let retrieval_query := fun (_ : QueryRequest) (s : unit) =>
                           (StatusNot200 "503" : Response Json, s) in
  let environ := fun _ : string => Some "user-secret" in
  let req := {| query_headers := [("Authorization", "Bearer " +:+ "user-secret")];
                collection_names := ["kb-0"];
                query_text := "test"; query_k := 5 |} in
  let r := query_knowledge retrieval_query environ (example_manager 3) ["kb-0"] "test" 5
             true tt in
  query_calls r = [req]
  /\ query_store_after r = (retrieval_query req tt).2
  /\ query_result r = match (retrieval_query req tt).1 with
                      | Status200 body => body
                      | StatusNot200 _ => "[]"
                      end
  /\ (forall self2,
        query_knowledge retrieval_query environ self2 ["kb-0"] "test" 5 true tt = r).
Proof.
  apply (query_knowledge_as_user_headers
           (fun (_ : QueryRequest) (s : unit) => (StatusNot200 "503" : Response Json, s))
           (fun _ : string => Some "user-secret") (example_manager 3) ["kb-0"] "test" 5 tt
           "user-secret").
  - reflexivity.
  - discriminate.
Defined.

(** ** Instances of the resolvers *)

Lemma find_file_first_match_witness :
  exists pre post,
    [stale_file] = pre ++ stale_file :: post
    /\ _get_item_url_of_file example_key (Some stale_file)
       = url (metadata (example_metadata (Some "https://example.com/test")))
    /\ opt_truthy (url (metadata (example_metadata (Some "https://example.com/test"))))
       = true
    /\ Forall (fun kf => _get_item_url_of_file example_key (Some kf)
                         <> url (metadata (example_metadata
                                             (Some "https://example.com/test")))) pre.
Proof.
  apply (find_file_first_match example_key [stale_file]
           (metadata (example_metadata (Some "https://example.com/test"))) stale_file).
  vm_compute. reflexivity.
Defined.

Lemma find_file_needs_url_witness :
  _get_file_meta_if_exists_in_knowledge example_key [stale_file]
    (metadata (example_metadata None)) = None.
Proof.
  apply (find_file_needs_url example_key [stale_file] (metadata (example_metadata None))).
  reflexivity.
Defined.

Lemma add_skips_iff_update_finds_witness :
  to_upload (existing_files_set example_key [stale_file])
    (example_metadata (Some "https://example.com/test")) = false
  <-> is_Some (_get_file_meta_if_exists_in_knowledge example_key [stale_file]
                 (metadata (example_metadata (Some "https://example.com/test")))).
Proof.
  apply (add_skips_iff_update_finds example_key [stale_file]
           (example_metadata (Some "https://example.com/test"))).
  reflexivity.
Defined.

(** ** The client session *)

Lemma get_sessions_none n : forall st,
  session st = None ->
  get_sessions n st
  = (seq (opened st) n,
     {| session := None; opened := opened st + n; closed := closed st |}).
Proof.
  induction n as [|n IH]; intros [ses op cl] Hnone; cbn in Hnone; subst ses.
  - cbn. by rewrite Nat.add_0_r.
  - cbn [get_sessions _get_session session opened closed].
    rewrite IH by done. cbn [session opened closed seq].
    by rewrite Nat.add_succ_r.
Qed.

Lemma get_sessions_some n : forall st i,
  session st = Some i -> get_sessions n st = (replicate n i, st).
Proof.
  induction n as [|n IH]; intros st i Hsome; [done|].
  cbn [get_sessions]. unfold _get_session. rewrite Hsome.
  by rewrite (IH st i Hsome).
Qed.

(** X27: outside the context manager no session is kept.  While
    [self.session] is [None], every call of [_get_session] creates a new
    session and returns it, [self.session] stays [None], and none of the
    sessions is closed. *)
Theorem get_session_without_context (n : nat) (st : SessionState) :
  session st = None ->
  (get_sessions n st).1 = seq (opened st) n
  /\ NoDup (get_sessions n st).1
  /\ session (get_sessions n st).2 = None
  /\ opened (get_sessions n st).2 = (opened st + n)%nat
  /\ closed (get_sessions n st).2 = closed st.
Proof.
  intros Hnone. rewrite get_sessions_none by done. cbn [fst snd session opened closed].
  split; [done|]. split; [apply NoDup_ListNoDup, List.seq_NoDup|]. done.
Qed.

Lemma get_session_without_context_witness :
  (get_sessions 3 no_session).1 = seq (opened no_session) 3
  /\ NoDup (get_sessions 3 no_session).1
  /\ session (get_sessions 3 no_session).2 = None
  /\ opened (get_sessions 3 no_session).2 = (opened no_session + 3)%nat
  /\ closed (get_sessions 3 no_session).2 = closed no_session.
Proof.
  apply (get_session_without_context 3 no_session). reflexivity.
Defined.

(** X28: inside the context manager one session serves every request.
    [__aenter__] creates a session, every [_get_session] until
    [__aexit__] returns that session and creates none, and [__aexit__]
    closes it and resets [self.session]; a second [__aexit__] does
    nothing. *)
Theorem get_session_within_context (n : nat) (st : SessionState) :
  let entered := __aenter__ st in
  let used := get_sessions n entered in
  let left := __aexit__ used.2 in
  used.1 = replicate n (opened st)
  /\ used.2 = entered
  /\ session left = None
  /\ opened left = S (opened st)
  /\ closed left = opened st :: closed st
  /\ __aexit__ left = left.
Proof.
  intros entered used left. subst left used.
  rewrite (get_sessions_some n entered (opened st)) by done.
  by cbn.
Qed.

(** ** create_knowledge_if_not_exists with a match *)

Lemma find_first_match {A : Type} (f : A -> bool) (pre : list A) (x : A)
    (post : list A) :
  Forall (fun y => f y = false) pre -> f x = true ->
  List.find f (pre ++ x :: post) = Some x.
Proof.
  intros Hpre Hx. induction Hpre as [|y pre Hy _ IH]; cbn [app List.find].
  - by rewrite Hx.
  - by rewrite Hy.
Qed.

(** X29: when the listing succeeds and lists a knowledge base of the
    requested name, [create_knowledge_if_not_exists] returns the id of
    the first such base in the order of the listing, compared by exact
    name; the listing is its only request, so nothing is created, and
    nothing is logged. *)
Theorem create_knowledge_returns_first_match {R : Type} (store : RemoteStore R)
    (name description : string) (data access_control : option Json) (s : R)
    (pre : list KnowledgeSummary) (kb : KnowledgeSummary)
    (post : list KnowledgeSummary) :
  (knowledge_list store s).1 = Status200 (pre ++ kb :: post) ->
  Forall (fun other => kb_name other <> Some name) pre ->
  kb_name kb = Some name ->
  create_knowledge_if_not_exists store name description data access_control s
  = MkRun (Return (kb_id kb)) (knowledge_list store s).2
          [EvKnowledgeList (Status200 (pre ++ kb :: post))] [].
Proof.
  intros Hlist Hpre Hkb. apply create_found; [exact Hlist|].
  apply find_first_match.
  - eapply Forall_impl; [exact Hpre|]. intros other Hne.
    by apply bool_decide_eq_false_2.
  - by apply bool_decide_eq_true_2.
Qed.

Lemma create_knowledge_returns_first_match_witness :
  create_knowledge_if_not_exists (RefStore.store example_key) "docs" "test" None None
    example_store
  = MkRun (Return (kb_id {| kb_name := Some "docs"; kb_id := Some "kb-0" |}))
          (knowledge_list (RefStore.store example_key) example_store).2
          [EvKnowledgeList
             (Status200 ([] ++ {| kb_name := Some "docs"; kb_id := Some "kb-0" |} :: []))]
          [].
Proof.
  apply (create_knowledge_returns_first_match (RefStore.store example_key) "docs" "test"
           None None example_store []
           {| kb_name := Some "docs"; kb_id := Some "kb-0" |} []).
  - reflexivity.
  - constructor.
  - reflexivity.
Defined.

(** X30: on a store whose listing works and shows what was created, two
    calls in a row with the same name return the same id, which is the
    id of the first knowledge base of that name in the store; the
    second call sends nothing but the listing and changes nothing, and
    afterwards there is one knowledge base of that name, or as many as
    there were before the calls. *)
Theorem create_knowledge_twice_on_reference_store (key name description : string)
    (data access_control : option Json) (s : RefStore.State) :
  let r1 := create_knowledge_if_not_exists (RefStore.store key) name description
              data access_control s in
  let r2 := create_knowledge_if_not_exists (RefStore.store key) name description
              data access_control (store_after r1) in
  exists kb,
    RefStore.find_named name (store_after r2) = Some kb
    /\ outcome r1 = Return (Some (RefStore.kid kb))
    /\ outcome r2 = Return (Some (RefStore.kid kb))
    /\ calls r2
       = [EvKnowledgeList
            (Status200 (RefStore.summary <$> RefStore.knowledge_bases (store_after r1)))]
    /\ store_after r2 = store_after r1
    /\ RefStore.bases_named name (store_after r2)
       = Nat.max 1 (RefStore.bases_named name s).
Proof. apply ref_create_twice. Qed.
